(** * cloud-monte-carlo: the simulation engine and the file-backed job store

    A shallow embedding of [app/simulation.py], [app/utils.py] and
    [app/app.py].

    Conventions of the embedding.
    - Python [int] is [Z]. A Python [float] that the code only computes
      from finite values is an exact rational [Q]; one that can be an
      infinity or NaN is an extended value [xfloat] (a rational, an
      infinity or NaN): the thickness, the path lengths, which the code
      fills with [np.inf] when the attenuation coefficient is not positive,
      and the histogram edges. The numpy operations follow the IEEE rules
      for the special values, and the product [thickness * 2] overflows to
      an infinity beyond the largest double. The rounding of finite values
      is not part of the embedding.
    - Exceptions are an explicit outcome [Raise e]; every call of the
      random generator is recorded in a log, so that "nothing was sampled"
      is a statement about the log.
    - What the process reads from its surroundings (the clock, the entropy
      pool of the operating system, the number of CPUs) is an explicit
      [env] argument.
    - The four directories under [data/] are finite maps from job id to
      file contents. A file holds the object that was written, or the
      cut-off text that a write leaves when it fails after opening the
      file.
    - The request threads and the worker thread interleave between file
      operations: each [write_json], [read_json], [os.rename] and
      [os.remove] is one step, and a request can be overtaken between its
      two writes. *)

From Stdlib Require Import ZArith QArith Qround Qminmax List Lia Bool Lqa Ascii.
From stdpp Require Import gmap strings list.
Import ListNotations.

Local Open Scope Z_scope.

(** ** Extended floating-point values *)

Module XFloat.

Inductive xfloat : Type :=
  | Fin (q : Q)
  | PInf
  | NInf
  | NaN.

Definition is_nan (x : xfloat) : bool :=
  match x with NaN => true | _ => false end.

Definition is_fin (x : xfloat) : bool :=
  match x with Fin _ => true | _ => false end.

Definition Qltb (a b : Q) : bool := negb (Qle_bool b a).

(** Sign of a value that is not NaN: [Lt], [Eq] or [Gt]. *)
Definition xsign (x : xfloat) : comparison :=
  match x with
  | Fin q => Qcompare q 0
  | PInf => Gt
  | NInf => Lt
  | NaN => Eq
  end.

Definition xneg (x : xfloat) : xfloat :=
  match x with
  | Fin q => Fin (- q)
  | PInf => NInf
  | NInf => PInf
  | NaN => NaN
  end.

Definition xadd (x y : xfloat) : xfloat :=
  match x, y with
  | NaN, _ | _, NaN => NaN
  | Fin a, Fin b => Fin (a + b)
  | PInf, NInf | NInf, PInf => NaN
  | PInf, _ | _, PInf => PInf
  | NInf, _ | _, NInf => NInf
  end.

Definition xsub (x y : xfloat) : xfloat := xadd x (xneg y).

(** The product of two values of which one at least is infinite. *)
Definition inf_of_signs (s t : comparison) : xfloat :=
  match s, t with
  | Eq, _ | _, Eq => NaN
  | Gt, Gt | Lt, Lt => PInf
  | _, _ => NInf
  end.

Definition xmul (x y : xfloat) : xfloat :=
  match x, y with
  | NaN, _ | _, NaN => NaN
  | Fin a, Fin b => Fin (a * b)
  | _, _ => inf_of_signs (xsign x) (xsign y)
  end.

(** numpy's true division of scalars: a zero divisor gives an infinity or
    NaN, it does not raise. *)
Definition xdiv (x y : xfloat) : xfloat :=
  match x, y with
  | NaN, _ | _, NaN => NaN
  | Fin a, Fin b =>
      if Qeq_bool b 0 then inf_of_signs (Qcompare a 0) Gt else Fin (a / b)
  | Fin _, _ => Fin 0
  | _, Fin b => if Qeq_bool b 0 then x else inf_of_signs (xsign x) (Qcompare b 0)
  | _, _ => NaN
  end.

(** Comparisons; every comparison with NaN is false. *)
Definition xltb (x y : xfloat) : bool :=
  match x, y with
  | NaN, _ | _, NaN => false
  | Fin a, Fin b => Qltb a b
  | _, NInf => false
  | PInf, _ => false
  | _, _ => true
  end.

Definition xleb (x y : xfloat) : bool :=
  match x, y with
  | NaN, _ | _, NaN => false
  | Fin a, Fin b => Qle_bool a b
  | NInf, _ => true
  | _, PInf => true
  | _, _ => false
  end.

Definition xgtb (x y : xfloat) : bool := xltb y x.

(** Equality of floats, [==]: NaN is equal to nothing. *)
Definition xeqb (x y : xfloat) : bool :=
  match x, y with
  | Fin a, Fin b => Qeq_bool a b
  | PInf, PInf | NInf, NInf => true
  | _, _ => false
  end.

(** Python's builtin [max(a, b)]: the first argument unless the second is
    strictly greater. *)
Definition pymax (a b : xfloat) : xfloat := if xgtb b a then b else a.

(** The largest double, [sys.float_info.max]. *)
Definition MAX_FLOAT : Q := inject_Z (2 ^ 1024 - 2 ^ 971).

(** A double cannot hold a value beyond [MAX_FLOAT]: the operation that
    computes one returns an infinity. *)
Definition overflow (x : xfloat) : xfloat :=
  match x with
  | Fin q => if Qltb MAX_FLOAT q then PInf
             else if Qltb q (- MAX_FLOAT) then NInf else x
  | _ => x
  end.

End XFloat.
Export XFloat.

(** ** The numpy functions the engine calls *)

Module Numpy.

(** The order numpy sorts by: the usual one, NaN last. *)
Definition sort_le (x y : xfloat) : bool :=
  match x, y with
  | _, NaN => true
  | NaN, _ => false
  | _, _ => xleb x y
  end.

Fixpoint insert_sorted (x : xfloat) (l : list xfloat) : list xfloat :=
  match l with
  | [] => [x]
  | y :: l' => if sort_le x y then x :: l else y :: insert_sorted x l'
  end.

Definition sort (l : list xfloat) : list xfloat :=
  fold_right insert_sorted [] l.

(** [_lerp(a, b, t)] of numpy's quantile code. *)
Definition lerp (a b : xfloat) (t : Q) : xfloat :=
  let diff_b_a := xsub b a in
  if Qle_bool (1 # 2) t
  then xsub b (xmul diff_b_a (Fin (1 - t)))
  else xadd a (xmul diff_b_a (Fin t)).

(** [np.percentile(a, q)] with the default linear interpolation: the value
    at the virtual index [(n - 1) * q / 100] of the sorted array. *)
Definition percentile (a : list xfloat) (q : Q) : xfloat :=
  let arr := sort a in
  let n := Z.of_nat (length arr) in
  if (n =? 0) || existsb is_nan arr then NaN
  else
    let virtual_index := (inject_Z (n - 1) * (q / 100))%Q in
    if Qle_bool (inject_Z (n - 1)) virtual_index then
      let v := nth (Z.to_nat (n - 1)) arr NaN in lerp v v 0
    else if Qltb virtual_index 0 then
      let v := nth 0%nat arr NaN in lerp v v 0
    else
      let previous_index := Qfloor virtual_index in
      let gamma := (virtual_index - inject_Z previous_index)%Q in
      lerp (nth (Z.to_nat previous_index) arr NaN)
           (nth (Z.to_nat (previous_index + 1)) arr NaN)
           gamma.

(** [np.linspace(start, stop, num)] with [endpoint=True]. *)
Definition linspace (start stop : xfloat) (num : nat) : list xfloat :=
  let div := inject_Z (Z.of_nat num - 1) in
  let step := xdiv (xsub stop start) (Fin div) in
  let y := map (fun i : nat => xadd (xmul (Fin (inject_Z (Z.of_nat i))) step) start)
               (seq 0 num) in
  if (1 <? num)%nat then removelast y ++ [stop] else y.

Definition count_if (f : xfloat -> bool) (a : list xfloat) : Z :=
  Z.of_nat (length (List.filter f a)).

(** The strict order of numpy's sort and search: NaN is above everything
    else. *)
Definition sort_lt (x y : xfloat) : bool := negb (sort_le y x).

(** [a.searchsorted(v, 'left')] and [a.searchsorted(v, 'right')] on the
    sorted data: how many elements are below [v], resp. not above it, in
    the order of the sort. *)
Definition searchsorted_left (a : list xfloat) (v : xfloat) : Z :=
  count_if (fun x => sort_lt x v) a.

Definition searchsorted_right (a : list xfloat) (v : xfloat) : Z :=
  count_if (fun x => sort_le x v) a.

(** [_search_sorted_inclusive]: left for every edge but the last. *)
Definition search_sorted_inclusive (a edges : list xfloat) : list Z :=
  match edges with
  | [] => []
  | _ => map (searchsorted_left a) (removelast edges)
         ++ [searchsorted_right a (List.last edges NaN)]
  end.

(** [np.diff]. *)
Fixpoint diff (l : list Z) : list Z :=
  match l with
  | x :: ((y :: _) as tl) => (y - x) :: diff tl
  | _ => []
  end.

(** [bin_edges[:-1] > bin_edges[1:]] somewhere. *)
Fixpoint decreases (edges : list xfloat) : bool :=
  match edges with
  | x :: ((y :: _) as tl) => xgtb x y || decreases tl
  | _ => false
  end.

End Numpy.

(** ** Exceptions and the sampling log *)

Module Py.

Inductive exn : Type :=
  | ValueError (msg : string)
  | ZeroDivisionError
  | TypeError
  | KeyError (key : string)
  | OverflowError
  | OSError.

Inductive outcome (A : Type) : Type :=
  | Ok (a : A)
  | Raise (e : exn).
Arguments Ok {A} a.
Arguments Raise {A} e.

(** One call [rng.exponential(scale, size)] on the generator made from
    [seed]. *)
Record draw : Type := Draw { draw_seed : Z; draw_scale : Q; draw_size : Z }.

(** A computation: the draws it made, in order, and how it ended. *)
Definition M (A : Type) : Type := (list draw * outcome A)%type.

Definition ret {A} (a : A) : M A := ([], Ok a).
Definition raise {A} (e : exn) : M A := ([], Raise e).
Definition tell (d : draw) : M unit := ([d], Ok tt).

Definition bind {A B} (m : M A) (k : A -> M B) : M B :=
  match m with
  | (l, Ok a) => let (l', r) := k a in (l ++ l', r)
  | (l, Raise e) => (l, Raise e)
  end.

Notation "x <- m ;; k" := (bind m (fun x => k))
  (at level 100, m at next level, right associativity).

(** Run [f] on every element, left to right, until one raises. *)
Fixpoint for_each {A B} (f : A -> M B) (l : list A) : M (list B) :=
  match l with
  | [] => ret []
  | a :: l' => b <- f a ;; bs <- for_each f l' ;; ret (b :: bs)
  end.

Definition drawn {A} (m : M A) : list draw := fst m.
Definition result_of {A} (m : M A) : outcome A := snd m.

(** Python's [a / b] on floats and [a // b], [a % b] on ints. *)
Definition truediv (a b : Q) : M Q :=
  if Qeq_bool b 0 then raise ZeroDivisionError else ret (a / b)%Q.

Definition floordiv (a b : Z) : M Z :=
  if b =? 0 then raise ZeroDivisionError else ret (a / b).

Definition pymod (a b : Z) : M Z :=
  if b =? 0 then raise ZeroDivisionError else ret (a mod b).

(** [range(n)]. *)
Definition range (n : Z) : list Z := map Z.of_nat (seq 0 (Z.to_nat n)).

End Py.
Export Py.

(** ** app/simulation.py *)

Module Simulation.

(** What a call reads from the process around it. *)
Record env : Type := Env {
  time_start : Q;      (* [time.time()] on entry *)
  time_end : Q;        (* [time.time()] before the result is built *)
  entropy : N;         (* fresh entropy of the operating system *)
  cpu_avail : Z        (* [cpu_count()] *)
}.

(** [MATERIAL_MU]: attenuation coefficients in 1/mm. *)
Definition MATERIAL_MU : list (string * Q) :=
  [ ("Aluminum"%string, 15 # 100);
    ("Lead"%string, 12 # 10);
    ("Water"%string, 8 # 100) ].

Fixpoint dict_get {V} (d : list (string * V)) (k : string) : option V :=
  match d with
  | [] => None
  | (k', v) :: d' => if String.eqb k k' then Some v else dict_get d' k
  end.

Record params : Type := Params {
  p_material : option string;
  p_thickness : option xfloat;
  p_samples : option Z;
  p_seed : option Z
}.

Record result : Type := Result {
  r_material : string;
  r_thickness : xfloat;
  r_samples : Z;
  transmitted : Z;
  transmitted_fraction : Q;
  bins : list xfloat;
  counts : list Z;
  runtime_seconds : Q;
  parallel_used : bool;
  workers : Z
}.

Section Engine.

(** The generator: [std_exp s k] is the [k]-th standard exponential variate
    of the stream that [np.random.default_rng(s)] starts. *)
Variable std_exp : Z -> nat -> Q.

(** [np.random.default_rng(seed)]; a negative seed is refused, no seed
    means fresh entropy. The generator is identified by its seed. *)
Definition default_rng (rng_seed : option Z) (e : env) : M Z :=
  match rng_seed with
  | Some s => if s <? 0 then raise (ValueError "expected non-negative integer")
              else ret s
  | None => ret (Z.of_N (entropy e))
  end.

(** [rng.exponential(scale=scale, size=size)]. *)
Definition exponential (rng : Z) (scale : Q) (size : Z) : M (list xfloat) :=
  if size <? 0 then raise (ValueError "negative dimensions are not allowed")
  else
    _ <- tell (Draw rng scale size) ;;
    ret (map (fun k => Fin (scale * std_exp rng k)) (seq 0 (Z.to_nat size))).

(** [np.full(size, fill)]. *)
Definition np_full (size : Z) (fill : xfloat) : M (list xfloat) :=
  if size <? 0 then raise (ValueError "negative dimensions are not allowed")
  else ret (repeat fill (Z.to_nat size)).

Definition single_chunk_sim (samples : Z) (mu : Q) (thickness : xfloat)
    (rng_seed : option Z) (e : env) : M (Z * list xfloat) :=
  rng <- default_rng rng_seed e ;;
  paths <- (if Qle_bool mu 0 then np_full samples PInf
            else scale <- truediv 1 mu ;; exponential rng scale samples) ;;
  let transmitted := Numpy.count_if (fun p => xgtb p thickness) paths in
  ret (transmitted, paths).

(** A task of the pool: the arguments of one [single_chunk_sim] call. *)
Record chunk : Type := Chunk {
  chunk_cnt : Z; chunk_mu : Q; chunk_thickness : xfloat; chunk_seed : Z
}.

(** [seed or np.random.SeedSequence().entropy]: a seed of [None] or of [0]
    is falsy. *)
Definition offset_seed_of (seed : option Z) (e : env) : Z :=
  match seed with
  | Some s => if s =? 0 then Z.of_N (entropy e) else s
  | None => Z.of_N (entropy e)
  end.

(** The loop that fills [chunks]. *)
Definition make_chunks (samples n_workers : Z) (mu : Q) (thickness : xfloat)
    (offset_seed : Z) : M (list chunk) :=
  base <- floordiv samples n_workers ;;
  rem <- pymod samples n_workers ;;
  ret (flat_map
         (fun i => let cnt := base + (if i <? rem then 1 else 0) in
                   if 0 <? cnt then [Chunk cnt mu thickness (offset_seed + i)]
                   else [])
         (range n_workers)).

(** [Pool(processes=len(chunks))] and [p.starmap(single_chunk_sim, chunks)]:
    the results come back in the order of the tasks. *)
Definition pool_starmap (chunks : list chunk) (e : env)
    : M (list (Z * list xfloat)) :=
  if (length chunks =? 0)%nat
  then raise (ValueError "Number of processes must be at least 1")
  else for_each (fun c => single_chunk_sim (chunk_cnt c) (chunk_mu c)
                        (chunk_thickness c) (Some (chunk_seed c)) e) chunks.

(** The default of [n_workers] in parallel mode. *)
Definition resolve_workers (n_workers : option Z) (e : env) : Z :=
  match n_workers with
  | Some n => n
  | None => Z.min 4 (Z.max 1 (cpu_avail e))
  end.

(** Lines 53-80: the transmitted total and all sampled path lengths. *)
Definition sample_paths (samples : Z) (mu : Q) (thickness : xfloat)
    (seed : option Z) (parallel : bool) (n_workers : option Z) (e : env)
    : M (Z * list xfloat) :=
  if parallel then
    let n_workers := resolve_workers n_workers e in
    chunks <- make_chunks samples n_workers mu thickness (offset_seed_of seed e) ;;
    results <- pool_starmap chunks e ;;
    let transmitted_total := fold_left (fun acc r => acc + fst r) results 0 in
    let all_paths := concat (map snd results) in
    ret (transmitted_total, all_paths)
  else single_chunk_sim samples mu thickness seed e.

(** [np.histogram(a, bins=bins)] for an array of edges. *)
Definition histogram (a edges : list xfloat) : M (list Z * list xfloat) :=
  if Numpy.decreases edges
  then raise (ValueError "`bins` must increase monotonically, when an array")
  else ret (Numpy.diff (Numpy.search_sorted_inclusive a edges), edges).

(** The upper end of the histogram range (argument of [np.linspace]):
    [max(thickness * 2, np.percentile(all_paths, 95) if all_paths.size else
    thickness)]. The product is a Python float product and overflows. *)
Definition histogram_top (thickness : xfloat) (all_paths : list xfloat) : xfloat :=
  pymax (overflow (xmul thickness (Fin 2)))
        (if (length all_paths =? 0)%nat then thickness
         else Numpy.percentile all_paths 95).

(** [run_simulation]; the matplotlib figure it also returns is left out. *)
Definition run_simulation (p : params) (parallel : bool)
    (n_workers : option Z) (e : env) : M result :=
  let start := time_start e in
  let material := default "Aluminum"%string (p_material p) in
  let thickness := default (Fin 1) (p_thickness p) in
  let samples := default 500 (p_samples p) in
  let seed := p_seed p in
  match dict_get MATERIAL_MU material with
  | None => raise (ValueError "Unknown material")
  | Some mu =>
      sampled <- sample_paths samples mu thickness seed parallel n_workers e ;;
      let '(transmitted_total, all_paths) := sampled in
      transmitted_fraction <- truediv (inject_Z transmitted_total) (inject_Z samples) ;;
      let bins := Numpy.linspace (Fin 0) (histogram_top thickness all_paths) 20 in
      hist <- histogram all_paths bins ;;
      let '(counts, edges) := hist in
      let runtime := (time_end e - start)%Q in
      ret {| r_material := material;
             r_thickness := thickness;
             r_samples := samples;
             transmitted := transmitted_total;
             transmitted_fraction := transmitted_fraction;
             bins := edges;
             counts := counts;
             runtime_seconds := runtime;
             parallel_used := parallel;
             workers := if parallel then resolve_workers n_workers e else 1 |}
  end.

End Engine.

End Simulation.

(** ** app/utils.py and app/app.py: the job store, the submit handler and
       the worker loop *)

Module App.

(** A JSON value of the request body. A number with a fraction or an
    exponent is a float, and so are the literals [NaN], [Infinity] and
    [-Infinity], which Python's parser accepts; of an array or an object
    only its emptiness matters here. *)
Inductive json : Type :=
  | JNull
  | JBool (b : bool)
  | JInt (z : Z)
  | JFloat (x : xfloat)
  | JStr (s : string)
  | JCompound (empty : bool).

(** The body of [POST /api/submit], a JSON object; [None] is an absent
    key. (On a body that is no object, [payload.get] raises at line 51,
    before anything is read or written.) *)
Record payload : Type := Payload {
  pl_material : option json;
  pl_thickness : option json;
  pl_samples : option json;
  pl_parallel : option json
}.

Definition MAX_SAMPLES : Z := 1000.
Definition ALLOWED_MATERIALS : list string :=
  ["Aluminum"; "Lead"; "Water"]%string.
(** The floats [0.1, 0.5, 1.0, 2.0]; the first is the double next to one
    tenth. *)
Definition ALLOWED_THICKNESSES : list xfloat :=
  [Fin (3602879701896397 # 36028797018963968); Fin (1 # 2); Fin 1; Fin 2].

(** The files of the four directories. *)
Record job_obj : Type := JobObj {
  job_id : string;
  material : string;
  thickness : xfloat;
  samples : Z;
  parallel : bool;
  created_at : Q
}.

Record status_record : Type := StatusRecord {
  st_job_id : string;
  st_status : string;
  st_time_key : string;    (* "created_at", "start_time" or "completed_at" *)
  st_time : Q
}.

Record result_meta : Type := ResultMeta {
  rm_result : Simulation.result;
  rm_job_id : string;
  rm_plot : string;
  rm_completed_at : Q
}.

(** What a file holds: the object that [json.dump] wrote, or what a write
    that failed after [open(path, "w")] left behind, an empty or cut-off
    text that [json.load] refuses. *)
Inductive file (A : Type) : Type :=
  | Intact (a : A)
  | Truncated.
Arguments Intact {A} a.
Arguments Truncated {A}.

(** [data/jobs] (each file with its ctime), [data/processing],
    [data/status], [data/results]; the key is the job id of the file name
    [<job_id>.json]. *)
Record store : Type := Store {
  jobs : gmap string (Q * file job_obj);
  processing : gmap string (file job_obj);
  status : gmap string (file status_record);
  results : gmap string (file result_meta)
}.

Definition empty_store : store := Store ∅ ∅ ∅ ∅.

(** A computation on the store that may raise. *)
Definition FS (A : Type) : Type := store -> outcome A * store.

Definition fs_ret {A} (a : A) : FS A := fun st => (Ok a, st).
Definition fs_raise {A} (e : exn) : FS A := fun st => (Raise e, st).
Definition fs_bind {A B} (m : FS A) (k : A -> FS B) : FS B :=
  fun st => match m st with
            | (Ok a, st') => k a st'
            | (Raise e, st') => (Raise e, st')
            end.
Definition fs_lift {A} (o : outcome A) : FS A := fun st => (o, st).

Notation "x <~ m ;; k" := (fs_bind m (fun x => k))
  (at level 100, m at next level, right associativity).

(** The content a write leaves in its file: the object when the write
    succeeds ([io_ok]); nothing readable when it fails after [open] had
    truncated or created the file ([opened]); when it fails before that the
    file is as it was, or still absent ([None]). *)
Definition written {A} (io_ok opened : bool) (a : A) : option (file A) :=
  if io_ok then Some (Intact a) else if opened then Some Truncated else None.

(** [write_json] into each directory: [open(path, "w")], then [json.dump].
    A write that does not succeed raises. *)
Definition write_job (io_ok opened : bool) (jid : string) (ctime : Q) (obj : job_obj)
    : FS unit :=
  fun st => (if io_ok then Ok tt else Raise OSError,
             match written io_ok opened obj with
             | Some f => Store (<[jid := (ctime, f)]> (jobs st)) (processing st)
                           (status st) (results st)
             | None => st
             end).

Definition write_status (io_ok opened : bool) (jid : string) (rec : status_record)
    : FS unit :=
  fun st => (if io_ok then Ok tt else Raise OSError,
             match written io_ok opened rec with
             | Some f => Store (jobs st) (processing st)
                           (<[jid := f]> (status st)) (results st)
             | None => st
             end).

Definition write_result (io_ok opened : bool) (jid : string) (rec : result_meta)
    : FS unit :=
  fun st => (if io_ok then Ok tt else Raise OSError,
             match written io_ok opened rec with
             | Some f => Store (jobs st) (processing st) (status st)
                           (<[jid := f]> (results st))
             | None => st
             end).

(** [os.rename] from [data/jobs] to [data/processing] and [os.remove] on
    [data/processing]: done, or not done and an exception. *)
Definition rename_to_processing (io_ok : bool) (jid : string) : FS unit :=
  fun st => match jobs st !! jid with
            | Some (_, f) =>
                if io_ok
                then (Ok tt, Store (delete jid (jobs st))
                                   (<[jid := f]> (processing st))
                                   (status st) (results st))
                else (Raise OSError, st)
            | None => (Raise OSError, st)
            end.

(** [read_json] on [data/processing]: [json.load] raises a
    [JSONDecodeError], which is a [ValueError], on a file that holds no
    object. *)
Definition read_processing (io_ok : bool) (jid : string) : FS job_obj :=
  fun st => match processing st !! jid with
            | Some f =>
                if io_ok
                then match f with
                     | Intact obj => (Ok obj, st)
                     | Truncated => (Raise (ValueError "Expecting value"), st)
                     end
                else (Raise OSError, st)
            | None => (Raise OSError, st)
            end.

Definition remove_processing (io_ok : bool) (jid : string) : FS unit :=
  fun st => match processing st !! jid with
            | Some _ =>
                if io_ok
                then (Ok tt, Store (jobs st) (delete jid (processing st))
                                   (status st) (results st))
                else (Raise OSError, st)
            | None => (Raise OSError, st)
            end.

(** An HTTP response: the status code and the JSON body; for an exception
    that the handler lets through, the page Flask makes of it. *)
Inductive body : Type :=
  | ErrorBody (msg : string)
  | JobIdBody (jid : string)
  | StatusBody (rec : status_record)
  | ResultBody (rec : result_meta)
  | ExceptionPage (e : exn).

Record response : Type := Response { resp_body : body; resp_code : Z }.

(** What one request reads from the process around it. *)
Record request_world : Type := RequestWorld {
  new_job_id : string;    (* [uuid.uuid4().hex] *)
  req_time : Q;           (* [time.time()] *)
  req_ctime : Q;          (* the ctime the file system gives the job file *)
  io_job : bool;          (* does writing the job file succeed *)
  io_status : bool;       (* does writing the status file succeed *)
  req_opened : bool       (* the write that fails had opened its file *)
}.

(** What one operation of the worker reads from the process around it. *)
Record worker_world : Type := WorkerWorld {
  pick : string;          (* [files[0]] after the sort by ctime *)
  io_ok : bool;           (* does the operation succeed *)
  now : Q;                (* [time.time()] *)
  sim_env : Simulation.env;
  io_opened : bool        (* the write that fails had opened its file *)
}.

Section Handlers.

Variable std_exp : Z -> nat -> Q.

(** Python's parsers of [float("...")] and [int("...")]. *)
Variable float_of_string : string -> option xfloat.
Variable int_of_string : string -> option Z.

(** [float(v)]; an integer that rounds to a value beyond the doubles raises
    [OverflowError] (the rounding of an integer above [2 ^ 53] to a double
    is left out). *)
Definition py_float (v : json) : outcome xfloat :=
  match v with
  | JNull => Raise TypeError
  | JBool b => Ok (Fin (if b then 1 else 0))
  | JInt z => if 2 ^ 1024 - 2 ^ 970 <=? Z.abs z then Raise OverflowError
              else Ok (Fin (inject_Z z))
  | JFloat x => Ok x
  | JStr s => match float_of_string s with
              | Some x => Ok x
              | None => Raise (ValueError "could not convert string to float")
              end
  | JCompound _ => Raise TypeError
  end.

(** [int(v)]; [int] of a float truncates towards zero and raises on an
    infinity and on NaN. *)
Definition py_int (v : json) : outcome Z :=
  match v with
  | JNull => Raise TypeError
  | JBool b => Ok (if b then 1 else 0)
  | JInt z => Ok z
  | JFloat (Fin q) => Ok (Z.quot (Qnum q) (Zpos (Qden q)))
  | JFloat NaN => Raise (ValueError "cannot convert float NaN to integer")
  | JFloat _ => Raise OverflowError
  | JStr s => match int_of_string s with
              | Some z => Ok z
              | None => Raise (ValueError "invalid literal for int()")
              end
  | JCompound _ => Raise TypeError
  end.

Definition py_bool (v : json) : bool :=
  match v with
  | JNull => false
  | JBool b => b
  | JInt z => negb (z =? 0)
  | JFloat (Fin q) => negb (Qeq_bool q 0)
  | JFloat _ => true
  | JStr s => match s with EmptyString => false | String _ _ => true end
  | JCompound empty => negb empty
  end.

(** [material in ALLOWED_MATERIALS]: only a string can be in the list. *)
Definition allowed_material (m : option json) : option string :=
  match m with
  | Some (JStr s) => if existsb (String.eqb s) ALLOWED_MATERIALS then Some s else None
  | _ => None
  end.

Definition error_response (msg : string) : response :=
  Response (ErrorBody msg) 400.

(** [submit]: the handler of [POST /api/submit]. The DynamoDB write that
    follows the two files is wrapped in its own [try] and changes nothing
    here. *)
Definition submit (pl : payload) (w : request_world) : FS response :=
  let material := pl_material pl in
  thickness <~ fs_lift (py_float (default (JFloat (Fin 1)) (pl_thickness pl))) ;;
  samples <~ fs_lift (py_int (default (JInt 100) (pl_samples pl))) ;;
  let parallel := py_bool (default (JBool false) (pl_parallel pl)) in
  match allowed_material material with
  | None => fs_ret (error_response "invalid material")
  | Some material =>
      if negb (existsb (xeqb thickness) ALLOWED_THICKNESSES)
      then fs_ret (error_response "invalid thickness")
      else if (samples <=? 0) || (MAX_SAMPLES <? samples)
      then fs_ret (error_response "samples out of allowed range")
      else
        let job_id := new_job_id w in
        let created_at := req_time w in
        let job_obj := JobObj job_id material thickness samples parallel created_at in
        _ <~ write_job (io_job w) (req_opened w) job_id (req_ctime w) job_obj ;;
        _ <~ write_status (io_status w) (req_opened w) job_id
               (StatusRecord job_id "queued" "created_at" created_at) ;;
        fs_ret (Response (JobIdBody job_id) 202)
  end.

(** Does [submit] get as far as [new_job_id()]? *)
Definition submit_validates (pl : payload) : bool :=
  match py_float (default (JFloat (Fin 1)) (pl_thickness pl)),
        py_int (default (JInt 100) (pl_samples pl)),
        allowed_material (pl_material pl) with
  | Ok thickness, Ok samples, Some _ =>
      existsb (xeqb thickness) ALLOWED_THICKNESSES
      && negb ((samples <=? 0) || (MAX_SAMPLES <? samples))
  | _, _, _ => false
  end.

(** The handler in two parts, for the other threads run between its two
    writes: lines 47 to 75, which answer or raise, or leave the job file
    written; and lines 77 to 94. *)
Inductive progress : Type :=
  | Answered (r : response)
  | JobWritten.

Definition submit_to_job (pl : payload) (w : request_world) : FS progress :=
  let material := pl_material pl in
  thickness <~ fs_lift (py_float (default (JFloat (Fin 1)) (pl_thickness pl))) ;;
  samples <~ fs_lift (py_int (default (JInt 100) (pl_samples pl))) ;;
  let parallel := py_bool (default (JBool false) (pl_parallel pl)) in
  match allowed_material material with
  | None => fs_ret (Answered (error_response "invalid material"))
  | Some material =>
      if negb (existsb (xeqb thickness) ALLOWED_THICKNESSES)
      then fs_ret (Answered (error_response "invalid thickness"))
      else if (samples <=? 0) || (MAX_SAMPLES <? samples)
      then fs_ret (Answered (error_response "samples out of allowed range"))
      else
        let job_id := new_job_id w in
        let created_at := req_time w in
        let job_obj := JobObj job_id material thickness samples parallel created_at in
        _ <~ write_job (io_job w) (req_opened w) job_id (req_ctime w) job_obj ;;
        fs_ret JobWritten
  end.

Definition submit_from_status (w : request_world) : FS response :=
  let job_id := new_job_id w in
  _ <~ write_status (io_status w) (req_opened w) job_id
         (StatusRecord job_id "queued" "created_at" (req_time w)) ;;
  fs_ret (Response (JobIdBody job_id) 202).

(** [GET /api/status/<job_id>] and [GET /api/result/<job_id>]: a file that
    exists is read, and [read_json] raises on one that holds no object. *)
Definition get_status (jid : string) (st : store) : response :=
  match status st !! jid with
  | Some (Intact rec) => Response (StatusBody rec) 200
  | Some Truncated => Response (ExceptionPage (ValueError "Expecting value")) 500
  | None => Response (ErrorBody "job not found") 404
  end.

Definition get_result (jid : string) (st : store) : response :=
  match results st !! jid with
  | Some (Intact rec) => Response (ResultBody rec) 200
  | Some Truncated => Response (ExceptionPage (ValueError "Expecting value")) 500
  | None => Response (ErrorBody "result not available") 404
  end.

(** Where the worker is in the body of its loop, and with which job. *)
Inductive wstate : Type :=
  | WPoll                                        (* line 128 *)
  | WClaimed (jid : string)                      (* after [os.rename], line 141 *)
  | WRunning (jid : string)                      (* after status "running", line 148 *)
  | WLoaded (jid : string) (job : job_obj)       (* after [read_json], line 157 *)
  | WSimulated (jid : string) (r : Simulation.result)  (* after line 160 *)
  | WSaved (jid : string)                        (* after the result file, line 183 *)
  | WFinished (jid : string).                    (* after status "done", line 198 *)

Definition current_job (w : wstate) : option string :=
  match w with
  | WPoll => None
  | WClaimed j | WRunning j | WLoaded j _ | WSimulated j _ | WSaved j
  | WFinished j => Some j
  end.

(** [pick] is a file of [data/jobs] and none is older. *)
Definition is_oldest (js : gmap string (Q * file job_obj)) (jid : string) : bool :=
  match js !! jid with
  | Some (t, _) => forallb (fun kv => Qle_bool t (fst (snd kv))) (map_to_list js)
  | None => false
  end.

(** The next operation of the loop body, inside the [try]. *)
Definition worker_op (w : worker_world) (pc : wstate) : FS wstate :=
  match pc with
  | WPoll =>
      fun st =>
        if bool_decide (jobs st = ∅) then (Ok WPoll, st)       (* sleep, continue *)
        else (_ <~ rename_to_processing (io_ok w) (pick w) ;;
              fs_ret (WClaimed (pick w))) st
  | WClaimed jid =>
      _ <~ write_status (io_ok w) (io_opened w) jid
             (StatusRecord jid "running" "start_time" (now w)) ;;
      fs_ret (WRunning jid)
  | WRunning jid =>
      job <~ read_processing (io_ok w) jid ;;
      fs_ret (WLoaded jid job)
  | WLoaded jid job =>
      let params := Simulation.Params (Some (material job))
                      (Some (thickness job)) (Some (samples job)) None in
      if io_ok w then
        r <~ fs_lift (result_of (Simulation.run_simulation std_exp params
                                   (parallel job) None (sim_env w))) ;;
        fs_ret (WSimulated jid r)
      else fs_raise OSError
  | WSimulated jid r =>
      _ <~ write_result (io_ok w) (io_opened w) jid
             (ResultMeta r jid ("/results/" ++ jid ++ ".png") (now w)) ;;
      fs_ret (WSaved jid)
  | WSaved jid =>
      _ <~ write_status (io_ok w) (io_opened w) jid
             (StatusRecord jid "done" "completed_at" (now w)) ;;
      fs_ret (WFinished jid)
  | WFinished jid =>
      _ <~ remove_processing (io_ok w) jid ;;
      fs_ret WPoll
  end.

(** The whole system: the store, the worker thread, the job ids that
    [new_job_id] has handed out (it never hands one out twice), and the
    requests that have written their job file and not yet their status
    file, by job id. *)
Record state : Type := State {
  st_store : store;
  st_worker : wstate;
  st_issued : gset string;
  st_inflight : gmap string request_world
}.

Definition init : state := State empty_store WPoll ∅ ∅.

(** The threads interleave between file operations: there is no lock. The
    body of the worker's loop is split at each of its file operations and at
    the simulation, every one of which may raise. A request is split
    between its two writes ([EvSubmitJob], then [EvSubmitStatus] for the
    same job id); [EvSubmit] is a request that is served with no other
    thread in between, the two parts in one step. Saving the plot, the
    upload to S3 and the DynamoDB write have their own [try] and change
    none of the four directories' JSON files. *)
Inductive event : Type :=
  | EvSubmit (pl : payload) (w : request_world)
  | EvSubmitJob (pl : payload) (w : request_world)
  | EvSubmitStatus (jid : string)
  | EvWorker (w : worker_world).

(** Does the worker's operation raise in [s]? *)
Definition worker_raises (w : worker_world) (s : state) : bool :=
  match fst (worker_op w (st_worker s) (st_store s)) with
  | Raise _ => true
  | Ok _ => false
  end.

(** One pass of the worker through its next operation; an exception is
    caught at line 203 and the loop starts over. *)
Definition worker_step (w : worker_world) (s : state) : state :=
  match worker_op w (st_worker s) (st_store s) with
  | (Ok pc, st') => State st' pc (st_issued s) (st_inflight s)
  | (Raise _, st') => State st' WPoll (st_issued s) (st_inflight s)
  end.

(** At line 135 the listing is empty or [pick w] is an oldest queued job. *)
Definition worker_enabled (w : worker_world) (s : state) : bool :=
  match st_worker s with
  | WPoll => bool_decide (jobs (st_store s) = ∅)
             || is_oldest (jobs (st_store s)) (pick w)
  | _ => true
  end.

(** One step. [None]: the event cannot happen in this state (a job id that
    was handed out before, a [pick] that is not an oldest queued job, the
    second part of a request that is not in flight). *)
Definition step (ev : event) (s : state) : option state :=
  match ev with
  | EvSubmit pl w =>
      if submit_validates pl then
        if bool_decide (new_job_id w ∈ st_issued s) then None
        else Some (State (snd (submit pl w (st_store s))) (st_worker s)
                         ({[ new_job_id w ]} ∪ st_issued s) (st_inflight s))
      else Some (State (snd (submit pl w (st_store s))) (st_worker s) (st_issued s)
                       (st_inflight s))
  | EvSubmitJob pl w =>
      if submit_validates pl then
        if bool_decide (new_job_id w ∈ st_issued s) then None
        else
          let r := submit_to_job pl w (st_store s) in
          Some (State (snd r) (st_worker s) ({[ new_job_id w ]} ∪ st_issued s)
                      (match fst r with
                       | Ok JobWritten => <[new_job_id w := w]> (st_inflight s)
                       | _ => st_inflight s
                       end))
      else Some (State (snd (submit_to_job pl w (st_store s))) (st_worker s)
                       (st_issued s) (st_inflight s))
  | EvSubmitStatus jid =>
      match st_inflight s !! jid with
      | Some w =>
          Some (State (snd (submit_from_status w (st_store s))) (st_worker s)
                      (st_issued s) (delete jid (st_inflight s)))
      | None => None
      end
  | EvWorker w =>
      if worker_enabled w s then Some (worker_step w s) else None
  end.

Fixpoint run (evs : list event) (s : state) : option state :=
  match evs with
  | [] => Some s
  | ev :: evs' => match step ev s with
                  | Some s' => run evs' s'
                  | None => None
                  end
  end.

Definition reachable (s : state) : Prop := exists evs, run evs init = Some s.

End Handlers.

End App.

(** ** app/utils.py: the paths, and lines 128-137 of the worker: the choice
       of the job file *)

Module Utils.

Definition starts_with_sep (s : string) : bool :=
  match s with
  | String c _ => Ascii.eqb c "/"%char
  | EmptyString => false
  end.

Fixpoint ends_with_sep (s : string) : bool :=
  match s with
  | EmptyString => false
  | String c EmptyString => Ascii.eqb c "/"%char
  | String _ s' => ends_with_sep s'
  end.

(** [os.path.join(a, b)] of [posixpath]. *)
Definition path_join (a b : string) : string :=
  if starts_with_sep b then b
  else if match a with EmptyString => true | _ => ends_with_sep a end
       then (a ++ b)%string
       else (a ++ "/" ++ b)%string.

Section Paths.

(** [BASE_DATA]: the directory [data] beside the package. *)
Variable BASE_DATA : string.

Definition JOBS_DIR : string := path_join BASE_DATA "jobs".
Definition PROCESSING_DIR : string := path_join BASE_DATA "processing".
Definition STATUS_DIR : string := path_join BASE_DATA "status".
Definition RESULTS_DIR : string := path_join BASE_DATA "results".

Definition job_file_path (job_id : string) : string :=
  path_join JOBS_DIR (job_id ++ ".json").
Definition processing_file_path (job_id : string) : string :=
  path_join PROCESSING_DIR (job_id ++ ".json").
Definition status_file_path (job_id : string) : string :=
  path_join STATUS_DIR (job_id ++ ".json").
Definition result_file_path (job_id : string) : string :=
  path_join RESULTS_DIR (job_id ++ ".json").

End Paths.

(** [s.endswith(suffix)]. *)
Definition endswith (s suffix : string) : bool :=
  (String.length suffix <=? String.length s)%nat
  && String.eqb (String.substring (String.length s - String.length suffix)
                   (String.length suffix) s) suffix.

(** [s.startswith(p)]. *)
Fixpoint startswith (s p : string) : bool :=
  match p with
  | EmptyString => true
  | String a p' =>
      match s with
      | EmptyString => false
      | String b s' => Ascii.eqb b a && startswith s' p'
      end
  end.

(** [s.replace(old, new)] for a non-empty [old]: the occurrences of [old]
    from the left, not overlapping. [skip] characters of an occurrence just
    replaced are still to be passed over. *)
Fixpoint replace_from (skip : nat) (old new s : string) : string :=
  match s with
  | EmptyString => EmptyString
  | String c s' =>
      match skip with
      | S k => replace_from k old new s'
      | O => if startswith s old
             then (new ++ replace_from (String.length old - 1) old new s')%string
             else String c (replace_from 0 old new s')
      end
  end.

Definition str_replace (s old new : string) : string := replace_from 0 old new s.

(** Line 137: the job id of a job file. *)
Definition jobid_of_file (jobfile : string) : string := str_replace jobfile ".json" EmptyString.

(** [files.sort(key=ctime)]: a stable sort of the (name, ctime) pairs. *)
Fixpoint insert_by_ctime (f : string * Q) (l : list (string * Q)) : list (string * Q) :=
  match l with
  | [] => [f]
  | g :: l' => if Qle_bool (snd f) (snd g) then f :: l else g :: insert_by_ctime f l'
  end.

Definition sort_by_ctime (l : list (string * Q)) : list (string * Q) :=
  fold_right insert_by_ctime [] l.

(** Lines 128-135: of the directory listing (names with their ctimes, in
    the order of [os.listdir]) keep the [.json] files, sort them by ctime
    and take the first; [None] when there is none (the loop sleeps). *)
Definition pick_jobfile (listing : list (string * Q)) : option string :=
  let files := List.filter (fun f => endswith (fst f) ".json") listing in
  match sort_by_ctime files with
  | [] => None
  | f :: _ => Some (fst f)
  end.

End Utils.

(** ** Vocabulary of the properties *)

Import Simulation App.

(** *** Chunks *)

(** The size the loop gives to chunk [i]. *)
Definition chunk_size (base rem i : Z) : Z := base + (if i <? rem then 1 else 0).

Definition chunk_at (mu : Q) (thickness : xfloat) (offset_seed : Z) (base rem i : Z)
    : chunk :=
  Chunk (chunk_size base rem i) mu thickness (offset_seed + i).

(** The body of the loop at index [i]. *)
Definition chunk_body (mu : Q) (thickness : xfloat) (offset_seed : Z) (base rem : Z)
    (i : Z) : list chunk :=
  let cnt := base + (if i <? rem then 1 else 0) in
  if 0 <? cnt then [Chunk cnt mu thickness (offset_seed + i)] else [].

(** How many chunks are kept: all of them, or the first [rem] when [base]
    is [0]. *)
Definition kept (base rem n_workers : Z) : Z := if 0 <? base then n_workers else rem.

Definition sum_list (l : list Z) : Z := fold_right Z.add 0 l.

(** *** Extended values that are rationals *)

(** [fin_sat R x]: [x] is a rational that satisfies [R]. *)
Definition fin_sat (R : Q -> Prop) (x : xfloat) : Prop :=
  match x with Fin q => R q | _ => False end.

Definition nonneg (q : Q) : Prop := (0 <= q)%Q.
Definition any_rational (q : Q) : Prop := True.

(** The interpolation of two rationals, as [Numpy.lerp] computes it. *)
Definition lerpQ (a b t : Q) : Q :=
  if Qle_bool (1 # 2) t then (b + - ((b + - a) * (1 - t)))%Q
  else (a + (b + - a) * t)%Q.

(** [R] is kept by interpolation. *)
Definition convex (R : Q -> Prop) : Prop :=
  forall a b t, R a -> R b -> (0 <= t)%Q -> (t <= 1)%Q -> R (lerpQ a b t).

(** The 20 edges from [0] to [h], as [Numpy.linspace] computes them. *)
Definition edgesQ (h : Q) : list Q :=
  map (fun i : nat => (inject_Z (Z.of_nat i) * ((h + - 0) / 19) + 0)%Q) (seq 0 19)
  ++ [h].

Fixpoint nondecreasing (qs : list Q) : Prop :=
  match qs with
  | x :: ((y :: _) as tl) => (x <= y)%Q /\ nondecreasing tl
  | _ => True
  end.







(** Evaluate the index constants [inject_Z (Z.of_nat k)]. *)
Ltac norm_index :=
  repeat match goal with
         | |- context [inject_Z (Z.of_nat ?n)] =>
             let v := eval vm_compute in (inject_Z (Z.of_nat n)) in
             change (inject_Z (Z.of_nat n)) with v
         end.

(** *** Sampling *)

(** The path lengths one generator call returns, as rationals. *)
Definition drawsQ (std_exp : Z -> nat -> Q) (rng : Z) (scale : Q) (size : Z) : list Q :=
  map (fun k => (scale * std_exp rng k)%Q) (seq 0 (Z.to_nat size)).

(** A seed that [np.random.default_rng] accepts. *)
Definition seed_ok (seed : option Z) : Prop :=
  match seed with Some s => 0 <= s | None => True end.

(** The seed the sequential generator starts from. *)
Definition rng_of (seed : option Z) (e : env) : Z :=
  match seed with Some s => s | None => Z.of_N (entropy e) end.

Definition transmitted_of (thickness : xfloat) (paths : list xfloat) : Z :=
  Numpy.count_if (fun p => xgtb p thickness) paths.

(** [q] is a scaled variate of the generator. *)
Definition drawn_from (std_exp : Z -> nat -> Q) (scale : Q) (q : Q) : Prop :=
  exists s k, q = (scale * std_exp s k)%Q.

(** The path lengths of the chunks, in the order of the chunks. *)
Definition chunk_pathsQ (std_exp : Z -> nat -> Q) (chunks : list chunk) : list Q :=
  concat (map (fun c => drawsQ std_exp (chunk_seed c) (1 / chunk_mu c) (chunk_cnt c))
              chunks).

(** What two runs are compared on: the draws made and, of the result, the
    four fields [transmitted], [transmitted_fraction], [bins], [counts]. *)
Definition observe (m : M result)
    : list draw * outcome (Z * Q * list xfloat * list Z) :=
  (drawn m,
   match result_of m with
   | Ok r => Ok (transmitted r, transmitted_fraction r, bins r, counts r)
   | Raise e => Raise e
   end).

(** *** The job store *)

(** The status file of [jid] holds a record that says [v]. *)
Definition status_is (st : store) (jid : string) (v : string) : Prop :=
  exists rec, status st !! jid = Some (Intact rec) /\ st_status rec = v.

(** The result file of [jid] holds a result. *)
Definition has_result (st : store) (jid : string) : Prop :=
  exists rec, results st !! jid = Some (Intact rec).

(** A result as the worker stores it for a job that [submit] accepted. *)
Definition well_formed_result (r : result) : Prop :=
  In (r_material r) ALLOWED_MATERIALS /\
  1 <= r_samples r <= MAX_SAMPLES /\
  0 <= transmitted r <= r_samples r /\
  (0 <= transmitted_fraction r)%Q /\ (transmitted_fraction r <= 1)%Q /\
  length (bins r) = 20%nat /\ length (counts r) = 19%nat.

(** What [submit] checks of a job before it writes it under [jid]. *)
Definition valid_job (jid : string) (job : job_obj) : Prop :=
  job_id job = jid /\
  In (material job) ALLOWED_MATERIALS /\
  existsb (xeqb (thickness job)) ALLOWED_THICKNESSES = true /\
  1 <= samples job <= MAX_SAMPLES.

(** What the worker's position says about the files of its job. *)
Definition worker_inv (pc : wstate) (st : store) : Prop :=
  match pc with
  | WPoll => True
  | WClaimed j | WRunning j | WLoaded j _ | WSimulated j _ =>
      is_Some (processing st !! j) /\ results st !! j = None
  | WSaved j | WFinished j =>
      is_Some (processing st !! j) /\ has_result st j
  end.

(** The invariant of the reachable states. *)
Record inv (s : state) : Prop := Inv {
  inv_issued_jobs :
    forall jid, is_Some (jobs (st_store s) !! jid) -> jid ∈ st_issued s;
  inv_issued_processing :
    forall jid, is_Some (processing (st_store s) !! jid) -> jid ∈ st_issued s;
  inv_issued_status :
    forall jid, is_Some (status (st_store s) !! jid) -> jid ∈ st_issued s;
  inv_issued_results :
    forall jid, is_Some (results (st_store s) !! jid) -> jid ∈ st_issued s;
  inv_issued_inflight :
    forall jid, is_Some (st_inflight s !! jid) -> jid ∈ st_issued s;
  inv_inflight_id :
    forall jid w, st_inflight s !! jid = Some w -> new_job_id w = jid;
  inv_queued :
    forall jid, is_Some (jobs (st_store s) !! jid) ->
                processing (st_store s) !! jid = None /\
                results (st_store s) !! jid = None;
  inv_worker : worker_inv (st_worker s) (st_store s);
  inv_status_values :
    forall jid rec, status (st_store s) !! jid = Some (Intact rec) ->
                    st_job_id rec = jid /\
                    (st_status rec = "queued"%string \/ st_status rec = "running"%string
                     \/ st_status rec = "done"%string);
  inv_unclaimed :
    forall jid, is_Some (jobs (st_store s) !! jid) \/ st_worker s = WClaimed jid ->
                ~ status_is (st_store s) jid "running" /\
                ~ status_is (st_store s) jid "done";
  inv_done :
    forall jid, status_is (st_store s) jid "done" ->
                has_result (st_store s) jid /\
                (current_job (st_worker s) = Some jid -> st_worker s = WFinished jid);
  inv_not_lost :
    forall jid, is_Some (status (st_store s) !! jid) \/ is_Some (st_inflight s !! jid) ->
                is_Some (jobs (st_store s) !! jid) \/
                is_Some (processing (st_store s) !! jid) \/
                has_result (st_store s) jid
}.

(** What the worker holds in its variables [job] and [result]. *)
Definition worker_holds (pc : wstate) : Prop :=
  match pc with
  | WLoaded j job => valid_job j job
  | WSimulated _ r => well_formed_result r
  | _ => True
  end.

(** What the files hold that hold an object. *)
Record inv_files (s : state) : Prop := InvFiles {
  inv_jobs_valid :
    forall jid c job, jobs (st_store s) !! jid = Some (c, Intact job) ->
                      valid_job jid job;
  inv_processing_valid :
    forall jid job, processing (st_store s) !! jid = Some (Intact job) ->
                    valid_job jid job;
  inv_results_valid :
    forall jid rec, results (st_store s) !! jid = Some (Intact rec) ->
                    rm_job_id rec = jid /\ well_formed_result (rm_result rec);
  inv_worker_holds : worker_holds (st_worker s)
}.

(** The order of the three statuses the code writes. *)
Definition status_rank (v : string) : Z :=
  if String.eqb v "queued" then 1
  else if String.eqb v "running" then 2
  else if String.eqb v "done" then 3
  else 0.

(** The events of the refined interleaving: every event but the request
    that is served in one step. *)
Definition primitive (ev : event) : Prop :=
  match ev with EvSubmit _ _ => False | _ => True end.

(** The operation at this position writes the status file. *)
Definition writes_status (pc : wstate) : bool :=
  match pc with
  | WClaimed _ | WSaved _ => true
  | _ => false
  end.

(** The status "running" is written and the status "done" is not yet
    (lines 149 to 193). *)
Definition running_written (pc : wstate) : bool :=
  match pc with
  | WRunning _ | WLoaded _ _ | WSimulated _ _ | WSaved _ => true
  | _ => false
  end.

(** *** Concrete runs *)

(** A generator for the examples: every variate is 1. *)
Definition unit_exp (s : Z) (k : nat) : Q := 1.
Definition no_float (s : string) : option xfloat := None.
Definition no_int (s : string) : option Z := None.

Definition water_payload : payload :=
  Payload (Some (JStr "Water")) (Some (JFloat (Fin 1))) (Some (JInt 2)) None.
Definition gold_payload : payload :=
  Payload (Some (JStr "Gold")) (Some (JFloat (Fin 1))) (Some (JInt 2)) None.
Definition request_a1 : request_world := RequestWorld "a1" 5 5 true true false.
Definition worker_ok : worker_world := WorkerWorld "a1" true 6 (Env 10 12 777 8) false.

(** An operation that fails; a write fails before its file is opened. *)
Definition worker_fails : worker_world :=
  WorkerWorld "a1" false 6 (Env 10 12 777 8) false.

(** An operation that fails; a write fails after its file is opened. *)
Definition worker_cut : worker_world :=
  WorkerWorld "a1" false 6 (Env 10 12 777 8) true.

(** Submit a job and let the worker claim it. *)
Definition trace_claimed : list event :=
  [EvSubmit water_payload request_a1; EvWorker worker_ok].

(** ... and write the status "running". *)
Definition trace_running : list event :=
  trace_claimed ++ [EvWorker worker_ok].

(** ... and read the job, simulate and write the result file. *)
Definition trace_saved : list event :=
  trace_running ++ [EvWorker worker_ok; EvWorker worker_ok; EvWorker worker_ok].

(** ** Vocabulary of the further properties *)

Import Utils.

(** *** Calls of the engine *)

(** The [params] the worker builds from a job (lines 152-156). *)
Definition job_params (job : job_obj) : params :=
  Params (Some (material job)) (Some (thickness job)) (Some (samples job)) None.

(** The chunks of a parallel call: as many as [min(samples, n_workers)],
    with the sizes of the even split and the seeds [offset_seed + i]. *)
Definition parallel_chunks (samples n : Z) (mu : Q) (thickness : xfloat) (off : Z)
    : list chunk :=
  map (chunk_at mu thickness off (samples / n) (samples mod n))
      (range (Z.min samples n)).

Section Calls.

Variable std_exp : Z -> nat -> Q.

(** The paths a valid call samples, as rationals. *)
Definition sampled_pathsQ (samples : Z) (mu : Q) (thickness : xfloat)
    (seed : option Z) (parallel : bool) (n_workers : option Z) (e : env) : list Q :=
  if parallel
  then chunk_pathsQ std_exp
         (parallel_chunks samples (resolve_workers n_workers e) mu thickness
            (offset_seed_of seed e))
  else drawsQ std_exp (rng_of seed e) (1 / mu) samples.

(** The draws a valid call makes. *)
Definition sampled_draws (samples : Z) (mu : Q) (thickness : xfloat)
    (seed : option Z) (parallel : bool) (n_workers : option Z) (e : env) : list draw :=
  if parallel
  then map (fun c => Draw (chunk_seed c) (1 / chunk_mu c) (chunk_cnt c))
         (parallel_chunks samples (resolve_workers n_workers e) mu thickness
            (offset_seed_of seed e))
  else [Draw (rng_of seed e) (1 / mu) samples].

(** A thickness that is not below zero: a rational that is not negative,
    [+inf] or NaN. *)
Definition not_negative (x : xfloat) : Prop := xltb x (Fin 0) = false.

(** A call that returns: recognised material, positive sample count, a
    seed numpy accepts, at least one worker in parallel mode, and either a
    thickness that is not negative or a generator that returns no negative
    variate (so that no histogram edge is above the next). *)
Definition valid_call (p : params) (parallel : bool) (n_workers : option Z)
    (e : env) (mu : Q) : Prop :=
  dict_get MATERIAL_MU (default "Aluminum"%string (p_material p)) = Some mu /\
  0 < default 500 (p_samples p) /\
  seed_ok (p_seed p) /\
  (parallel = true -> 1 <= resolve_workers n_workers e) /\
  (not_negative (default (Fin 1) (p_thickness p))
   \/ forall s k, (0 <= std_exp s k)%Q).

(** The paths and the draws of a call. *)
Definition call_pathsQ (p : params) (parallel : bool) (n_workers : option Z)
    (e : env) (mu : Q) : list Q :=
  sampled_pathsQ (default 500 (p_samples p)) mu (default (Fin 1) (p_thickness p))
    (p_seed p) parallel n_workers e.

Definition call_draws (p : params) (parallel : bool) (n_workers : option Z)
    (e : env) (mu : Q) : list draw :=
  sampled_draws (default 500 (p_samples p)) mu (default (Fin 1) (p_thickness p))
    (p_seed p) parallel n_workers e.

End Calls.

(** *** File names and the choice of the job file *)

(** No character of [s] is a dot: so it is with the 32 hexadecimal digits
    of [uuid4().hex]. *)
Fixpoint no_dot (s : string) : bool :=
  match s with
  | EmptyString => true
  | String c s' => negb (Ascii.eqb c "."%char) && no_dot s'
  end.

(** The first of the [.json] entries with the least ctime. *)
Fixpoint first_oldest (l : list (string * Q)) : option (string * Q) :=
  match l with
  | [] => None
  | f :: l' =>
      match first_oldest l' with
      | None => Some f
      | Some m => if Qle_bool (snd f) (snd m) then Some f else Some m
      end
  end.

(** The listing of [data/jobs] for the queue [js]: one file [<id>.json] per
    queued job, with its ctime, in any order. *)
Definition listing_of (js : gmap string (Q * file job_obj))
    (listing : list (string * Q)) : Prop :=
  Permutation listing
    (map (fun kv => ((fst kv ++ ".json")%string, fst (snd kv))) (map_to_list js)).

(** The directory prefix that [os.path.join] puts before a relative name. *)
Definition dir_prefix (a : string) : string :=
  if match a with EmptyString => true | _ => ends_with_sep a end then a
  else (a ++ "/")%string.

(** *** More concrete runs *)

(** Five trials through one unit of water with seed 3. *)
Definition water_call : params :=
  Params (Some "Water"%string) (Some (Fin 1)) (Some 5) (Some 3).
Definition empty_call : params :=
  Params (Some "Water"%string) (Some (Fin 1)) (Some 0) (Some 3).
Definition env_a : env := Env 10 12 777 8.
Definition env_b : env := Env 0 99 5 2.

(** A thickness that is not allowed. *)
Definition thick_payload : payload :=
  Payload (Some (JStr "Water")) (Some (JFloat (Fin 3))) (Some (JInt 2)) None.

(** ... and the worker has read the job. *)
Definition trace_loaded : list event := trace_running ++ [EvWorker worker_ok].

(** The job of [water_payload] as [request_a1] queues it. *)
Definition water_job : job_obj := JobObj "a1" "Water" (Fin 1) 2 false 5.

(** ... and the worker has written the status "done". *)
Definition trace_done : list event := trace_saved ++ [EvWorker worker_ok].

(** A request that has written its job file and not yet its status file
    while the worker takes the job all the way through. *)
Definition trace_overtaken : list event :=
  EvSubmitJob water_payload request_a1 :: map EvWorker (repeat worker_ok 7).

(** A queue of three jobs, two of them of the same age, one with a job file
    that a failed write has cut off; and a listing of its directory. *)
Definition queue3 : gmap string (Q * file job_obj) :=
  <["a1"%string := (5%Q, Intact water_job)]>
    (<["b2"%string := (3%Q, Intact (JobObj "b2" "Lead" (Fin 2) 10 true 3))]>
       (<["c3"%string := (3%Q, Truncated)]> ∅)).
Definition listing3 : list (string * Q) :=
  [("a1.json"%string, 5%Q); ("c3.json"%string, 3%Q); ("b2.json"%string, 3%Q)].

(** * Properties *)

(** ** Chunk splitting *)

Section Chunks.

Variables (mu : Q) (thickness : xfloat) (offset_seed : Z).

Lemma range_app (a b : nat) :
  range (Z.of_nat (a + b)) = range (Z.of_nat a) ++ map Z.of_nat (seq a b).
Proof.
  unfold range. rewrite !Nat2Z.id, seq_app, map_app. reflexivity.
Qed.

Lemma flat_map_kept (base rem : Z) (l : list Z) :
  Forall (fun i => 0 < chunk_size base rem i) l ->
  flat_map (chunk_body mu thickness offset_seed base rem) l = map (chunk_at mu thickness offset_seed base rem) l.
Proof.
  induction 1 as [|i l Hi _ IH]; simpl; [reflexivity|].
  rewrite IH. unfold chunk_body, chunk_at, chunk_size in *.
  destruct (Z.ltb_spec 0 (base + (if i <? rem then 1 else 0))); [reflexivity|lia].
Qed.

Lemma flat_map_dropped (base rem : Z) (l : list Z) :
  Forall (fun i => chunk_size base rem i <= 0) l ->
  flat_map (chunk_body mu thickness offset_seed base rem) l = [].
Proof.
  induction 1 as [|i l Hi _ IH]; simpl; [reflexivity|].
  rewrite IH. unfold chunk_body, chunk_size in *.
  destruct (Z.ltb_spec 0 (base + (if i <? rem then 1 else 0))); [lia|reflexivity].
Qed.

Lemma chunks_kept (base rem n_workers : Z) :
  0 <= base -> 0 <= rem <= n_workers ->
  flat_map (chunk_body mu thickness offset_seed base rem) (range n_workers)
  = map (chunk_at mu thickness offset_seed base rem) (range (kept base rem n_workers)).
Proof.
  intros Hb Hr. unfold kept.
  destruct (Z.ltb_spec 0 base) as [Hpos|Hzero].
  - apply flat_map_kept. apply List.Forall_forall. intros i _.
    unfold chunk_size. destruct (i <? rem); lia.
  - assert (base = 0) by lia. subst base.
    replace n_workers with (Z.of_nat (Z.to_nat rem + Z.to_nat (n_workers - rem))) at 1 by lia.
    rewrite range_app, flat_map_app, Z2Nat.id by lia.
    rewrite flat_map_kept, flat_map_dropped.
    + apply app_nil_r.
    + apply List.Forall_forall. intros i Hi. apply in_map_iff in Hi as (k & <- & Hk).
      apply in_seq in Hk. unfold chunk_size.
      destruct (Z.ltb_spec (Z.of_nat k) rem); lia.
    + apply List.Forall_forall. intros i Hi. apply in_map_iff in Hi as (k & <- & Hk).
      apply in_seq in Hk. unfold chunk_size.
      destruct (Z.ltb_spec (Z.of_nat k) rem); lia.
Qed.

Lemma make_chunks_eq (samples n_workers : Z) :
  0 <= samples -> 1 <= n_workers ->
  make_chunks samples n_workers mu thickness offset_seed
  = ([], Ok (map (chunk_at mu thickness offset_seed (samples / n_workers)
                    (samples mod n_workers))
               (range (kept (samples / n_workers) (samples mod n_workers) n_workers)))).
Proof.
  intros Hs Hn. unfold make_chunks, floordiv, pymod.
  destruct (Z.eqb_spec n_workers 0); [lia|]. simpl.
  pose proof (Z.mod_pos_bound samples n_workers ltac:(lia)).
  pose proof (Z.div_pos samples n_workers ltac:(lia) ltac:(lia)).
  rewrite <- chunks_kept by lia. reflexivity.
Qed.

Lemma nth_range (n : Z) (k : nat) (d : Z) :
  (k < Z.to_nat n)%nat -> nth k (range n) d = Z.of_nat k.
Proof.
  intros Hk. unfold range.
  rewrite (nth_indep _ d (Z.of_nat 0)) by (rewrite length_map, length_seq; lia).
  rewrite map_nth, seq_nth by lia. reflexivity.
Qed.

Lemma length_range (n : Z) : length (range n) = Z.to_nat n.
Proof. unfold range. rewrite length_map, length_seq. reflexivity. Qed.

Lemma sum_chunk_sizes (base rem : Z) (m : nat) :
  0 <= rem ->
  sum_list (map (chunk_size base rem) (range (Z.of_nat m)))
  = Z.of_nat m * base + Z.min (Z.of_nat m) rem.
Proof.
  intros Hr. induction m as [|m IH].
  - simpl. lia.
  - replace (S m) with (m + 1)%nat by lia.
    rewrite range_app, map_app. unfold sum_list in *. rewrite fold_right_app. simpl.
    assert (Hacc : forall l a, fold_right Z.add a l = fold_right Z.add 0 l + a).
    { induction l as [|x l IHl]; intros a; simpl; [lia|]. rewrite IHl. lia. }
    rewrite Hacc, IH. unfold chunk_size.
    destruct (Z.ltb_spec (Z.of_nat m) rem); lia.
Qed.

End Chunks.

Lemma map_chunk_cnt mu thickness offset_seed base rem l :
  map chunk_cnt (map (chunk_at mu thickness offset_seed base rem) l)
  = map (chunk_size base rem) l.
Proof. rewrite map_map. reflexivity. Qed.

Lemma kept_bounds (samples n_workers : Z) :
  1 <= samples -> 1 <= n_workers ->
  let m := kept (samples / n_workers) (samples mod n_workers) n_workers in
  0 < m <= n_workers /\ m = Z.min samples n_workers /\
  m * (samples / n_workers) + Z.min m (samples mod n_workers) = samples.
Proof.
  intros Hs Hn m. subst m. unfold kept.
  pose proof (Z.mod_pos_bound samples n_workers ltac:(lia)) as Hm.
  pose proof (Z.div_mod samples n_workers ltac:(lia)) as Hd.
  destruct (Z.ltb_spec 0 (samples / n_workers)) as [Hb|Hb].
  - assert (n_workers <= samples) by nia. nia.
  - pose proof (Z.div_pos samples n_workers ltac:(lia) ltac:(lia)).
    assert (Hz : samples / n_workers = 0) by lia. rewrite Hz in *. lia.
Qed.

(** C2. In parallel mode, for [samples >= 1] and [n_workers >= 1], the loop
    builds chunks of size [samples // n_workers], plus one for the first
    [samples % n_workers] of them; any two sizes differ by at most 1 and the
    sizes sum_list to [samples]; for 17 samples and 4 workers the sizes are
    [5, 4, 4, 4]. (Chunks of size 0 are left out, so there are
    [min(samples, n_workers)] chunks.) *)
Theorem chunk_split_even (samples n_workers : Z) (mu : Q) (thickness : xfloat)
    (offset_seed : Z) :
  1 <= samples -> 1 <= n_workers ->
  exists chunks,
    make_chunks samples n_workers mu thickness offset_seed = ([], Ok chunks) /\
    (forall k, (k < length chunks)%nat ->
       nth k (map chunk_cnt chunks) 0
       = samples / n_workers + (if Z.of_nat k <? samples mod n_workers then 1 else 0)) /\
    (forall a b, In a (map chunk_cnt chunks) -> In b (map chunk_cnt chunks) ->
       Z.abs (a - b) <= 1) /\
    sum_list (map chunk_cnt chunks) = samples /\
    Z.of_nat (length chunks) = Z.min samples n_workers /\
    (samples = 17 -> n_workers = 4 -> map chunk_cnt chunks = [5; 4; 4; 4]).
Proof.
  intros Hs Hn.
  destruct (kept_bounds samples n_workers Hs Hn) as (Hm & Hmin & Hsum).
  eexists. split; [apply make_chunks_eq; lia|].
  set (base := samples / n_workers) in *. set (rem := samples mod n_workers) in *.
  set (m := kept base rem n_workers) in *.
  pose proof (Z.mod_pos_bound samples n_workers ltac:(lia)) as Hrem. fold rem in Hrem.
  rewrite map_chunk_cnt, length_map, length_range.
  repeat split.
  - intros k Hk.
    rewrite (nth_indep _ 0 (chunk_size base rem 0))
      by (rewrite length_map, length_range; lia).
    rewrite map_nth, nth_range by lia. reflexivity.
  - intros a b Ha Hb.
    apply in_map_iff in Ha as (i & <- & _). apply in_map_iff in Hb as (j & <- & _).
    unfold chunk_size. destruct (i <? rem), (j <? rem); lia.
  - replace m with (Z.of_nat (Z.to_nat m)) at 1 by lia.
    rewrite sum_chunk_sizes by lia. rewrite Z2Nat.id by lia. exact Hsum.
  - lia.
  - intros -> ->. reflexivity.
Qed.

(** The case of the specification: 17 trials on 4 workers. *)
Lemma chunk_split_even_witness :
  exists chunks,
    make_chunks 17 4 (8 # 100) (Fin 1) 0 = ([], Ok chunks) /\
    map chunk_cnt chunks = [5; 4; 4; 4] /\ sum_list (map chunk_cnt chunks) = 17.
Proof.
  destruct (chunk_split_even 17 4 (8 # 100) (Fin 1) 0)
    as (chunks & H1 & _ & _ & H4 & _ & H6);
    [lia | lia |].
  exists chunks. split; [exact H1|]. split; [apply H6; reflexivity | exact H4].
Defined.

(** ** Extended values that are rationals *)

Lemma Qltb_lt (a b : Q) : Qltb a b = true <-> (a < b)%Q.
Proof.
  unfold Qltb. rewrite negb_true_iff. split.
  - intros H. apply Qnot_le_lt. intros Hle. apply Qle_bool_iff in Hle. congruence.
  - intros H. destruct (Qle_bool b a) eqn:E; [|reflexivity].
    apply Qle_bool_iff in E. exfalso. apply (Qlt_not_le _ _ H E).
Qed.

Lemma Qltb_ge (a b : Q) : Qltb a b = false <-> (b <= a)%Q.
Proof.
  unfold Qltb. rewrite negb_false_iff. apply Qle_bool_iff.
Qed.

Lemma Qle_bool_gt (a b : Q) : Qle_bool a b = false <-> (b < a)%Q.
Proof.
  rewrite <- Qltb_lt. unfold Qltb. rewrite negb_true_iff. reflexivity.
Qed.

Lemma fin_sat_weaken (R : Q -> Prop) (l : list xfloat) :
  Forall (fin_sat R) l -> Forall (fin_sat any_rational) l.
Proof.
  apply List.Forall_impl. intros [q| | |]; simpl; unfold any_rational; tauto.
Qed.

Lemma insert_sorted_Forall (P : xfloat -> Prop) x l :
  P x -> Forall P l -> Forall P (Numpy.insert_sorted x l).
Proof.
  intros Hx Hl. induction Hl as [|y l Hy Hl IH]; simpl.
  - constructor; [exact Hx|constructor].
  - destruct (Numpy.sort_le x y); constructor; auto.
Qed.

Lemma sort_Forall (P : xfloat -> Prop) l : Forall P l -> Forall P (Numpy.sort l).
Proof.
  induction 1 as [|x l Hx Hl IH]; simpl; [constructor|].
  apply insert_sorted_Forall; assumption.
Qed.

Lemma insert_sorted_length x l :
  length (Numpy.insert_sorted x l) = S (length l).
Proof.
  induction l as [|y l IH]; simpl; [reflexivity|].
  destruct (Numpy.sort_le x y); simpl; [reflexivity|]. rewrite IH. reflexivity.
Qed.

Lemma sort_length l : length (Numpy.sort l) = length l.
Proof.
  induction l as [|x l IH]; simpl; [reflexivity|].
  rewrite insert_sorted_length, IH. reflexivity.
Qed.

Lemma Forall_fin_no_nan (R : Q -> Prop) l :
  Forall (fin_sat R) l -> existsb is_nan l = false.
Proof.
  induction 1 as [|x l Hx _ IH]; simpl; [reflexivity|].
  destruct x; simpl in *; tauto.
Qed.

Lemma Forall_fin_nth (R : Q -> Prop) l (k : nat) :
  Forall (fin_sat R) l -> (k < length l)%nat ->
  exists q, nth k l NaN = Fin q /\ R q.
Proof.
  intros Hl. revert k. induction Hl as [|x l Hx _ IH]; intros k Hk; simpl in Hk; [lia|].
  destruct k as [|k]; simpl.
  - destruct x; simpl in Hx; try tauto. eauto.
  - apply IH. lia.
Qed.

Lemma lerp_fin (a b t : Q) : Numpy.lerp (Fin a) (Fin b) t = Fin (lerpQ a b t).
Proof.
  unfold Numpy.lerp, lerpQ. destruct (Qle_bool (1 # 2) t); reflexivity.
Qed.

Lemma lerpQ_nonneg (a b t : Q) :
  (0 <= a)%Q -> (0 <= b)%Q -> (0 <= t)%Q -> (t <= 1)%Q -> (0 <= lerpQ a b t)%Q.
Proof.
  intros Ha Hb Ht Ht1. unfold lerpQ. destruct (Qle_bool (1 # 2) t); nra.
Qed.


Lemma convex_nonneg : convex nonneg.
Proof. intros a b t. apply lerpQ_nonneg. Qed.

(** On a non-empty array of rationals the percentile is a rational, and it
    is non-negative when the data are. *)
Lemma percentile_fin (R : Q -> Prop) (a : list xfloat) :
  convex R -> Forall (fin_sat R) a -> a <> [] ->
  exists pct, Numpy.percentile a 95 = Fin pct /\ R pct.
Proof.
  intros HR Ha Hne. unfold Numpy.percentile.
  pose proof (sort_Forall _ _ Ha) as Hs.
  pose proof (sort_length a) as Hlen.
  set (arr := Numpy.sort a) in *.
  assert (Hn : (0 < length arr)%nat).
  { rewrite Hlen. destruct a; [congruence|simpl; lia]. }
  destruct (Z.eqb_spec (Z.of_nat (length arr)) 0) as [|_]; [lia|].
  rewrite (Forall_fin_no_nan _ _ Hs). cbv zeta. simpl orb. cbv iota.
  set (n := Z.of_nat (length arr)) in *.
  set (vi := (inject_Z (n - 1) * (95 / 100))%Q).
  assert (Hsame : forall v, fin_sat R v -> exists pct, Numpy.lerp v v 0 = Fin pct /\ R pct).
  { intros [q| | |] Hq; simpl in Hq; try tauto. rewrite lerp_fin.
    eexists; split; [reflexivity|]. apply HR; try assumption; lra. }
  destruct (Qle_bool (inject_Z (n - 1)) vi) eqn:Habove.
  { destruct (Forall_fin_nth R arr (Z.to_nat (n - 1)) Hs ltac:(lia)) as (q & Hq & HRq).
    apply Hsame. rewrite Hq. exact HRq. }
  destruct (Qltb vi 0) eqn:Hbelow.
  { destruct (Forall_fin_nth R arr 0%nat Hs ltac:(lia)) as (q & Hq & HRq).
    apply Hsame. rewrite Hq. exact HRq. }
  apply Qle_bool_gt in Habove. apply Qltb_ge in Hbelow.
  pose proof (Qfloor_le vi) as Hfl. pose proof (Qlt_floor vi) as Hfu.
  assert (H0 : 0 <= Qfloor vi).
  { replace 0 with (Qfloor (inject_Z 0)) by apply Qfloor_Z.
    apply Qfloor_resp_le. exact Hbelow. }
  assert (H1 : Qfloor vi < n - 1).
  { rewrite Zlt_Qlt. eapply Qle_lt_trans; [exact Hfl|exact Habove]. }
  destruct (Forall_fin_nth R arr (Z.to_nat (Qfloor vi)) Hs ltac:(lia)) as (qa & Hqa & HRa).
  destruct (Forall_fin_nth R arr (Z.to_nat (Qfloor vi + 1)) Hs ltac:(lia)) as (qb & Hqb & HRb).
  rewrite Hqa, Hqb, lerp_fin. eexists; split; [reflexivity|].
  apply HR; try assumption.
  - clearbody vi. lra.
  - rewrite inject_Z_plus in Hfu. change (inject_Z 1) with 1%Q in Hfu.
    clearbody vi. lra.
Qed.

(** ** The histogram *)

Lemma linspace_edgesQ (h : Q) :
  Numpy.linspace (Fin 0) (Fin h) 20 = map Fin (edgesQ h).
Proof. reflexivity. Qed.

Lemma edgesQ_length (h : Q) : length (edgesQ h) = 20%nat.
Proof. reflexivity. Qed.


Lemma edgesQ_nondecreasing (h : Q) : (0 <= h)%Q -> nondecreasing (edgesQ h).
Proof.
  intros Hh. unfold edgesQ. simpl. unfold Qdiv. change (/ 19)%Q with (1 # 19)%Q.
  repeat split; norm_index; lra.
Qed.

Lemma nondecreasing_not_decreases (qs : list Q) :
  nondecreasing qs -> Numpy.decreases (map Fin qs) = false.
Proof.
  induction qs as [|x [|y qs] IH]; simpl; try reflexivity.
  intros [Hxy Htl]. simpl in IH. rewrite (IH Htl), orb_false_r.
  unfold xgtb. simpl. apply Qltb_ge. exact Hxy.
Qed.

Lemma count_if_bounds f a : 0 <= Numpy.count_if f a <= Z.of_nat (length a).
Proof.
  unfold Numpy.count_if. pose proof (List.filter_length_le f a). lia.
Qed.


Lemma last_cons {A} (x d : A) (l : list A) : List.last (x :: l) d = List.last l x.
Proof.
  revert x d. induction l as [|z l IH]; intros x d; [reflexivity|].
  change (List.last (x :: z :: l) d) with (List.last (z :: l) d).
  rewrite IH. symmetry. apply IH.
Qed.

Lemma sum_diff (x : Z) (l : list Z) :
  sum_list (Numpy.diff (x :: l)) = List.last l x - x.
Proof.
  revert x. induction l as [|y l IH]; intros x; [simpl; lia|].
  change (Numpy.diff (x :: y :: l)) with ((y - x) :: Numpy.diff (y :: l)).
  change (sum_list ((y - x) :: Numpy.diff (y :: l))) with (y - x + sum_list (Numpy.diff (y :: l))).
  rewrite IH, last_cons. lia.
Qed.



Lemma sort_lt_fin (x : xfloat) (v : Q) : Numpy.sort_lt x (Fin v) = xltb x (Fin v).
Proof. destruct x; reflexivity. Qed.

Lemma sort_le_fin (x : xfloat) (v : Q) : Numpy.sort_le x (Fin v) = xleb x (Fin v).
Proof. destruct x; reflexivity. Qed.


Lemma count_if_all (f : xfloat -> bool) (a : list xfloat) :
  Forall (fun x => f x = true) a -> Numpy.count_if f a = Z.of_nat (length a).
Proof.
  unfold Numpy.count_if. induction 1 as [|x a Hx _ IH]; simpl; [reflexivity|].
  rewrite Hx. simpl. lia.
Qed.

(** The edges from [0] to an upper end that is not negative never
    decrease; to an infinite or undefined upper end they are [nan, inf, ...,
    inf], resp. all NaN. *)
Lemma linspace_no_decrease (top : xfloat) :
  not_negative top -> Numpy.decreases (Numpy.linspace (Fin 0) top 20) = false.
Proof.
  unfold not_negative. destruct top as [h| | |]; simpl xltb.
  - intros H. apply Qltb_ge in H. rewrite linspace_edgesQ.
    apply nondecreasing_not_decreases, edgesQ_nondecreasing, H.
  - reflexivity.
  - discriminate.
  - reflexivity.
Qed.


Lemma linspace_inf : Numpy.linspace (Fin 0) PInf 20 = NaN :: repeat PInf 19.
Proof. reflexivity. Qed.

Lemma linspace_nan : Numpy.linspace (Fin 0) NaN 20 = repeat NaN 20.
Proof. reflexivity. Qed.

Lemma last_In {A} (x d : A) (l : list A) : In (List.last (x :: l) d) (x :: l).
Proof.
  revert x. induction l as [|y l IH]; intros x; [left; reflexivity|].
  change (List.last (x :: y :: l) d) with (List.last (y :: l) d). right. apply IH.
Qed.

Lemma removelast_In {A} (v : A) (l : list A) : In v (removelast l) -> In v l.
Proof.
  induction l as [|x [|y l] IH]; simpl; [tauto|tauto|].
  intros [<-|H]; [left; reflexivity|right; apply IH, H].
Qed.

(** With such edges every element that is not NaN is counted at every
    edge: all the bins are empty. *)
Lemma counts_special (qs : list Q) (edges : list xfloat) :
  Forall (fun v => v = PInf \/ v = NaN) edges ->
  Forall (fun c => c = 0) (Numpy.diff (Numpy.search_sorted_inclusive (map Fin qs) edges)).
Proof.
  intros Hedges.
  assert (Hl : forall v, v = PInf \/ v = NaN ->
                 Numpy.searchsorted_left (map Fin qs) v = Z.of_nat (length qs)).
  { intros v Hv. unfold Numpy.searchsorted_left. rewrite count_if_all, length_map; [reflexivity|].
    apply Forall_map, List.Forall_forall. intros q _. destruct Hv as [->| ->]; reflexivity. }
  assert (Hr : forall v, v = PInf \/ v = NaN ->
                 Numpy.searchsorted_right (map Fin qs) v = Z.of_nat (length qs)).
  { intros v Hv. unfold Numpy.searchsorted_right. rewrite count_if_all, length_map; [reflexivity|].
    apply Forall_map, List.Forall_forall. intros q _. destruct Hv as [->| ->]; reflexivity. }
  assert (Hall : Forall (fun c => c = Z.of_nat (length qs))
                   (Numpy.search_sorted_inclusive (map Fin qs) edges)).
  { destruct edges as [|x edges]; [constructor|].
    unfold Numpy.search_sorted_inclusive. apply Forall_app. split.
    - apply Forall_map. apply List.Forall_forall. intros v Hv. apply Hl.
      apply (proj1 (List.Forall_forall _ _) Hedges). apply removelast_In, Hv.
    - constructor; [|constructor]. apply Hr.
      apply (proj1 (List.Forall_forall _ _) Hedges). apply last_In. }
  clear -Hall. induction Hall as [|c l Hc Hl IH]; [constructor|].
  destruct Hl as [|d l Hd Hl]; [constructor|].
  change (Numpy.diff (c :: d :: l)) with ((d - c) :: Numpy.diff (d :: l)).
  constructor; [lia|exact IH].
Qed.

Lemma overflow_double_not_negative (t : xfloat) :
  not_negative t -> not_negative (overflow (xmul t (Fin 2))).
Proof.
  unfold not_negative. destruct t as [q| | |]; simpl; try (intros; reflexivity || discriminate).
  intros H. apply Qltb_ge in H.
  destruct (Qltb MAX_FLOAT (q * 2)); [reflexivity|].
  destruct (Qltb (q * 2) (- MAX_FLOAT)) eqn:E.
  - apply Qltb_lt in E. exfalso.
    assert (Hm : (- MAX_FLOAT < 0)%Q) by reflexivity. lra.
  - simpl. apply Qltb_ge. lra.
Qed.



Lemma pymax_not_negative_l (a b : xfloat) : not_negative a -> not_negative (pymax a b).
Proof.
  unfold not_negative, pymax, xgtb. intros Ha.
  destruct (xltb a b) eqn:E; [|exact Ha].
  destruct a as [x| | |], b as [y| | |]; simpl in *; try reflexivity; try discriminate.
  apply Qltb_ge in Ha. apply Qltb_lt in E. apply Qltb_ge. lra.
Qed.

Lemma pymax_not_negative_r (a : xfloat) (q : Q) :
  (0 <= q)%Q -> not_negative (pymax a (Fin q)).
Proof.
  unfold not_negative, pymax, xgtb. intros Hq.
  destruct (xltb a (Fin q)) eqn:E.
  - simpl. apply Qltb_ge. exact Hq.
  - destruct a as [x| | |]; simpl in *; try reflexivity; try discriminate.
    apply Qltb_ge in E. apply Qltb_ge. lra.
Qed.

Lemma pymax_inf (b : Q) : pymax PInf (Fin b) = PInf.
Proof. reflexivity. Qed.

(** ** The percentile as a quantile *)

















(** ** The engine *)

Lemma MATERIAL_MU_positive (m : string) (mu : Q) :
  dict_get MATERIAL_MU m = Some mu -> (0 < mu)%Q.
Proof.
  unfold MATERIAL_MU. simpl.
  repeat (destruct (String.eqb m _); [intros [= <-]; reflexivity|]).
  discriminate.
Qed.

Lemma MATERIAL_MU_recognized (m : string) :
  dict_get MATERIAL_MU m = None <->
  m <> "Aluminum"%string /\ m <> "Lead"%string /\ m <> "Water"%string.
Proof.
  unfold MATERIAL_MU. simpl.
  destruct (String.eqb_spec m "Aluminum"); [split; [discriminate|tauto]|].
  destruct (String.eqb_spec m "Lead"); [split; [discriminate|tauto]|].
  destruct (String.eqb_spec m "Water"); [split; [discriminate|tauto]|].
  tauto.
Qed.

Lemma bind_ok {A B} (l : list draw) (a : A) (k : A -> M B) :
  bind (l, Ok a) k = (l ++ fst (k a), snd (k a)).
Proof. unfold bind. destruct (k a). reflexivity. Qed.

Lemma bind_raise {A B} (l : list draw) (e : exn) (k : A -> M B) :
  bind (l, Raise e) k = (l, Raise e).
Proof. reflexivity. Qed.

Lemma for_each_ok {A B} (f : A -> M B) (lg : A -> list draw) (g : A -> B) (l : list A) :
  Forall (fun a => f a = (lg a, Ok (g a))) l ->
  for_each f l = (flat_map lg l, Ok (map g l)).
Proof.
  induction 1 as [|a l Ha _ IH]; simpl; [reflexivity|].
  rewrite Ha, bind_ok, IH. simpl. rewrite app_nil_r. reflexivity.
Qed.

Section EngineFacts.

Variable std_exp : Z -> nat -> Q.

Lemma default_rng_ok (seed : option Z) (e : env) :
  seed_ok seed -> default_rng seed e = ([], Ok (rng_of seed e)).
Proof.
  destruct seed as [s|]; simpl; [|reflexivity].
  intros Hs. destruct (Z.ltb_spec s 0); [lia|reflexivity].
Qed.

Lemma single_chunk_sim_positive (samples : Z) (mu : Q) (thickness : xfloat)
    (seed : option Z) (e : env) :
  (0 < mu)%Q -> 0 <= samples -> seed_ok seed ->
  let paths := map Fin (drawsQ std_exp (rng_of seed e) (1 / mu) samples) in
  single_chunk_sim std_exp samples mu thickness seed e
  = ([Draw (rng_of seed e) (1 / mu) samples], Ok (transmitted_of thickness paths, paths)).
Proof.
  intros Hmu Hs Hseed paths. unfold single_chunk_sim.
  rewrite (default_rng_ok seed e Hseed), bind_ok.
  assert (Hle : Qle_bool mu 0 = false) by (apply Qle_bool_gt; exact Hmu).
  rewrite Hle. unfold truediv.
  assert (Hz : Qeq_bool mu 0 = false).
  { destruct (Qeq_bool mu 0) eqn:E; [|reflexivity].
    apply Qeq_bool_eq in E. rewrite E in Hmu. discriminate. }
  rewrite Hz. unfold ret. rewrite bind_ok. unfold exponential.
  destruct (Z.ltb_spec samples 0); [lia|].
  unfold tell. rewrite bind_ok. simpl.
  subst paths. unfold drawsQ. rewrite map_map. reflexivity.
Qed.

Lemma drawsQ_length (rng : Z) (scale : Q) (size : Z) :
  0 <= size -> Z.of_nat (length (drawsQ std_exp rng scale size)) = size.
Proof. intros H. unfold drawsQ. rewrite length_map, length_seq. lia. Qed.

Lemma drawsQ_drawn_from (rng : Z) (scale : Q) (size : Z) :
  Forall (drawn_from std_exp scale) (drawsQ std_exp rng scale size).
Proof.
  unfold drawsQ. apply List.Forall_forall. intros q Hq.
  apply in_map_iff in Hq as (k & <- & _). exists rng, k. reflexivity.
Qed.

Lemma chunk_pathsQ_length (chunks : list chunk) :
  Forall (fun c => 0 <= chunk_cnt c) chunks ->
  Z.of_nat (length (chunk_pathsQ std_exp chunks)) = sum_list (map chunk_cnt chunks).
Proof.
  unfold chunk_pathsQ.
  induction 1 as [|c l Hc _ IH]; simpl; [reflexivity|].
  rewrite length_app, Nat2Z.inj_add, drawsQ_length by exact Hc.
  unfold sum_list in *. simpl. rewrite <- IH. reflexivity.
Qed.

Lemma chunk_pathsQ_drawn_from (mu : Q) (chunks : list chunk) :
  Forall (fun c => chunk_mu c = mu) chunks ->
  Forall (drawn_from std_exp (1 / mu)) (chunk_pathsQ std_exp chunks).
Proof.
  unfold chunk_pathsQ.
  induction 1 as [|c l Hc _ IH]; simpl; [constructor|].
  apply Forall_app. split; [|exact IH]. rewrite Hc. apply drawsQ_drawn_from.
Qed.

Lemma pool_starmap_ok (chunks : list chunk) (e : env) :
  chunks <> [] ->
  Forall (fun c => (0 < chunk_mu c)%Q /\ 0 <= chunk_cnt c /\ 0 <= chunk_seed c) chunks ->
  exists log results,
    pool_starmap std_exp chunks e = (log, Ok results) /\
    concat (map snd results) = map Fin (chunk_pathsQ std_exp chunks) /\
    map draw_seed log = map chunk_seed chunks.
Proof.
  intros Hne Hall. unfold pool_starmap.
  destruct chunks as [|c0 chunks0] eqn:E; [congruence|]. rewrite <- E in *.
  replace (length chunks =? 0)%nat with false by (subst chunks; reflexivity).
  clear E Hne c0 chunks0.
  set (paths := fun c => map Fin (drawsQ std_exp (chunk_seed c) (1 / chunk_mu c) (chunk_cnt c))).
  eexists _, _. split.
  - apply (for_each_ok _
             (fun c => [Draw (chunk_seed c) (1 / chunk_mu c) (chunk_cnt c)])
             (fun c => (transmitted_of (chunk_thickness c) (paths c), paths c))).
    eapply List.Forall_impl; [|exact Hall]. intros c (Hmu & Hcnt & Hseed).
    apply (single_chunk_sim_positive (chunk_cnt c) (chunk_mu c) (chunk_thickness c)
             (Some (chunk_seed c)) e Hmu Hcnt Hseed).
  - split.
    + rewrite map_map. simpl. unfold chunk_pathsQ, paths.
      rewrite concat_map, map_map. reflexivity.
    + clear. induction chunks as [|c l IH]; simpl; [reflexivity|]. rewrite IH. reflexivity.
Qed.

Lemma offset_seed_nonneg (seed : option Z) (e : env) :
  seed_ok seed -> 0 <= offset_seed_of seed e.
Proof.
  destruct seed as [s|]; simpl; [|lia].
  intros Hs. destruct (s =? 0); lia.
Qed.


(** The upper end of the histogram range is never negative when the
    thickness is not, or when the paths are not. *)
Lemma histogram_top_not_negative (thickness : xfloat) (paths : list xfloat) :
  not_negative thickness -> not_negative (histogram_top thickness paths).
Proof.
  intros H. unfold histogram_top.
  apply pymax_not_negative_l, overflow_double_not_negative, H.
Qed.

Lemma histogram_top_not_negative_paths (thickness : xfloat) (qs : list Q) :
  Forall nonneg qs -> qs <> [] -> not_negative (histogram_top thickness (map Fin qs)).
Proof.
  intros Hqs Hne.
  destruct (percentile_fin nonneg (map Fin qs) convex_nonneg) as (pct & Hpct & Hpct0).
  { apply Forall_map. exact Hqs. }
  { destruct qs; [congruence|discriminate]. }
  unfold histogram_top. rewrite Hpct.
  replace (length (map Fin qs) =? 0)%nat with false
    by (destruct qs; [congruence|reflexivity]).
  apply pymax_not_negative_r, Hpct0.
Qed.







(** The rest of [run_simulation] once the paths are sampled and the upper
    end of the histogram range is not negative. *)
Lemma run_simulation_ok (p : params) (parallel : bool) (n_workers : option Z)
    (e : env) (mu : Q) (log : list draw) (total : Z) (paths : list xfloat) :
  let material := default "Aluminum"%string (p_material p) in
  let thickness := default (Fin 1) (p_thickness p) in
  let samples := default 500 (p_samples p) in
  let edges := Numpy.linspace (Fin 0) (histogram_top thickness paths) 20 in
  dict_get MATERIAL_MU material = Some mu ->
  sample_paths std_exp samples mu thickness (p_seed p) parallel n_workers e
  = (log, Ok (total, paths)) ->
  samples <> 0 ->
  not_negative (histogram_top thickness paths) ->
  run_simulation std_exp p parallel n_workers e
  = (log,
     Ok {| r_material := material;
           r_thickness := thickness;
           r_samples := samples;
           transmitted := total;
           transmitted_fraction := (inject_Z total / inject_Z samples)%Q;
           bins := edges;
           counts := Numpy.diff (Numpy.search_sorted_inclusive paths edges);
           runtime_seconds := (time_end e - time_start e)%Q;
           parallel_used := parallel;
           workers := if parallel then resolve_workers n_workers e else 1 |}).
Proof.
  intros material thickness samples edges Hmu Hpaths Hs Htop.
  unfold run_simulation. fold material thickness samples.
  rewrite Hmu, Hpaths, bind_ok. cbv beta iota.
  unfold truediv.
  assert (Hz : Qeq_bool (inject_Z samples) 0 = false).
  { destruct (Qeq_bool (inject_Z samples) 0) eqn:E; [|reflexivity].
    apply Qeq_bool_eq in E. unfold Qeq in E. simpl in E. lia. }
  rewrite Hz. unfold ret at 1. rewrite bind_ok. cbv beta.
  unfold histogram.
  rewrite (linspace_no_decrease _ Htop).
  unfold ret. rewrite bind_ok. simpl fst. simpl snd. rewrite !app_nil_r. reflexivity.
Qed.

Lemma drawn_from_any (scale : Q) (qs : list Q) :
  Forall (drawn_from std_exp scale) qs -> Forall any_rational qs.
Proof. apply List.Forall_impl. intros q _. exact I. Qed.

Lemma drawn_from_nonneg (mu : Q) (qs : list Q) :
  (forall s k, (0 <= std_exp s k)%Q) -> (0 < mu)%Q ->
  Forall (drawn_from std_exp (1 / mu)) qs -> Forall nonneg qs.
Proof.
  intros Hexp Hmu. apply List.Forall_impl. intros q (s & k & ->).
  unfold nonneg. apply Qmult_le_0_compat; [|apply Hexp].
  apply Qlt_le_weak. unfold Qdiv. rewrite Qmult_1_l. apply Qinv_lt_0_compat. exact Hmu.
Qed.

Lemma nonempty_of_length {A} (l : list A) (n : Z) :
  Z.of_nat (length l) = n -> 0 < n -> l <> [].
Proof. intros H Hn ->. simpl in H. lia. Qed.



(** C1. In sequential mode with a seed, two calls on the same input see the
    same draws and return the same [transmitted], [transmitted_fraction],
    [bins] and [counts] (or raise the same exception), whatever clock,
    entropy and CPU count each call finds; on a valid input (recognised
    material, thickness not negative, samples positive, seed not negative)
    both return a result. *)
Theorem sequential_seeded_deterministic (p : params) (n_workers : option Z)
    (e1 e2 : env) (s : Z) :
  p_seed p = Some s ->
  observe (run_simulation std_exp p false n_workers e1)
  = observe (run_simulation std_exp p false n_workers e2) /\
  (dict_get MATERIAL_MU (default "Aluminum"%string (p_material p)) <> None ->
   not_negative (default (Fin 1) (p_thickness p)) ->
   0 < default 500 (p_samples p) -> 0 <= s ->
   exists r1 r2,
     result_of (run_simulation std_exp p false n_workers e1) = Ok r1 /\
     result_of (run_simulation std_exp p false n_workers e2) = Ok r2 /\
     transmitted r1 = transmitted r2 /\
     transmitted_fraction r1 = transmitted_fraction r2 /\
     bins r1 = bins r2 /\
     counts r1 = counts r2).
Proof.
  intros Hseed.
  assert (Hsame : observe (run_simulation std_exp p false n_workers e1)
                  = observe (run_simulation std_exp p false n_workers e2)).
  { unfold run_simulation. rewrite Hseed.
    destruct (dict_get MATERIAL_MU (default "Aluminum"%string (p_material p))) as [mu|];
      [|reflexivity].
    unfold sample_paths.
    change (single_chunk_sim std_exp (default 500 (p_samples p)) mu
              (default (Fin 1) (p_thickness p)) (Some s) e2)
      with (single_chunk_sim std_exp (default 500 (p_samples p)) mu
              (default (Fin 1) (p_thickness p)) (Some s) e1).
    destruct (single_chunk_sim std_exp (default 500 (p_samples p)) mu
                (default (Fin 1) (p_thickness p)) (Some s) e1) as [log [[total paths]|ex]];
      [|reflexivity].
    rewrite !bind_ok. cbv beta iota.
    destruct (truediv (inject_Z total) (inject_Z (default 500 (p_samples p))))
      as [log1 [fraction|ex]]; [|reflexivity].
    rewrite !bind_ok. cbv beta.
    destruct (histogram paths _) as [log2 [[cnts edges]|ex]]; reflexivity. }
  split; [exact Hsame|].
  - intros Hmat Hth Hs Hs0.
    destruct (dict_get MATERIAL_MU (default "Aluminum"%string (p_material p)))
      as [mu|] eqn:Hmu; [clear Hmat|congruence].
    pose proof (MATERIAL_MU_positive _ _ Hmu) as Hpos.
    assert (Hrun : forall e, exists log r,
               run_simulation std_exp p false n_workers e = (log, Ok r)).
    { intros e.
      set (qs := drawsQ std_exp s (1 / mu) (default 500 (p_samples p))).
      eexists _, _.
      eapply run_simulation_ok with (paths := map Fin qs);
        [exact Hmu| |lia|apply histogram_top_not_negative, Hth].
      unfold sample_paths. rewrite Hseed.
      apply (single_chunk_sim_positive _ mu _ (Some s) e Hpos); [lia|exact Hs0]. }
    destruct (Hrun e1) as (log1 & r1 & Hr1). destruct (Hrun e2) as (log2 & r2 & Hr2).
    exists r1, r2. rewrite Hr1, Hr2 in Hsame |- *.
    unfold observe in Hsame. simpl in Hsame.
    injection Hsame as _ H1 H2 H3 H4. repeat split; try reflexivity; assumption.
Qed.

(** C7. For a material other than Aluminum, Lead and Water the engine
    raises [ValueError("Unknown material")], in either mode, and has drawn
    nothing from the generator when it does. *)
Theorem unknown_material_raises (p : params) (parallel : bool)
    (n_workers : option Z) (e : env) (m : string) :
  p_material p = Some m ->
  m <> "Aluminum"%string -> m <> "Lead"%string -> m <> "Water"%string ->
  run_simulation std_exp p parallel n_workers e
  = ([], Raise (ValueError "Unknown material")).
Proof.
  intros Hm H1 H2 H3. unfold run_simulation. rewrite Hm. simpl default.
  replace (dict_get MATERIAL_MU m) with (@None Q); [reflexivity|].
  symmetry. apply MATERIAL_MU_recognized. auto.
Qed.

Lemma count_all_inf (thickness : xfloat) (n : nat) :
  Numpy.count_if (fun p => xgtb p thickness) (repeat PInf n)
  = if xltb thickness PInf then Z.of_nat n else 0.
Proof.
  unfold Numpy.count_if, xgtb.
  destruct (xltb thickness PInf) eqn:E.
  - f_equal. induction n as [|n IH]; simpl; [reflexivity|]. rewrite E. simpl. f_equal. exact IH.
  - change 0 with (Z.of_nat 0). f_equal.
    induction n as [|n IH]; simpl; [reflexivity|]. rewrite E. exact IH.
Qed.

(** C8, as the code has it. With a zero attenuation coefficient and no seed
    or a seed that is not negative, a chunk of [samples > 0] trials ends
    without an exception (so without a division by zero) and without a
    draw: every path length is infinite. All [samples] trials count as
    transmitted when the thickness is below [+inf]; when the thickness is
    [+inf] or NaN no path is greater and none counts. With a negative seed
    the generator cannot be made and the chunk raises before the
    coefficient is looked at. *)
Theorem zero_coefficient_transmits_all (samples : Z) (mu : Q) (thickness : xfloat)
    (seed : option Z) (e : env) :
  (mu == 0)%Q -> 0 < samples ->
  (seed_ok seed ->
   single_chunk_sim std_exp samples mu thickness seed e
   = ([], Ok (if xltb thickness PInf then samples else 0,
              repeat PInf (Z.to_nat samples)))) /\
  (forall s, seed = Some s -> s < 0 ->
   single_chunk_sim std_exp samples mu thickness seed e
   = ([], Raise (ValueError "expected non-negative integer"))).
Proof.
  intros Hmu Hs. split.
  - intros Hseed. unfold single_chunk_sim.
    rewrite (default_rng_ok seed e Hseed), bind_ok.
    assert (Hle : Qle_bool mu 0 = true) by (apply Qle_bool_iff; rewrite Hmu; apply Qle_refl).
    rewrite Hle. unfold np_full. destruct (Z.ltb_spec samples 0); [lia|].
    unfold ret. rewrite bind_ok. cbn [fst snd app].
    rewrite count_all_inf, Z2Nat.id by lia. reflexivity.
  - intros s -> Hneg. unfold single_chunk_sim, default_rng.
    destruct (Z.ltb_spec s 0); [reflexivity|lia].
Qed.

(** Only the sampling draws from the generator. *)
Lemma run_simulation_draws (p : params) (parallel : bool) (n_workers : option Z)
    (e : env) (mu : Q) :
  dict_get MATERIAL_MU (default "Aluminum"%string (p_material p)) = Some mu ->
  drawn (run_simulation std_exp p parallel n_workers e)
  = drawn (sample_paths std_exp (default 500 (p_samples p)) mu
             (default (Fin 1) (p_thickness p)) (p_seed p) parallel n_workers e).
Proof.
  intros Hmu. unfold run_simulation. rewrite Hmu.
  destruct (sample_paths std_exp _ mu _ _ parallel n_workers e)
    as [log [[total paths]|ex]]; [|reflexivity].
  rewrite bind_ok. cbv beta iota. unfold truediv.
  destruct (Qeq_bool _ 0); [simpl; apply app_nil_r|].
  unfold ret at 1. rewrite bind_ok. cbv beta. unfold histogram.
  destruct (Numpy.decreases _); simpl; rewrite ?app_nil_r; reflexivity.
Qed.

(** The base seed of the chunks: the caller's seed unless it is [None] or
    [0]. *)
Lemma offset_seed_of_nonzero (s : Z) (e : env) :
  s <> 0 -> offset_seed_of (Some s) e = s.
Proof. intros Hs. unfold offset_seed_of. destruct (Z.eqb_spec s 0); congruence. Qed.

Lemma offset_seed_of_zero (e : env) :
  offset_seed_of (Some 0) e = Z.of_N (entropy e).
Proof. reflexivity. Qed.

(** In parallel mode the chunk of index [i] is sampled with the seed
    [offset_seed + i]. *)
Lemma parallel_draw_seeds (samples : Z) (mu : Q) (thickness : xfloat) (seed : option Z)
    (n_workers : option Z) (e : env) :
  (0 < mu)%Q -> 0 < samples -> seed_ok seed -> 1 <= resolve_workers n_workers e ->
  map draw_seed
    (drawn (sample_paths std_exp samples mu thickness seed true n_workers e))
  = map (fun i => offset_seed_of seed e + i)
        (range (Z.min samples (resolve_workers n_workers e))).
Proof.
  intros Hmu Hs Hseed Hw. unfold sample_paths.
  set (n := resolve_workers n_workers e) in *.
  pose proof (offset_seed_nonneg seed e Hseed) as Hoff.
  set (off := offset_seed_of seed e) in *.
  rewrite (make_chunks_eq mu thickness off samples n) by lia.
  destruct (kept_bounds samples n ltac:(lia) Hw) as (Hm & Hmin & _).
  set (base := samples / n) in *. set (rem := samples mod n) in *.
  set (m := kept base rem n) in *.
  pose proof (Z.mod_pos_bound samples n ltac:(lia)) as Hrem. fold rem in Hrem.
  pose proof (Z.div_pos samples n ltac:(lia) ltac:(lia)) as Hbase. fold base in Hbase.
  set (chunks := map (chunk_at mu thickness off base rem) (range m)).
  destruct (pool_starmap_ok chunks e) as (log & results & Hpool & _ & Hseeds).
  { subst chunks. destruct (range m) eqn:E; [|discriminate].
    apply (f_equal (@length Z)) in E. rewrite length_range in E. simpl in E. lia. }
  { apply List.Forall_forall. intros c Hc. apply in_map_iff in Hc as (i & <- & Hi).
    unfold range in Hi. apply in_map_iff in Hi as (k & <- & _).
    simpl. unfold chunk_size. destruct (Z.of_nat k <? rem); repeat split; try lia.
    all: exact Hmu. }
  rewrite bind_ok. simpl. rewrite Hpool, bind_ok. simpl. rewrite app_nil_r, Hseeds.
  subst chunks. rewrite map_map, <- Hmin. reflexivity.
Qed.

(** C3, at seed 0. A parallel call with [seed = 0] on 4 trials and 2 workers,
    in a process whose entropy source gives 1000, seeds its two chunks with
    1000 and 1001: the seed [0] counts as no seed. *)
Theorem parallel_seed_zero_ignored :
  map draw_seed
    (drawn (run_simulation std_exp
              (Params (Some "Water"%string) (Some (Fin 1)) (Some 4) (Some 0))
              true (Some 2) (Env 0 0 1000 8)))
  = [1000; 1001].
Proof. rewrite (run_simulation_draws _ _ _ _ (8 # 100)) by reflexivity. reflexivity. Qed.

End EngineFacts.

(** ** More about the engine *)

Lemma count_if_app f (a b : list xfloat) :
  Numpy.count_if f (a ++ b) = Numpy.count_if f a + Numpy.count_if f b.
Proof.
  unfold Numpy.count_if. rewrite List.filter_app, length_app. lia.
Qed.

Lemma count_if_mono (f g : xfloat -> bool) (a : list xfloat) :
  (forall x, f x = true -> g x = true) ->
  Numpy.count_if f a <= Numpy.count_if g a.
Proof.
  intros Hfg. unfold Numpy.count_if.
  induction a as [|x a IH]; simpl; [lia|].
  destruct (f x) eqn:Hf.
  - rewrite (Hfg x Hf). simpl. lia.
  - destruct (g x); simpl; lia.
Qed.

Lemma count_if_none (f : xfloat -> bool) (a : list xfloat) :
  Forall (fun x => f x = false) a -> Numpy.count_if f a = 0.
Proof.
  unfold Numpy.count_if. induction 1 as [|x a Hx _ IH]; simpl; [reflexivity|].
  rewrite Hx. exact IH.
Qed.

Lemma fold_left_add_fst {B} (l : list (Z * B)) (acc : Z) :
  fold_left (fun a r => a + fst r) l acc = acc + sum_list (map fst l).
Proof.
  revert acc. induction l as [|x l IH]; intros acc; simpl; [lia|].
  rewrite IH. unfold sum_list. simpl. lia.
Qed.

Lemma filter_map_length {A B} (f : B -> bool) (g : A -> B) (l : list A) :
  length (List.filter f (map g l)) = length (List.filter (fun a => f (g a)) l).
Proof.
  induction l as [|a l IH]; simpl; [reflexivity|].
  destruct (f (g a)); simpl; rewrite IH; reflexivity.
Qed.

Lemma xltb_le_trans (v : xfloat) (x y : Q) :
  (x <= y)%Q -> xltb v (Fin x) = true -> xltb v (Fin y) = true.
Proof.
  intros Hxy. destruct v as [q| | |]; simpl; try (intros; assumption || discriminate).
  rewrite !Qltb_lt. intros H. eapply Qlt_le_trans; eassumption.
Qed.

Lemma xltb_xleb (v : xfloat) (x y : Q) :
  (x <= y)%Q -> xltb v (Fin x) = true -> xleb v (Fin y) = true.
Proof.
  intros Hxy. destruct v as [q| | |]; simpl; try (intros; assumption || discriminate).
  rewrite Qltb_lt, Qle_bool_iff. intros H.
  apply Qlt_le_weak. eapply Qlt_le_trans; eassumption.
Qed.

Lemma sort_lt_le_trans (v : xfloat) (x y : Q) :
  (x <= y)%Q -> Numpy.sort_lt v (Fin x) = true -> Numpy.sort_lt v (Fin y) = true.
Proof. rewrite !sort_lt_fin. apply xltb_le_trans. Qed.

Lemma sort_lt_sort_le (v : xfloat) (x y : Q) :
  (x <= y)%Q -> Numpy.sort_lt v (Fin x) = true -> Numpy.sort_le v (Fin y) = true.
Proof. rewrite sort_lt_fin, sort_le_fin. apply xltb_xleb. Qed.

Lemma search_sorted_inclusive_cons (a : list xfloat) (x y : xfloat) (tl : list xfloat) :
  Numpy.search_sorted_inclusive a (x :: y :: tl)
  = Numpy.searchsorted_left a x :: Numpy.search_sorted_inclusive a (y :: tl).
Proof. reflexivity. Qed.

(** Between increasing edges every bin count is a natural number. *)
Lemma counts_nonneg (a : list xfloat) (qs : list Q) :
  nondecreasing qs ->
  Forall (fun c => 0 <= c) (Numpy.diff (Numpy.search_sorted_inclusive a (map Fin qs))).
Proof.
  induction qs as [|x qs IH]; [constructor|].
  destruct qs as [|y [|z tl]].
  - constructor.
  - intros [Hxy _]. simpl. constructor; [|constructor].
    pose proof (count_if_mono (fun v => Numpy.sort_lt v (Fin x))
                  (fun v => Numpy.sort_le v (Fin y)) a
                  (fun v => sort_lt_sort_le v x y Hxy)).
    unfold Numpy.searchsorted_left, Numpy.searchsorted_right. lia.
  - intros [Hxy Htl]. specialize (IH Htl).
    change (map Fin (x :: y :: z :: tl)) with (Fin x :: Fin y :: map Fin (z :: tl)).
    rewrite search_sorted_inclusive_cons.
    change (map Fin (y :: z :: tl)) with (Fin y :: Fin z :: map Fin tl) in IH.
    change (Fin y :: map Fin (z :: tl)) with (Fin y :: Fin z :: map Fin tl).
    rewrite search_sorted_inclusive_cons in IH |- *.
    change (Numpy.diff (?u :: ?v :: ?w)) with ((v - u) :: Numpy.diff (v :: w)).
    constructor; [|exact IH].
    pose proof (count_if_mono (fun v => Numpy.sort_lt v (Fin x))
                  (fun v => Numpy.sort_lt v (Fin y)) a
                  (fun v => sort_lt_le_trans v x y Hxy)).
    unfold Numpy.searchsorted_left. lia.
Qed.

(** The counts add up to the data between the outer edges. *)
Lemma counts_sum (a : list xfloat) (x y : xfloat) (edges : list xfloat) :
  sum_list (Numpy.diff (Numpy.search_sorted_inclusive a (x :: y :: edges)))
  = Numpy.searchsorted_right a (List.last (y :: edges) NaN) - Numpy.searchsorted_left a x.
Proof.
  unfold Numpy.search_sorted_inclusive.
  change (removelast (x :: y :: edges)) with (x :: removelast (y :: edges)).
  rewrite map_cons, <- app_comm_cons, sum_diff, last_last.
  change (List.last (x :: y :: edges) NaN) with (List.last (y :: edges) NaN).
  reflexivity.
Qed.

Lemma fraction_bounds (t n : Z) :
  0 <= t <= n -> 0 < n ->
  (0 <= inject_Z t / inject_Z n)%Q /\ (inject_Z t / inject_Z n <= 1)%Q.
Proof.
  intros Ht Hn.
  assert (Hpos : (0 < inject_Z n)%Q)
    by (change 0%Q with (inject_Z 0); rewrite <- Zlt_Qlt; exact Hn).
  split.
  - apply Qle_shift_div_l; [exact Hpos|]. rewrite Qmult_0_l.
    change 0%Q with (inject_Z 0). rewrite <- Zle_Qle. lia.
  - apply Qle_shift_div_r; [exact Hpos|]. rewrite Qmult_1_l.
    rewrite <- Zle_Qle. lia.
Qed.

Lemma allowed_thickness_positive (t : xfloat) :
  existsb (xeqb t) ALLOWED_THICKNESSES = true -> exists q, t = Fin q /\ (0 < q)%Q.
Proof.
  unfold ALLOWED_THICKNESSES. destruct t as [q| | |]; simpl; try discriminate.
  rewrite !orb_true_iff. intros H. exists q. split; [reflexivity|].
  destruct H as [H|[H|[H|[H|H]]]]; try discriminate;
    apply Qeq_bool_eq in H; rewrite H; reflexivity.
Qed.

Lemma allowed_material_known (m : string) :
  In m ALLOWED_MATERIALS -> exists mu, dict_get MATERIAL_MU m = Some mu.
Proof.
  unfold ALLOWED_MATERIALS. simpl.
  intros [<-|[<-|[<-|[]]]]; eexists; reflexivity.
Qed.


Section EngineMore.

Variable std_exp : Z -> nat -> Q.

(** The pool returns, chunk by chunk, what [single_chunk_sim] returns. *)
Lemma pool_starmap_eq (chunks : list chunk) (e : env) :
  chunks <> [] ->
  Forall (fun c => (0 < chunk_mu c)%Q /\ 0 <= chunk_cnt c /\ 0 <= chunk_seed c) chunks ->
  pool_starmap std_exp chunks e
  = (map (fun c => Draw (chunk_seed c) (1 / chunk_mu c) (chunk_cnt c)) chunks,
     Ok (map (fun c =>
                let paths := map Fin (drawsQ std_exp (chunk_seed c) (1 / chunk_mu c)
                                        (chunk_cnt c)) in
                (transmitted_of (chunk_thickness c) paths, paths)) chunks)).
Proof.
  intros Hne Hall. unfold pool_starmap.
  destruct chunks as [|c0 chunks0] eqn:E; [congruence|]. rewrite <- E in *.
  replace (length chunks =? 0)%nat with false by (subst chunks; reflexivity).
  clear E Hne c0 chunks0.
  rewrite (for_each_ok _
             (fun c => [Draw (chunk_seed c) (1 / chunk_mu c) (chunk_cnt c)])
             (fun c => let paths := map Fin (drawsQ std_exp (chunk_seed c)
                                               (1 / chunk_mu c) (chunk_cnt c)) in
                       (transmitted_of (chunk_thickness c) paths, paths))).
  - f_equal.
  - eapply List.Forall_impl; [|exact Hall]. intros c (Hmu & Hcnt & Hseed).
    apply (single_chunk_sim_positive std_exp (chunk_cnt c) (chunk_mu c) (chunk_thickness c)
             (Some (chunk_seed c)) e Hmu Hcnt Hseed).
Qed.

Lemma transmitted_of_chunks (thickness : xfloat) (chunks : list chunk) :
  Forall (fun c => chunk_thickness c = thickness) chunks ->
  sum_list (map (fun c => transmitted_of (chunk_thickness c)
                            (map Fin (drawsQ std_exp (chunk_seed c) (1 / chunk_mu c)
                                        (chunk_cnt c)))) chunks)
  = transmitted_of thickness (map Fin (chunk_pathsQ std_exp chunks)).
Proof.
  unfold chunk_pathsQ, transmitted_of, sum_list.
  induction 1 as [|c l Hc _ IH]; [reflexivity|].
  cbn [map concat fold_right]. rewrite map_app, count_if_app, IH, Hc. reflexivity.
Qed.

Lemma make_chunks_parallel (samples n : Z) (mu : Q) (thickness : xfloat) (off : Z) :
  1 <= samples -> 1 <= n ->
  make_chunks samples n mu thickness off
  = ([], Ok (parallel_chunks samples n mu thickness off)).
Proof.
  intros Hs Hn. rewrite make_chunks_eq by lia.
  destruct (kept_bounds samples n Hs Hn) as (_ & -> & _). reflexivity.
Qed.

Lemma parallel_chunks_facts (samples n : Z) (mu : Q) (thickness : xfloat) (off : Z) :
  1 <= samples -> 1 <= n -> 0 <= off ->
  parallel_chunks samples n mu thickness off <> [] /\
  Forall (fun c => chunk_mu c = mu /\ chunk_thickness c = thickness /\
                   0 <= chunk_cnt c /\ 0 <= chunk_seed c)
         (parallel_chunks samples n mu thickness off) /\
  sum_list (map chunk_cnt (parallel_chunks samples n mu thickness off)) = samples /\
  Z.of_nat (length (parallel_chunks samples n mu thickness off)) = Z.min samples n.
Proof.
  intros Hs Hn Hoff. unfold parallel_chunks.
  destruct (kept_bounds samples n Hs Hn) as (Hm & Hmin & Hsum).
  pose proof (Z.mod_pos_bound samples n ltac:(lia)) as Hrem.
  pose proof (Z.div_pos samples n ltac:(lia) ltac:(lia)) as Hbase.
  rewrite <- Hmin. set (m := kept (samples / n) (samples mod n) n) in *.
  repeat split.
  - destruct (range m) eqn:E; [|discriminate].
    apply (f_equal (@length Z)) in E. rewrite length_range in E. simpl in E. lia.
  - apply List.Forall_forall. intros c Hc. apply in_map_iff in Hc as (i & <- & Hi).
    unfold range in Hi. apply in_map_iff in Hi as (k & <- & _).
    simpl. unfold chunk_size. destruct (Z.of_nat k <? samples mod n); repeat split; lia.
  - rewrite map_chunk_cnt.
    replace m with (Z.of_nat (Z.to_nat m)) at 1 by lia.
    rewrite sum_chunk_sizes by lia. rewrite Z2Nat.id by lia. exact Hsum.
  - rewrite length_map, length_range. lia.
Qed.

(** Lines 53-80 in full: the draws made, the total that is returned and the
    paths, in both modes. *)
Lemma sample_paths_eq (samples : Z) (mu : Q) (thickness : xfloat) (seed : option Z)
    (parallel : bool) (n_workers : option Z) (e : env) :
  (0 < mu)%Q -> 0 < samples -> seed_ok seed ->
  (parallel = true -> 1 <= resolve_workers n_workers e) ->
  let qs := sampled_pathsQ std_exp samples mu thickness seed parallel n_workers e in
  sample_paths std_exp samples mu thickness seed parallel n_workers e
  = (sampled_draws samples mu thickness seed parallel n_workers e,
     Ok (transmitted_of thickness (map Fin qs), map Fin qs)) /\
  Z.of_nat (length qs) = samples /\
  Forall (drawn_from std_exp (1 / mu)) qs.
Proof.
  intros Hmu Hs Hseed Hw. unfold sampled_pathsQ, sampled_draws, sample_paths.
  destruct parallel; cbv zeta.
  - specialize (Hw eq_refl). set (n := resolve_workers n_workers e) in *.
    pose proof (offset_seed_nonneg seed e Hseed) as Hoff.
    set (off := offset_seed_of seed e) in *.
    rewrite make_chunks_parallel by lia.
    destruct (parallel_chunks_facts samples n mu thickness off ltac:(lia) Hw Hoff)
      as (Hne & Hall & Hsum & _).
    set (chunks := parallel_chunks samples n mu thickness off) in *.
    rewrite bind_ok. simpl fst. simpl snd. rewrite pool_starmap_eq; [|exact Hne|].
    2:{ eapply List.Forall_impl; [|exact Hall]. intros c (-> & _ & ? & ?). auto. }
    rewrite bind_ok. unfold ret. simpl fst. simpl snd. rewrite app_nil_r.
    rewrite fold_left_add_fst, !map_map. simpl.
    split; [|split].
    + f_equal. f_equal. f_equal.
      * rewrite <- (transmitted_of_chunks thickness chunks).
        -- reflexivity.
        -- eapply List.Forall_impl; [|exact Hall]. intros c (_ & ? & _). assumption.
      * unfold chunk_pathsQ. rewrite concat_map, map_map. reflexivity.
    + rewrite chunk_pathsQ_length; [exact Hsum|].
      eapply List.Forall_impl; [|exact Hall]. intros c (_ & _ & ? & _). assumption.
    + apply chunk_pathsQ_drawn_from.
      eapply List.Forall_impl; [|exact Hall]. intros c (? & _). assumption.
  - rewrite single_chunk_sim_positive by (try assumption; lia).
    split; [reflexivity|]. split; [apply drawsQ_length; lia|apply drawsQ_drawn_from].
Qed.


(** The result of a valid call, field by field. *)
Lemma run_simulation_valid (p : params) (parallel : bool) (n_workers : option Z)
    (e : env) (mu : Q) :
  valid_call std_exp p parallel n_workers e mu ->
  let thickness := default (Fin 1) (p_thickness p) in
  let samples := default 500 (p_samples p) in
  let qs := call_pathsQ std_exp p parallel n_workers e mu in
  let edges := Numpy.linspace (Fin 0) (histogram_top thickness (map Fin qs)) 20 in
  not_negative (histogram_top thickness (map Fin qs)) /\
  Z.of_nat (length qs) = samples /\
  Forall (drawn_from std_exp (1 / mu)) qs /\
  run_simulation std_exp p parallel n_workers e
  = (call_draws p parallel n_workers e mu,
     Ok {| r_material := default "Aluminum"%string (p_material p);
           r_thickness := thickness;
           r_samples := samples;
           transmitted := transmitted_of thickness (map Fin qs);
           transmitted_fraction :=
             (inject_Z (transmitted_of thickness (map Fin qs)) / inject_Z samples)%Q;
           bins := edges;
           counts := Numpy.diff (Numpy.search_sorted_inclusive (map Fin qs) edges);
           runtime_seconds := (time_end e - time_start e)%Q;
           parallel_used := parallel;
           workers := if parallel then resolve_workers n_workers e else 1 |}).
Proof.
  intros (Hmu & Hs & Hseed & Hw & Hnn) thickness samples qs edges.
  pose proof (MATERIAL_MU_positive _ _ Hmu) as Hpos.
  destruct (sample_paths_eq samples mu thickness (p_seed p) parallel n_workers e
              Hpos Hs Hseed Hw) as (Hpaths & Hlen & Hdrawn).
  fold (call_pathsQ std_exp p parallel n_workers e mu) in Hpaths, Hlen, Hdrawn.
  fold (call_draws p parallel n_workers e mu) in Hpaths. fold qs in Hpaths, Hlen, Hdrawn.
  assert (Htop : not_negative (histogram_top thickness (map Fin qs))).
  { destruct Hnn as [Hth|Hexp].
    - apply histogram_top_not_negative, Hth.
    - apply histogram_top_not_negative_paths.
      + exact (drawn_from_nonneg std_exp mu qs Hexp Hpos Hdrawn).
      + exact (nonempty_of_length qs samples Hlen Hs). }
  repeat split; try assumption.
  apply (run_simulation_ok std_exp p parallel n_workers e mu _ _ (map Fin qs) Hmu Hpaths
           ltac:(fold samples; lia) Htop).
Qed.


(** X1. A valid call returns; [transmitted] is the number of sampled paths
    longer than the thickness, in sequential and in parallel mode alike
    (the per-chunk counts add up to the count over all paths); it lies
    between 0 and [samples], and [transmitted_fraction] is
    [transmitted / samples], between 0 and 1. *)
Theorem transmitted_counts_long_paths (p : params) (parallel : bool)
    (n_workers : option Z) (e : env) (mu : Q) :
  valid_call std_exp p parallel n_workers e mu ->
  let thickness := default (Fin 1) (p_thickness p) in
  let samples := default 500 (p_samples p) in
  exists r,
    result_of (run_simulation std_exp p parallel n_workers e) = Ok r /\
    transmitted r
    = Z.of_nat (length (List.filter (fun q => xltb thickness (Fin q))
                          (call_pathsQ std_exp p parallel n_workers e mu))) /\
    0 <= transmitted r <= samples /\
    transmitted_fraction r = (inject_Z (transmitted r) / inject_Z samples)%Q /\
    (0 <= transmitted_fraction r)%Q /\ (transmitted_fraction r <= 1)%Q.
Proof.
  intros Hvalid thickness samples.
  destruct (run_simulation_valid p parallel n_workers e mu Hvalid)
    as (_ & Hlen & _ & Hrun).
  destruct Hvalid as (_ & Hs & _).
  fold thickness samples in Hrun, Hlen, Hs.
  set (qs := call_pathsQ std_exp p parallel n_workers e mu) in *.
  eexists. rewrite Hrun. split; [reflexivity|]. cbn [transmitted transmitted_fraction].
  pose proof (count_if_bounds (fun x => xgtb x thickness) (map Fin qs)) as Hb.
  rewrite length_map, Hlen in Hb. fold (transmitted_of thickness (map Fin qs)) in Hb.
  split; [|split; [exact Hb|split; [reflexivity|]]].
  - unfold transmitted_of, Numpy.count_if. rewrite filter_map_length. reflexivity.
  - apply fraction_bounds; assumption.
Qed.

Lemma all_zero_nonneg (l : list Z) :
  Forall (fun c => c = 0) l -> Forall (fun c => 0 <= c) l.
Proof. apply List.Forall_impl. intros c ->. lia. Qed.

(** X2. With a generator that returns no negative variate, every bin count
    of a valid call is a natural number; and when the last edge is a
    rational (the thickness is finite and its double within the doubles),
    the counts add up to the number of sampled paths that are at most the
    last edge: only paths longer than the last edge are left out. *)
Theorem histogram_counts_paths_up_to_top (p : params) (parallel : bool)
    (n_workers : option Z) (e : env) (mu : Q) :
  (forall s k, (0 <= std_exp s k)%Q) ->
  valid_call std_exp p parallel n_workers e mu ->
  exists r,
    result_of (run_simulation std_exp p parallel n_workers e) = Ok r /\
    Forall (fun c => 0 <= c) (counts r) /\
    forall top,
      List.last (bins r) NaN = Fin top ->
      sum_list (counts r)
      = Z.of_nat (length (List.filter (fun q => Qle_bool q top)
                            (call_pathsQ std_exp p parallel n_workers e mu))).
Proof.
  intros Hexp Hvalid.
  destruct (run_simulation_valid p parallel n_workers e mu Hvalid)
    as (Htop & _ & Hdrawn & Hrun).
  destruct Hvalid as (Hmu & _).
  pose proof (MATERIAL_MU_positive _ _ Hmu) as Hpos.
  pose proof (drawn_from_nonneg std_exp mu _ Hexp Hpos Hdrawn) as Hnn.
  set (qs := call_pathsQ std_exp p parallel n_workers e mu) in *.
  eexists. rewrite Hrun. split; [reflexivity|]. cbn [bins counts].
  destruct (histogram_top (default (Fin 1) (p_thickness p)) (map Fin qs)) as [h| | |].
  - unfold not_negative in Htop. simpl in Htop. apply Qltb_ge in Htop.
    rewrite linspace_edgesQ.
    split; [apply counts_nonneg, edgesQ_nondecreasing, Htop|].
    intros top Hlast. assert (Hh : h = top) by (injection Hlast; auto). subst top.
    change (map Fin (edgesQ h)) with
      (Fin (inject_Z (Z.of_nat 0) * ((h + - 0) / 19) + 0)
         :: Fin (inject_Z (Z.of_nat 1) * ((h + - 0) / 19) + 0)
         :: map Fin (List.tl (List.tl (edgesQ h)))).
    rewrite counts_sum.
    replace (List.last _ NaN) with (Fin h) by reflexivity.
    unfold Numpy.searchsorted_left, Numpy.searchsorted_right.
    rewrite (count_if_none (fun x => Numpy.sort_lt x _)).
    + unfold Numpy.count_if. rewrite Z.sub_0_r, filter_map_length. reflexivity.
    + apply Forall_map. eapply List.Forall_impl; [|exact Hnn].
      intros q Hq. rewrite sort_lt_fin. simpl. apply Qltb_ge. unfold nonneg in Hq.
      change (inject_Z (Z.of_nat 0)) with 0%Q. lra.
  - rewrite linspace_inf. split; [|discriminate].
    apply all_zero_nonneg, counts_special.
    repeat (constructor; [first [left; reflexivity|right; reflexivity]|]). constructor.
  - discriminate Htop.
  - rewrite linspace_nan. split; [|discriminate].
    apply all_zero_nonneg, counts_special.
    repeat (constructor; [first [left; reflexivity|right; reflexivity]|]). constructor.
Qed.

(** X3. A valid parallel call reports the requested number of workers (by
    default between 1 and 4, whatever [cpu_count()] says) but runs only
    [min(samples, workers)] chunks, one generator call each, whose sizes add
    up to [samples]. *)
Theorem parallel_runs_min_chunks (p : params) (n_workers : option Z) (e : env)
    (mu : Q) :
  valid_call std_exp p true n_workers e mu ->
  let samples := default 500 (p_samples p) in
  exists log r,
    run_simulation std_exp p true n_workers e = (log, Ok r) /\
    workers r = resolve_workers n_workers e /\
    (n_workers = None -> 1 <= workers r <= 4) /\
    Z.of_nat (length log) = Z.min samples (workers r) /\
    sum_list (map draw_size log) = samples.
Proof.
  intros Hvalid samples.
  destruct (run_simulation_valid p true n_workers e mu Hvalid)
    as (_ & _ & _ & Hrun).
  destruct Hvalid as (_ & Hs & Hseed & Hw & _). specialize (Hw eq_refl).
  fold samples in Hs.
  eexists _, _. split; [exact Hrun|]. cbn [workers].
  split; [reflexivity|]. split.
  { intros ->. unfold resolve_workers. lia. }
  unfold call_draws, sampled_draws. fold samples.
  destruct (parallel_chunks_facts samples (resolve_workers n_workers e) mu
              (default (Fin 1) (p_thickness p)) (offset_seed_of (p_seed p) e)
              ltac:(lia) Hw (offset_seed_nonneg _ e Hseed))
    as (_ & _ & Hsum & Hlen).
  rewrite length_map, map_map. simpl. split; [exact Hlen|exact Hsum].
Qed.


(** Runs whose sampling phase agrees agree on everything observed. *)
Lemma observe_sample_paths (p : params) (parallel : bool) (n1 n2 : option Z)
    (e1 e2 : env) :
  (forall mu, sample_paths std_exp (default 500 (p_samples p)) mu
                (default (Fin 1) (p_thickness p)) (p_seed p) parallel n1 e1
              = sample_paths std_exp (default 500 (p_samples p)) mu
                  (default (Fin 1) (p_thickness p)) (p_seed p) parallel n2 e2) ->
  observe (run_simulation std_exp p parallel n1 e1)
  = observe (run_simulation std_exp p parallel n2 e2).
Proof.
  intros Hsame. unfold run_simulation.
  destruct (dict_get MATERIAL_MU (default "Aluminum"%string (p_material p))) as [mu|];
    [|reflexivity].
  rewrite (Hsame mu).
  destruct (sample_paths std_exp _ mu _ _ parallel n2 e2) as [log [[total paths]|ex]];
    [|reflexivity].
  rewrite !bind_ok. cbv beta iota.
  destruct (truediv (inject_Z total) (inject_Z (default 500 (p_samples p))))
    as [log1 [fraction|ex]]; [|reflexivity].
  rewrite !bind_ok. cbv beta.
  destruct (histogram paths _) as [log2 [[cnts edges]|ex]]; reflexivity.
Qed.

(** A chunk is simulated from its own seed, whatever the process finds
    around it. *)
Lemma pool_starmap_env (chunks : list chunk) (e1 e2 : env) :
  pool_starmap std_exp chunks e1 = pool_starmap std_exp chunks e2.
Proof. reflexivity. Qed.

(** X4. In parallel mode with a seed other than 0, two calls on the same
    input that use the same number of workers see the same draws and return
    the same [transmitted], [transmitted_fraction], [bins] and [counts] (or
    raise the same exception), whatever clock and entropy each call
    finds. *)
Theorem parallel_seeded_deterministic (p : params) (n1 n2 : option Z)
    (e1 e2 : env) (s : Z) :
  p_seed p = Some s -> s <> 0 ->
  resolve_workers n1 e1 = resolve_workers n2 e2 ->
  observe (run_simulation std_exp p true n1 e1)
  = observe (run_simulation std_exp p true n2 e2).
Proof.
  intros Hseed Hs Hn. apply observe_sample_paths. intros mu.
  unfold sample_paths. rewrite Hseed, Hn, !offset_seed_of_nonzero by exact Hs.
  destruct (make_chunks _ _ mu _ s) as [log [chunks|ex]]; [|reflexivity].
  rewrite !bind_ok, (pool_starmap_env chunks e1 e2). reflexivity.
Qed.

(** X5. A call with a sample count of zero or less never returns a result:
    it ends in an exception in either mode, for every material, seed and
    number of workers; in sequential mode with zero samples, a recognised
    material and a usable seed the exception is the division by zero of
    line 82. *)
Theorem nonpositive_samples_raise (p : params) (parallel : bool)
    (n_workers : option Z) (e : env) :
  default 500 (p_samples p) <= 0 ->
  (exists ex, result_of (run_simulation std_exp p parallel n_workers e) = Raise ex) /\
  (default 500 (p_samples p) = 0 -> parallel = false -> seed_ok (p_seed p) ->
   dict_get MATERIAL_MU (default "Aluminum"%string (p_material p)) <> None ->
   result_of (run_simulation std_exp p parallel n_workers e) = Raise ZeroDivisionError).
Proof.
  intros Hs.
  assert (Hseq0 : forall mu, (0 < mu)%Q -> seed_ok (p_seed p) ->
            default 500 (p_samples p) = 0 ->
            single_chunk_sim std_exp (default 500 (p_samples p)) mu
              (default (Fin 1) (p_thickness p)) (p_seed p) e
            = ([Draw (rng_of (p_seed p) e) (1 / mu) 0], Ok (0, []))).
  { intros mu Hmu Hseed H0. rewrite H0.
    rewrite single_chunk_sim_positive by (try assumption; lia). reflexivity. }
  split.
  - unfold run_simulation.
    destruct (dict_get MATERIAL_MU (default "Aluminum"%string (p_material p)))
      as [mu|] eqn:Hmu; [|eexists; reflexivity].
    pose proof (MATERIAL_MU_positive _ _ Hmu) as Hpos.
    assert (Hraise :
              (exists log ex,
                  sample_paths std_exp (default 500 (p_samples p)) mu
                    (default (Fin 1) (p_thickness p)) (p_seed p) parallel n_workers e
                  = (log, Raise ex))
              \/ (exists log,
                     sample_paths std_exp (default 500 (p_samples p)) mu
                       (default (Fin 1) (p_thickness p)) (p_seed p) parallel n_workers e
                     = (log, Ok (0, [])))
                  /\ default 500 (p_samples p) = 0).
    { unfold sample_paths. destruct parallel.
      - set (n := resolve_workers n_workers e).
        unfold make_chunks, floordiv, pymod.
        destruct (Z.eqb_spec n 0) as [|Hn0]; [left; eexists _, _; reflexivity|].
        unfold ret. rewrite !bind_ok. cbn [fst snd app].
        fold (chunk_body mu (default (Fin 1) (p_thickness p)) (offset_seed_of (p_seed p) e)
                (default 500 (p_samples p) / n) (default 500 (p_samples p) mod n)).
        rewrite flat_map_dropped.
        + left. eexists _, _. reflexivity.
        + apply List.Forall_forall. intros i Hi. unfold range in Hi.
          apply in_map_iff in Hi as (k & <- & Hk). apply in_seq in Hk.
          assert (Hnpos : 0 < n) by lia.
          pose proof (Z.mod_pos_bound (default 500 (p_samples p)) n Hnpos).
          pose proof (Z.div_mod (default 500 (p_samples p)) n ltac:(lia)).
          unfold chunk_size.
          destruct (Z.ltb_spec (Z.of_nat k) (default 500 (p_samples p) mod n)); nia.
      - unfold single_chunk_sim.
        destruct (default_rng (p_seed p) e) as [log0 [rng|ex]] eqn:Hrng;
          [|left; eexists _, _; reflexivity].
        rewrite bind_ok.
        assert (Hle : Qle_bool mu 0 = false) by (apply Qle_bool_gt; exact Hpos).
        rewrite Hle. unfold truediv.
        assert (Hz : Qeq_bool mu 0 = false).
        { destruct (Qeq_bool mu 0) eqn:E; [|reflexivity].
          apply Qeq_bool_eq in E. rewrite E in Hpos. discriminate. }
        rewrite Hz. unfold ret at 1. rewrite bind_ok. unfold exponential.
        destruct (Z.ltb_spec (default 500 (p_samples p)) 0) as [Hneg|Hge].
        + left. eexists _, _. reflexivity.
        + assert (H0 : default 500 (p_samples p) = 0) by lia.
          right. split; [|exact H0]. eexists.
          rewrite H0. reflexivity. }
    destruct Hraise as [(log & ex & Hr)|[[log Hr] H0]]; rewrite Hr.
    + eexists. reflexivity.
    + rewrite bind_ok, H0. eexists. reflexivity.
  - intros H0 -> Hseed Hrec. unfold run_simulation.
    destruct (dict_get MATERIAL_MU (default "Aluminum"%string (p_material p)))
      as [mu|] eqn:Hmu; [|congruence].
    unfold sample_paths.
    rewrite (Hseq0 mu (MATERIAL_MU_positive _ _ Hmu) Hseed H0), bind_ok, H0. reflexivity.
Qed.

(** X6. A parallel call that is given a worker count of zero or less, on a
    recognised material, raises before anything is sampled:
    [ZeroDivisionError] for zero (line 60), the [ValueError] of the empty
    pool for a negative count (line 70). *)
Theorem nonpositive_workers_raise (p : params) (n : Z) (e : env) :
  dict_get MATERIAL_MU (default "Aluminum"%string (p_material p)) <> None ->
  n <= 0 ->
  run_simulation std_exp p true (Some n) e
  = ([], Raise (if n =? 0 then ZeroDivisionError
                else ValueError "Number of processes must be at least 1")).
Proof.
  intros Hrec Hn. unfold run_simulation.
  destruct (dict_get MATERIAL_MU (default "Aluminum"%string (p_material p)))
    as [mu|]; [|congruence].
  unfold sample_paths, resolve_workers, make_chunks, floordiv, pymod.
  destruct (Z.eqb_spec n 0) as [|Hn0]; [reflexivity|].
  unfold ret. rewrite !bind_ok. cbn [fst snd app].
  replace (range n) with (@nil Z)
    by (unfold range; replace (Z.to_nat n) with 0%nat by lia; reflexivity).
  reflexivity.
Qed.


(** The engine runs every job that passes the checks of [submit], in
    either mode and whatever the process finds around it. *)
Lemma valid_job_simulates (jid : string) (job : job_obj) (e : env) :
  valid_job jid job ->
  exists log r,
    run_simulation std_exp (job_params job) (parallel job) None e = (log, Ok r) /\
    r_material r = material job /\ r_thickness r = thickness job /\
    r_samples r = samples job /\ parallel_used r = parallel job /\
    well_formed_result r.
Proof.
  intros (_ & Hm & Ht & Hn).
  destruct (allowed_thickness_positive _ Ht) as (q & Hq & Hpos).
  destruct (allowed_material_known _ Hm) as [mu Hmu].
  destruct (run_simulation_valid (job_params job) (parallel job) None e mu)
    as (_ & Hlen & _ & Hrun).
  { unfold valid_call. simpl.
    split; [exact Hmu|]. split; [lia|]. split; [exact I|].
    split; [intros _; unfold resolve_workers; lia|].
    left. unfold not_negative. rewrite Hq. simpl. apply Qltb_ge.
    apply Qlt_le_weak, Hpos. }
  simpl in Hlen.
  set (qs := call_pathsQ std_exp (job_params job) (parallel job) None e mu) in *.
  pose proof (count_if_bounds (fun x => xgtb x (thickness job)) (map Fin qs)) as Hb.
  rewrite length_map, Hlen in Hb.
  fold (transmitted_of (thickness job) (map Fin qs)) in Hb.
  eexists _, _. split; [exact Hrun|].
  unfold well_formed_result.
  cbn [r_material r_thickness r_samples parallel_used bins counts transmitted
       transmitted_fraction default job_params p_material p_thickness p_samples].
  split; [reflexivity|]. split; [reflexivity|]. split; [reflexivity|].
  split; [reflexivity|]. split; [exact Hm|]. split; [exact Hn|]. split; [exact Hb|].
  destruct (fraction_bounds _ (samples job) Hb ltac:(lia)) as [H0 H1].
  split; [exact H0|]. split; [exact H1|]. split; reflexivity.
Qed.

End EngineMore.

(** ** The job store *)

Section JobStoreFacts.

Variable std_exp : Z -> nat -> Q.
Variable float_of_string : string -> option xfloat.
Variable int_of_string : string -> option Z.

Abbreviation submit := (App.submit float_of_string int_of_string).
Abbreviation submit_to_job := (App.submit_to_job float_of_string int_of_string).
Abbreviation submit_validates := (App.submit_validates float_of_string int_of_string).
Abbreviation worker_op := (App.worker_op std_exp).
Abbreviation worker_step := (App.worker_step std_exp).
Abbreviation worker_raises := (App.worker_raises std_exp).
Abbreviation step := (App.step std_exp float_of_string int_of_string).
Abbreviation run := (App.run std_exp float_of_string int_of_string).
Abbreviation reachable := (App.reachable std_exp float_of_string int_of_string).

(** *** The submit handler *)

(** A request that does not pass the checks leaves the store alone. *)
Lemma submit_rejected (pl : payload) (w : request_world) (st : store) :
  submit_validates pl = false -> snd (submit pl w st) = st.
Proof.
  unfold App.submit_validates, App.submit, fs_bind, fs_lift, fs_ret.
  destruct (py_float _ _) as [th|ex]; [|reflexivity].
  destruct (py_int _ _) as [n|ex]; [|reflexivity].
  destruct (allowed_material _) as [m|]; [|reflexivity].
  destruct (existsb (xeqb th) ALLOWED_THICKNESSES); [|reflexivity].
  destruct ((n <=? 0) || (MAX_SAMPLES <? n)); [reflexivity|discriminate].
Qed.

Lemma submit_to_job_rejected (pl : payload) (w : request_world) (st : store) :
  submit_validates pl = false ->
  snd (submit_to_job pl w st) = st /\ fst (submit_to_job pl w st) <> Ok JobWritten.
Proof.
  unfold App.submit_validates, App.submit_to_job, fs_bind, fs_lift, fs_ret.
  destruct (py_float _ _) as [th|ex]; [|split; [reflexivity|discriminate]].
  destruct (py_int _ _) as [n|ex]; [|split; [reflexivity|discriminate]].
  destruct (allowed_material _) as [m|]; [|split; [reflexivity|discriminate]].
  destruct (existsb (xeqb th) ALLOWED_THICKNESSES);
    [|split; [reflexivity|discriminate]].
  destruct ((n <=? 0) || (MAX_SAMPLES <? n));
    [split; [reflexivity|discriminate]|discriminate].
Qed.

(** The handler is its two parts, one after the other. *)
Lemma submit_split (pl : payload) (w : request_world) (st : store) :
  submit pl w st
  = match submit_to_job pl w st with
    | (Ok (Answered r), st') => (Ok r, st')
    | (Ok JobWritten, st') => submit_from_status w st'
    | (Raise e, st') => (Raise e, st')
    end.
Proof.
  unfold App.submit, App.submit_to_job, submit_from_status, fs_bind, fs_lift, fs_ret.
  destruct (py_float _ _) as [th|ex]; [|reflexivity].
  destruct (py_int _ _) as [n|ex]; [|reflexivity].
  destruct (allowed_material _) as [m|]; [|reflexivity].
  destruct (existsb (xeqb th) ALLOWED_THICKNESSES); [|reflexivity].
  destruct ((n <=? 0) || (MAX_SAMPLES <? n)); [reflexivity|].
  unfold write_job. simpl. destruct (io_job w); reflexivity.
Qed.

(** What the first part of an accepted request writes, field by field. *)
Lemma submit_to_job_accepted (pl : payload) (w : request_world) (st : store) :
  submit_validates pl = true ->
  exists job,
    valid_job (new_job_id w) job /\
    created_at job = req_time w /\
    py_float float_of_string (default (JFloat (Fin 1)) (pl_thickness pl)) = Ok (thickness job) /\
    py_int int_of_string (default (JInt 100) (pl_samples pl)) = Ok (samples job) /\
    pl_material pl = Some (JStr (material job)) /\
    parallel job = py_bool (default (JBool false) (pl_parallel pl)) /\
    submit_to_job pl w st
    = (if io_job w then Ok JobWritten else Raise OSError,
       match written (io_job w) (req_opened w) job with
       | Some f => Store (<[new_job_id w := (req_ctime w, f)]> (jobs st))
                     (processing st) (status st) (results st)
       | None => st
       end).
Proof.
  unfold App.submit_validates, App.submit_to_job, fs_bind, fs_lift, fs_ret.
  destruct (py_float _ _) as [th|ex]; [|discriminate].
  destruct (py_int _ _) as [n|ex]; [|discriminate].
  unfold allowed_material.
  destruct (pl_material pl) as [[| | | |m|]|]; try discriminate.
  destruct (existsb (String.eqb m) ALLOWED_MATERIALS) eqn:Hm; [|discriminate].
  destruct (existsb (xeqb th) ALLOWED_THICKNESSES) eqn:Hth; [|discriminate].
  destruct ((n <=? 0) || (MAX_SAMPLES <? n)) eqn:Hn; [discriminate|]. intros _.
  apply orb_false_iff in Hn as [Hn1 Hn2].
  apply Z.leb_gt in Hn1. apply Z.ltb_ge in Hn2.
  eexists. split; [|split; [|split; [|split; [|split; [|split]]]]].
  7:{ unfold write_job. simpl. destruct (io_job w); reflexivity. }
  - unfold valid_job. simpl. repeat split; try assumption; try lia.
    apply existsb_exists in Hm as (x & Hin & Hx).
    apply String.eqb_eq in Hx. subst x. exact Hin.
  - reflexivity.
  - reflexivity.
  - reflexivity.
  - reflexivity.
  - reflexivity.
Qed.

(** What the second part writes. *)
Lemma submit_from_status_eq (w : request_world) (st : store) :
  submit_from_status w st
  = (if io_status w then Ok (Response (JobIdBody (new_job_id w)) 202) else Raise OSError,
     match written (io_status w) (req_opened w)
             (StatusRecord (new_job_id w) "queued" "created_at" (req_time w)) with
     | Some f => Store (jobs st) (processing st) (<[new_job_id w := f]> (status st))
                   (results st)
     | None => st
     end).
Proof.
  unfold submit_from_status, fs_bind, write_status, fs_ret.
  destruct (io_status w); reflexivity.
Qed.

(** What an accepted request writes. *)
Lemma submit_accepted_job (pl : payload) (w : request_world) (st : store) :
  submit_validates pl = true ->
  exists job,
    valid_job (new_job_id w) job /\
    created_at job = req_time w /\
    py_float float_of_string (default (JFloat (Fin 1)) (pl_thickness pl)) = Ok (thickness job) /\
    py_int int_of_string (default (JInt 100) (pl_samples pl)) = Ok (samples job) /\
    pl_material pl = Some (JStr (material job)) /\
    parallel job = py_bool (default (JBool false) (pl_parallel pl)) /\
    submit pl w st
    = (if io_job w && io_status w then Ok (Response (JobIdBody (new_job_id w)) 202)
       else Raise OSError,
       Store (match written (io_job w) (req_opened w) job with
              | Some f => <[new_job_id w := (req_ctime w, f)]> (jobs st)
              | None => jobs st
              end)
             (processing st)
             (if io_job w
              then match written (io_status w) (req_opened w)
                           (StatusRecord (new_job_id w) "queued" "created_at"
                              (req_time w)) with
                   | Some f => <[new_job_id w := f]> (status st)
                   | None => status st
                   end
              else status st)
             (results st)).
Proof.
  intros Hv.
  destruct (submit_to_job_accepted pl w st Hv)
    as (job & H1 & H2 & H3 & H4 & H5 & H6 & Heq).
  exists job. do 6 (split; [assumption|]).
  rewrite submit_split, Heq. unfold written.
  destruct (io_job w); simpl.
  - rewrite submit_from_status_eq. unfold written.
    destruct (io_status w); [reflexivity|]. destruct (req_opened w); reflexivity.
  - destruct (req_opened w); destruct st; reflexivity.
Qed.

(** *** Steps keep the invariant *)

Lemma issued_weaken {V} (m : gmap string V) (j : string) (X : gset string) :
  (forall jid, is_Some (m !! jid) -> jid ∈ X) ->
  forall jid, is_Some (m !! jid) -> jid ∈ {[ j ]} ∪ X.
Proof. intros H jid Hj. apply elem_of_union. right. apply H, Hj. Qed.

Lemma issued_insert {V} (m : gmap string V) (j : string) (v : V) (X : gset string) :
  (forall jid, is_Some (m !! jid) -> jid ∈ X) ->
  forall jid, is_Some (<[j := v]> m !! jid) -> jid ∈ {[ j ]} ∪ X.
Proof.
  intros H jid Hj. apply elem_of_union. destruct (decide (j = jid)) as [->|Hne].
  - left. apply elem_of_singleton. reflexivity.
  - right. rewrite lookup_insert_ne in Hj by exact Hne. apply H, Hj.
Qed.

Lemma fresh_not_issued {V} (m : gmap string V) (X : gset string) (j : string) :
  (forall jid, is_Some (m !! jid) -> jid ∈ X) -> j ∉ X -> m !! j = None.
Proof.
  intros H Hj. destruct (m !! j) eqn:E; [|reflexivity].
  exfalso. apply Hj, H. eauto.
Qed.

Lemma inv_init : inv init.
Proof.
  split; unfold init, empty_store, status_is, has_result; simpl;
    try (intros jid [x Hx]; rewrite lookup_empty in Hx; discriminate).
  - intros jid w H. rewrite lookup_empty in H. discriminate.
  - exact I.
  - intros jid rec H. rewrite lookup_empty in H. discriminate.
  - intros jid _. split; intros (r & H & _); rewrite lookup_empty in H; discriminate.
  - intros jid (r & H & _). rewrite lookup_empty in H. discriminate.
  - intros jid [[x Hx]|[x Hx]]; rewrite lookup_empty in Hx; discriminate.
Qed.

Lemma worker_inv_job (pc : wstate) (st : store) (j : string) :
  worker_inv pc st -> current_job pc = Some j -> is_Some (processing st !! j).
Proof. destruct pc; simpl; intros H [= <-]; tauto. Qed.

(** Only the worker's position changes. *)
Lemma inv_pc (st : store) (pc pc' : wstate) (X : gset string)
    (F : gmap string request_world) :
  inv (State st pc X F) ->
  worker_inv pc' st ->
  (forall k, pc' = WClaimed k -> pc = WClaimed k) ->
  (forall k, status_is st k "done" -> current_job pc' = Some k -> pc' = WFinished k) ->
  inv (State st pc' X F).
Proof.
  intros [I1 I2 I3 I4 I5 I6 I7 I8 I9 I10 I11 I12] Hw Hc Hd. split; simpl in *; auto.
  - intros jid [Hj|Hj]; apply I10; auto.
  - intros jid Hdone. split; [apply I11, Hdone|]. apply Hd, Hdone.
Qed.

(** After an exception that left the files alone the worker is back at the
    top of its loop. *)
Lemma inv_caught (st : store) (pc : wstate) (X : gset string)
    (F : gmap string request_world) :
  inv (State st pc X F) -> inv (State st WPoll X F).
Proof.
  intros Hinv. apply (inv_pc st pc); [exact Hinv|exact I|discriminate|discriminate].
Qed.

(** A write of the status file of [jid]. *)
Lemma inv_status_write (st : store) (pc pc' : wstate) (X : gset string)
    (F : gmap string request_world) (jid : string) (f : file status_record) :
  inv (State st pc X F) ->
  worker_inv pc' st ->
  (forall k, pc' = WClaimed k -> pc = WClaimed k) ->
  (forall k, k <> jid -> status_is st k "done" -> current_job pc' = Some k ->
             pc' = WFinished k) ->
  jid ∈ X ->
  is_Some (jobs st !! jid) \/ is_Some (processing st !! jid) \/ has_result st jid ->
  (forall rec, f = Intact rec ->
     st_job_id rec = jid /\
     (st_status rec = "queued"%string \/
      (st_status rec = "running"%string \/ st_status rec = "done"%string) /\
      jobs st !! jid = None /\ pc' <> WClaimed jid) /\
     (st_status rec = "done"%string ->
      has_result st jid /\ (current_job pc' = Some jid -> pc' = WFinished jid))) ->
  inv (State (Store (jobs st) (processing st) (<[jid := f]> (status st)) (results st))
         pc' X F).
Proof.
  intros [I1 I2 I3 I4 I5 I6 I7 I8 I9 I10 I11 I12] Hw Hc Hd HX Hlost Hrec.
  simpl in *. split; simpl; try assumption.
  - intros k Hk. destruct (decide (jid = k)) as [<-|Hne]; [exact HX|].
    rewrite lookup_insert_ne in Hk by exact Hne. apply I3, Hk.
  - intros k rec. destruct (decide (jid = k)) as [<-|Hne].
    + rewrite lookup_insert_eq. intros [= ->].
      destruct (Hrec rec eq_refl) as (Hid & Hv & _). split; [exact Hid|]. tauto.
    + rewrite lookup_insert_ne by exact Hne. apply I9.
  - intros k Hk.
    assert (Hold : k <> jid -> is_Some (jobs st !! k) \/ pc = WClaimed k).
    { intros _. destruct Hk as [Hk|Hk]; [left; exact Hk|right; apply Hc, Hk]. }
    assert (Hnew : forall v, (v = "running"%string \/ v = "done"%string) ->
              ~ status_is (Store (jobs st) (processing st) (<[jid:=f]> (status st))
                             (results st)) k v).
    { intros v Hv (rec & Hl & Hs). simpl in Hl.
      destruct (decide (jid = k)) as [<-|Hne].
      - rewrite lookup_insert_eq in Hl. injection Hl as ->.
        destruct (Hrec rec eq_refl) as (_ & [Hq|(_ & Hjn & Hpc)] & _).
        + rewrite Hq in Hs. destruct Hv as [-> | ->]; discriminate.
        + destruct Hk as [Hk|Hk]; [|contradiction].
          rewrite Hjn in Hk. destruct Hk; discriminate.
      - rewrite lookup_insert_ne in Hl by exact Hne.
        destruct (I10 k (Hold ltac:(congruence))) as [H1 H2].
        destruct Hv as [-> | ->]; [apply H1|apply H2]; exists rec; auto. }
    split; apply Hnew; auto.
  - intros k (rec & Hl & Hs). simpl in Hl. destruct (decide (jid = k)) as [<-|Hne].
    + rewrite lookup_insert_eq in Hl. injection Hl as ->.
      destruct (Hrec rec eq_refl) as (_ & _ & Hdone). exact (Hdone Hs).
    + rewrite lookup_insert_ne in Hl by exact Hne.
      assert (Hk : status_is st k "done") by (exists rec; auto).
      split; [exact (proj1 (I11 k Hk))|]. apply Hd; [congruence|exact Hk].
  - intros k Hk. destruct (decide (jid = k)) as [<-|Hne]; [exact Hlost|].
    rewrite lookup_insert_ne in Hk by exact Hne. apply I12, Hk.
Qed.

(** The request of [jid] has written its status file, or given up. *)
Lemma inv_inflight_delete (st : store) (pc : wstate) (X : gset string)
    (F : gmap string request_world) (jid : string) :
  inv (State st pc X F) -> inv (State st pc X (delete jid F)).
Proof.
  intros [I1 I2 I3 I4 I5 I6 I7 I8 I9 I10 I11 I12]. simpl in *.
  split; simpl; try assumption.
  - intros k Hk. apply lookup_delete_is_Some in Hk. apply I5. tauto.
  - intros k w Hk. apply lookup_delete_Some in Hk. apply I6. tauto.
  - intros k [Hk|Hk]; [apply I12; auto|].
    apply lookup_delete_is_Some in Hk. apply I12. tauto.
Qed.

(** A job id is handed out and nothing is written. *)
Lemma inv_issue (st : store) (pc : wstate) (X : gset string)
    (F : gmap string request_world) (j : string) :
  inv (State st pc X F) -> inv (State st pc ({[ j ]} ∪ X) F).
Proof.
  intros [I1 I2 I3 I4 I5 I6 I7 I8 I9 I10 I11 I12]. simpl in *.
  split; simpl; try assumption; apply issued_weaken; assumption.
Qed.

(** The job file of a new job id is written. *)
Lemma inv_job_write (st : store) (pc : wstate) (X : gset string)
    (F F' : gmap string request_world) (j : string) (c : Q) (f : file job_obj) :
  inv (State st pc X F) -> j ∉ X ->
  F' = F \/ (exists w, new_job_id w = j /\ F' = <[j := w]> F) ->
  inv (State (Store (<[j := (c, f)]> (jobs st)) (processing st) (status st) (results st))
         pc ({[ j ]} ∪ X) F').
Proof.
  intros [I1 I2 I3 I4 I5 I6 I7 I8 I9 I10 I11 I12] Hfresh HF. simpl in *.
  pose proof (fresh_not_issued _ _ j I2 Hfresh) as Hj2.
  pose proof (fresh_not_issued _ _ j I3 Hfresh) as Hj3.
  pose proof (fresh_not_issued _ _ j I4 Hfresh) as Hj4.
  split; simpl.
  - apply issued_insert, I1.
  - apply issued_weaken, I2.
  - apply issued_weaken, I3.
  - apply issued_weaken, I4.
  - destruct HF as [->|(w & _ & ->)]; [apply issued_weaken|apply issued_insert]; exact I5.
  - destruct HF as [->|(w & Hw & ->)]; [exact I6|].
    intros k w'. destruct (decide (j = k)) as [<-|Hne].
    + rewrite lookup_insert_eq. intros [= <-]. exact Hw.
    + rewrite lookup_insert_ne by exact Hne. apply I6.
  - intros k. destruct (decide (j = k)) as [<-|Hne]; [auto|].
    rewrite lookup_insert_ne by exact Hne. apply I7.
  - destruct pc; exact I8.
  - exact I9.
  - intros k Hk. destruct (decide (j = k)) as [<-|Hne].
    + split; intros (rec & Hl & _); simpl in Hl; congruence.
    + rewrite lookup_insert_ne in Hk by exact Hne. apply I10, Hk.
  - exact I11.
  - intros k Hk. destruct (decide (j = k)) as [<-|Hne].
    + left. rewrite lookup_insert_eq. eauto.
    + rewrite lookup_insert_ne by exact Hne. apply I12.
      destruct Hk as [Hk|Hk]; [left; exact Hk|right].
      destruct HF as [->|(w & _ & ->)]; [exact Hk|].
      rewrite lookup_insert_ne in Hk by exact Hne. exact Hk.
Qed.

(** The result file of the worker's job is written. *)
Lemma inv_result_write (st : store) (pc pc' : wstate) (X : gset string)
    (F : gmap string request_world) (j : string) (f : file result_meta) :
  inv (State st pc X F) ->
  is_Some (processing st !! j) -> results st !! j = None ->
  pc' = WPoll \/ (pc' = WSaved j /\ exists rec, f = Intact rec) ->
  inv (State (Store (jobs st) (processing st) (status st) (<[j := f]> (results st)))
         pc' X F).
Proof.
  intros [I1 I2 I3 I4 I5 I6 I7 I8 I9 I10 I11 I12] Hp Hr Hpc. simpl in *.
  assert (Hkeep : forall k, has_result st k ->
            has_result (Store (jobs st) (processing st) (status st)
                          (<[j := f]> (results st))) k).
  { intros k (rec & Hk). exists rec. simpl. rewrite lookup_insert_ne; [exact Hk|].
    intros <-. congruence. }
  split; simpl; try assumption.
  - intros k Hk. destruct (decide (j = k)) as [<-|Hne]; [apply I2, Hp|].
    rewrite lookup_insert_ne in Hk by exact Hne. apply I4, Hk.
  - intros k Hk. destruct (I7 k Hk) as [Hp' Hr']. split; [exact Hp'|].
    rewrite lookup_insert_ne; [exact Hr'|]. intros <-. rewrite Hp' in Hp.
    destruct Hp; discriminate.
  - destruct Hpc as [->|(-> & rec & ->)]; [exact I|]. simpl.
    split; [exact Hp|]. exists rec. simpl. apply lookup_insert_eq.
  - intros k [Hk|Hk]; [apply I10; auto|].
    destruct Hpc as [->|(-> & _)]; discriminate.
  - intros k Hk. destruct (I11 k Hk) as [Hres _]. split; [apply Hkeep, Hres|].
    intros Hcur. destruct Hpc as [->|(-> & _)]; [discriminate|].
    injection Hcur as <-. destruct Hres as (rec & Hrec). congruence.
  - intros k Hk. destruct (I12 k Hk) as [H|[H|H]]; auto.
Qed.

Lemma submit_job_inv (pl : payload) (w : request_world) (s s' : state) :
  inv s -> step (EvSubmitJob pl w) s = Some s' -> inv s'.
Proof.
  intros Hinv Hstep. simpl in Hstep.
  destruct (submit_validates pl) eqn:Hv.
  - destruct (bool_decide (new_job_id w ∈ st_issued s)) eqn:Hfresh; [discriminate|].
    apply bool_decide_eq_false in Hfresh. injection Hstep as <-.
    destruct (submit_to_job_accepted pl w (st_store s) Hv)
      as (job & _ & _ & _ & _ & _ & _ & ->).
    destruct s as [st pc X F]. simpl in *. unfold written.
    destruct (io_job w); [|destruct (req_opened w)]; simpl.
    + apply (inv_job_write st pc X F); [exact Hinv|exact Hfresh|]. right. eauto.
    + apply (inv_job_write st pc X F); [exact Hinv|exact Hfresh|]. left. reflexivity.
    + apply inv_issue, Hinv.
  - destruct (submit_to_job_rejected pl w (st_store s) Hv) as [Hst _].
    rewrite Hst in Hstep. injection Hstep as <-. destruct s. exact Hinv.
Qed.

Lemma submit_status_inv (jid : string) (s s' : state) :
  inv s -> step (EvSubmitStatus jid) s = Some s' -> inv s'.
Proof.
  intros Hinv Hstep. simpl in Hstep.
  destruct (st_inflight s !! jid) as [w|] eqn:Hw; [|discriminate].
  injection Hstep as <-.
  pose proof (inv_inflight_id _ Hinv jid w Hw) as Hid.
  pose proof (inv_issued_inflight _ Hinv jid ltac:(eauto)) as HX.
  pose proof (inv_not_lost _ Hinv jid ltac:(eauto)) as Hlost.
  pose proof (inv_worker _ Hinv) as Hwk.
  pose proof (inv_done _ Hinv) as Hdone.
  destruct s as [st pc X F]. simpl in *.
  apply inv_inflight_delete. rewrite submit_from_status_eq, Hid. unfold written.
  destruct (io_status w); [|destruct (req_opened w)]; simpl.
  - apply (inv_status_write st pc pc X F jid); auto.
    + intros k _ Hk. apply Hdone, Hk.
    + intros rec [= <-]. simpl. split; [reflexivity|]. split; [auto|discriminate].
  - apply (inv_status_write st pc pc X F jid); auto.
    + intros k _ Hk. apply Hdone, Hk.
    + discriminate.
  - exact Hinv.
Qed.

Lemma worker_inv_step (w : worker_world) (s : state) :
  inv s -> inv (worker_step w s).
Proof.
  intros Hinv. destruct s as [[jbs prc sts res] pc X F].
  pose proof Hinv as [I1 I2 I3 I4 I5 I6 I7 I8 I9 I10 I11 I12]. simpl in *.
  unfold App.worker_step, App.worker_op. simpl.
  destruct pc as [|j|j|j job|j r|j|j]; simpl in I8.
  - (* line 128: list, pick and claim *)
    destruct (bool_decide _); [exact Hinv|].
    unfold fs_bind, rename_to_processing, fs_ret. simpl.
    destruct (jbs !! pick w) as [[c f]|] eqn:Hpick; [|exact Hinv].
    destruct (io_ok w); [|exact Hinv].
    destruct (I7 (pick w) ltac:(eauto)) as [Hp Hr].
    split; simpl; try assumption.
    + intros jid Hj. apply I1. apply lookup_delete_is_Some in Hj. tauto.
    + intros jid Hj. destruct (decide (pick w = jid)) as [<-|Hne]; [apply I1; eauto|].
      rewrite lookup_insert_ne in Hj by exact Hne. apply I2, Hj.
    + intros jid Hj. apply lookup_delete_is_Some in Hj as [Hne Hj].
      rewrite lookup_insert_ne by exact Hne. apply I7, Hj.
    + rewrite lookup_insert_eq. eauto.
    + intros jid [Hj|Hj].
      * apply lookup_delete_is_Some in Hj as [_ Hj]. apply I10. auto.
      * injection Hj as <-. apply I10. left. eauto.
    + intros jid Hd. split; [exact (proj1 (I11 jid Hd))|]. intros [= <-].
      exfalso. destruct (I10 (pick w)) as [_ Hnd]; [left; eauto|]. exact (Hnd Hd).
    + intros jid Hj. destruct (decide (pick w = jid)) as [<-|Hne].
      * right. left. rewrite lookup_insert_eq. eauto.
      * rewrite lookup_delete_ne, lookup_insert_ne by exact Hne. apply I12, Hj.
  - (* line 144: status running *)
    destruct I8 as [Hp Hr].
    assert (Hjn : jbs !! j = None).
    { destruct (jbs !! j) eqn:E; [|reflexivity].
      destruct (I7 j ltac:(eauto)) as [Hnone _]. rewrite Hnone in Hp.
      destruct Hp; discriminate. }
    unfold fs_bind, write_status, fs_ret, written. simpl.
    destruct (io_ok w); [|destruct (io_opened w)]; simpl.
    + apply (inv_status_write (Store jbs prc sts res) (WClaimed j) (WRunning j) X F j);
        simpl; auto.
      * discriminate.
      * intros k Hne Hk [= <-]. congruence.
      * intros rec [= <-]. simpl. split; [reflexivity|]. split; [|discriminate].
        right. split; [auto|]. split; [exact Hjn|discriminate].
    + apply (inv_status_write (Store jbs prc sts res) (WClaimed j) WPoll X F j);
        simpl; auto; discriminate.
    + exact (inv_caught _ _ _ _ Hinv).
  - (* line 151: read the job *)
    unfold fs_bind, read_processing, fs_ret. simpl.
    destruct (prc !! j) as [f|] eqn:Hf; [|exact (inv_caught _ _ _ _ Hinv)].
    destruct (io_ok w); [|exact (inv_caught _ _ _ _ Hinv)].
    destruct f as [obj|]; [|exact (inv_caught _ _ _ _ Hinv)].
    apply (inv_pc _ (WRunning j)); [exact Hinv| |discriminate|].
    + simpl. rewrite Hf. exact I8.
    + intros k Hk [= <-]. destruct (I11 j Hk) as [_ Hfin].
      specialize (Hfin eq_refl). discriminate.
  - (* line 160: simulate *)
    destruct (io_ok w); [|exact (inv_caught _ _ _ _ Hinv)].
    unfold fs_bind, fs_lift, fs_ret. simpl.
    destruct (result_of _) as [r|ex]; [|exact (inv_caught _ _ _ _ Hinv)].
    apply (inv_pc _ (WLoaded j job)); [exact Hinv|exact I8|discriminate|].
    intros k Hk [= <-]. destruct (I11 j Hk) as [_ Hfin].
    specialize (Hfin eq_refl). discriminate.
  - (* line 183: the result file *)
    destruct I8 as [Hp Hr].
    unfold fs_bind, write_result, fs_ret, written. simpl.
    destruct (io_ok w); [|destruct (io_opened w)]; simpl.
    + apply (inv_result_write (Store jbs prc sts res) (WSimulated j r) (WSaved j) X F j);
        simpl; eauto.
    + apply (inv_result_write (Store jbs prc sts res) (WSimulated j r) WPoll X F j);
        simpl; auto.
    + exact (inv_caught _ _ _ _ Hinv).
  - (* line 194: status done *)
    destruct I8 as [Hp Hr].
    assert (Hjn : jbs !! j = None).
    { destruct (jbs !! j) eqn:E; [|reflexivity].
      destruct (I7 j ltac:(eauto)) as [Hnone _]. rewrite Hnone in Hp.
      destruct Hp; discriminate. }
    unfold fs_bind, write_status, fs_ret, written. simpl.
    destruct (io_ok w); [|destruct (io_opened w)]; simpl.
    + apply (inv_status_write (Store jbs prc sts res) (WSaved j) (WFinished j) X F j);
        simpl; auto.
      * discriminate.
      * intros k Hne Hk [= <-]. congruence.
      * intros rec [= <-]. simpl. split; [reflexivity|]. split; [|auto].
        right. split; [auto|]. split; [exact Hjn|discriminate].
    + apply (inv_status_write (Store jbs prc sts res) (WSaved j) WPoll X F j);
        simpl; auto; discriminate.
    + exact (inv_caught _ _ _ _ Hinv).
  - (* line 201: remove the processing file *)
    unfold fs_bind, remove_processing, fs_ret. simpl.
    destruct I8 as ([f Hf] & Hr). rewrite Hf.
    destruct (io_ok w); [|exact (inv_caught _ _ _ _ Hinv)].
    split; simpl; try assumption.
    + intros jid Hj. apply lookup_delete_is_Some in Hj. apply I2. tauto.
    + intros jid Hj. destruct (I7 jid Hj) as [Hp' Hr'].
      split; [|exact Hr']. apply lookup_delete_None. auto.
    + exact I.
    + intros jid [Hj|Hj]; [apply I10; auto|discriminate].
    + intros jid Hd. split; [exact (proj1 (I11 jid Hd))|discriminate].
    + intros jid Hj. destruct (I12 jid Hj) as [H|[H|H]]; auto.
      destruct (decide (j = jid)) as [<-|Hne]; [auto|].
      right. left. rewrite lookup_delete_ne by exact Hne. exact H.
Qed.

Lemma prim_step_inv (ev : event) (s s' : state) :
  primitive ev -> inv s -> step ev s = Some s' -> inv s'.
Proof.
  destruct ev as [pl w|pl w|jid|w]; intros Hprim Hinv Hstep.
  - destruct Hprim.
  - exact (submit_job_inv pl w s s' Hinv Hstep).
  - exact (submit_status_inv jid s s' Hinv Hstep).
  - simpl in Hstep. destruct (worker_enabled w s); [|discriminate].
    injection Hstep as <-. apply worker_inv_step, Hinv.
Qed.

(** A request that is served in one step is served in two, one after the
    other. *)
Lemma step_split (pl : payload) (w : request_world) (s s' : state) :
  inv s -> step (EvSubmit pl w) s = Some s' ->
  exists s1, step (EvSubmitJob pl w) s = Some s1 /\
             (s' = s1 \/ step (EvSubmitStatus (new_job_id w)) s1 = Some s').
Proof.
  intros Hinv Hstep. simpl in Hstep |- *.
  destruct (submit_validates pl) eqn:Hv.
  - destruct (bool_decide (new_job_id w ∈ st_issued s)) eqn:Hfresh; [discriminate|].
    apply bool_decide_eq_false in Hfresh. injection Hstep as <-.
    eexists. split; [reflexivity|].
    rewrite submit_split.
    destruct (submit_to_job_accepted pl w (st_store s) Hv)
      as (job & _ & _ & _ & _ & _ & _ & ->).
    destruct (io_job w); simpl.
    + right. rewrite lookup_insert_eq. rewrite delete_insert_id; [reflexivity|].
      exact (fresh_not_issued _ _ _ (inv_issued_inflight _ Hinv) Hfresh).
    + left. reflexivity.
  - injection Hstep as <-. eexists. split; [reflexivity|]. left.
    rewrite (submit_rejected pl w _ Hv).
    destruct (submit_to_job_rejected pl w (st_store s) Hv) as [-> _]. reflexivity.
Qed.

Lemma run_app (evs1 evs2 : list event) (s s1 s2 : state) :
  run evs1 s = Some s1 -> run evs2 s1 = Some s2 -> run (evs1 ++ evs2) s = Some s2.
Proof.
  revert s. induction evs1 as [|ev evs1 IH]; intros s H1 H2; simpl in *.
  - injection H1 as <-. exact H2.
  - destruct (step ev s) as [s'|]; [|discriminate]. exact (IH s' H1 H2).
Qed.

Lemma run_prim_inv (evs : list event) (s s' : state) :
  Forall primitive evs -> inv s -> run evs s = Some s' -> inv s'.
Proof.
  revert s. induction evs as [|ev evs IH]; intros s Hprim Hinv Hrun; simpl in Hrun.
  - injection Hrun as <-. exact Hinv.
  - destruct (step ev s) as [s1|] eqn:Hstep; [|discriminate].
    apply Forall_cons in Hprim as [Hev Hprim].
    apply (IH s1 Hprim); [exact (prim_step_inv ev s s1 Hev Hinv Hstep)|exact Hrun].
Qed.

(** Every step is a run of one or two events of the refined
    interleaving. *)
Lemma step_prims (ev : event) (s s' : state) :
  inv s -> step ev s = Some s' ->
  exists evs, Forall primitive evs /\ run evs s = Some s'.
Proof.
  intros Hinv Hstep.
  assert (Hone : primitive ev -> exists evs, Forall primitive evs /\ run evs s = Some s').
  { intros Hprim. exists [ev]. split; [repeat constructor; exact Hprim|].
    simpl. rewrite Hstep. reflexivity. }
  destruct ev as [pl w|pl w|jid|w]; try (apply Hone; exact I).
  destruct (step_split pl w s s' Hinv Hstep) as (s1 & H1 & [->|H2]).
  - exists [EvSubmitJob pl w]. split; [repeat constructor|].
    simpl in H1 |- *. rewrite H1. reflexivity.
  - exists [EvSubmitJob pl w; EvSubmitStatus (new_job_id w)].
    split; [repeat constructor|].
    change (run [EvSubmitJob pl w; EvSubmitStatus (new_job_id w)] s)
      with (match step (EvSubmitJob pl w) s with
            | Some s2 => match step (EvSubmitStatus (new_job_id w)) s2 with
                         | Some s3 => Some s3
                         | None => None
                         end
            | None => None
            end).
    rewrite H1, H2. reflexivity.
Qed.

Lemma step_inv (ev : event) (s s' : state) :
  inv s -> step ev s = Some s' -> inv s'.
Proof.
  intros Hinv Hstep. destruct (step_prims ev s s' Hinv Hstep) as (evs & Hprim & Hrun).
  exact (run_prim_inv evs s s' Hprim Hinv Hrun).
Qed.

Lemma run_inv (evs : list event) (s s' : state) :
  inv s -> run evs s = Some s' -> inv s'.
Proof.
  revert s. induction evs as [|ev evs IH]; intros s Hinv Hrun; simpl in Hrun.
  - injection Hrun as <-. exact Hinv.
  - destruct (step ev s) as [s1|] eqn:Hstep; [|discriminate].
    apply (IH s1); [eapply step_inv; eassumption|exact Hrun].
Qed.

Lemma run_prims (evs : list event) (s s' : state) :
  inv s -> run evs s = Some s' ->
  exists evs', Forall primitive evs' /\ run evs' s = Some s'.
Proof.
  revert s. induction evs as [|ev evs IH]; intros s Hinv Hrun; simpl in Hrun.
  - injection Hrun as <-. exists []. split; [constructor|reflexivity].
  - destruct (step ev s) as [s1|] eqn:Hstep; [|discriminate].
    destruct (step_prims ev s s1 Hinv Hstep) as (evs1 & Hp1 & Hr1).
    destruct (IH s1 (step_inv ev s s1 Hinv Hstep) Hrun) as (evs2 & Hp2 & Hr2).
    exists (evs1 ++ evs2). split; [apply Forall_app; auto|].
    exact (run_app evs1 evs2 s s1 s' Hr1 Hr2).
Qed.

Lemma reachable_inv (s : state) : reachable s -> inv s.
Proof. intros [evs Hrun]. exact (run_inv evs init s inv_init Hrun). Qed.

(** *** One step, seen from one job *)

(** The first part of a request touches no file of a job id that was
    handed out before. *)
Lemma submit_job_frame (pl : payload) (w : request_world) (s s' : state) :
  step (EvSubmitJob pl w) s = Some s' ->
  st_worker s' = st_worker s /\
  processing (st_store s') = processing (st_store s) /\
  status (st_store s') = status (st_store s) /\
  results (st_store s') = results (st_store s) /\
  forall k, k ∈ st_issued s ->
    k ∈ st_issued s' /\
    jobs (st_store s') !! k = jobs (st_store s) !! k /\
    st_inflight s' !! k = st_inflight s !! k.
Proof.
  intros Hstep. simpl in Hstep. destruct (submit_validates pl) eqn:Hv.
  - destruct (bool_decide (new_job_id w ∈ st_issued s)) eqn:Hfresh; [discriminate|].
    apply bool_decide_eq_false in Hfresh. injection Hstep as <-.
    destruct (submit_to_job_accepted pl w (st_store s) Hv)
      as (job & _ & _ & _ & _ & _ & _ & ->).
    assert (Hne : forall k, k ∈ st_issued s -> new_job_id w <> k)
      by (intros k Hk <-; contradiction).
    unfold written. destruct (io_job w); [|destruct (req_opened w)]; simpl;
      do 4 (split; [reflexivity|]); intros k Hk;
      (split; [apply elem_of_union; right; exact Hk|]);
      rewrite ?lookup_insert_ne by auto; auto.
  - destruct (submit_to_job_rejected pl w (st_store s) Hv) as [Hst _].
    rewrite Hst in Hstep. injection Hstep as <-. simpl. auto 10.
Qed.

(** The second part of a request writes the status file of its job, and
    no other file. *)
Lemma submit_status_frame (j : string) (s s' : state) :
  inv s -> step (EvSubmitStatus j) s = Some s' ->
  is_Some (st_inflight s !! j) /\
  st_worker s' = st_worker s /\ st_issued s' = st_issued s /\
  st_inflight s' = delete j (st_inflight s) /\
  jobs (st_store s') = jobs (st_store s) /\
  processing (st_store s') = processing (st_store s) /\
  results (st_store s') = results (st_store s) /\
  forall k, k <> j -> status (st_store s') !! k = status (st_store s) !! k.
Proof.
  intros Hinv Hstep. simpl in Hstep.
  destruct (st_inflight s !! j) as [w|] eqn:Hw; [|discriminate].
  injection Hstep as <-.
  pose proof (inv_inflight_id _ Hinv j w Hw) as Hid.
  rewrite submit_from_status_eq, Hid. unfold written. simpl.
  split; [eauto|].
  destruct (io_status w); [|destruct (req_opened w)]; simpl;
    do 6 (split; [reflexivity|]); intros k Hk;
    rewrite ?lookup_insert_ne by auto; reflexivity.
Qed.

(** A request that is served in one step touches no file of a job id that
    was handed out before. *)
Lemma submit_frame (pl : payload) (w : request_world) (s s' : state) :
  step (EvSubmit pl w) s = Some s' ->
  st_worker s' = st_worker s /\ st_inflight s' = st_inflight s /\
  processing (st_store s') = processing (st_store s) /\
  results (st_store s') = results (st_store s) /\
  forall k, k ∈ st_issued s ->
    jobs (st_store s') !! k = jobs (st_store s) !! k /\
    status (st_store s') !! k = status (st_store s) !! k.
Proof.
  intros Hstep. simpl in Hstep. destruct (submit_validates pl) eqn:Hv.
  - destruct (bool_decide (new_job_id w ∈ st_issued s)) eqn:Hfresh; [discriminate|].
    apply bool_decide_eq_false in Hfresh. injection Hstep as <-.
    destruct (submit_accepted_job pl w (st_store s) Hv)
      as (job & _ & _ & _ & _ & _ & _ & ->).
    assert (Hne : forall k, k ∈ st_issued s -> new_job_id w <> k)
      by (intros k Hk <-; contradiction).
    simpl. do 4 (split; [reflexivity|]). intros k Hk. unfold written.
    destruct (io_job w), (io_status w), (req_opened w); simpl;
      rewrite ?lookup_insert_ne by auto; auto.
  - rewrite (submit_rejected pl w _ Hv) in Hstep. injection Hstep as <-. simpl. auto 10.
Qed.

(** The worker touches the files of the job it has picked or holds, and
    no other. *)
Lemma worker_step_other (w : worker_world) (s : state) (k : string) :
  current_job (st_worker s) <> Some k ->
  (st_worker s = WPoll -> jobs (st_store s) !! k = None) ->
  current_job (st_worker (worker_step w s)) <> Some k /\
  jobs (st_store (worker_step w s)) !! k = jobs (st_store s) !! k /\
  processing (st_store (worker_step w s)) !! k = processing (st_store s) !! k /\
  status (st_store (worker_step w s)) !! k = status (st_store s) !! k /\
  results (st_store (worker_step w s)) !! k = results (st_store s) !! k.
Proof.
  destruct s as [[jbs prc sts res] pc X F]. simpl. intros Hcur Hq.
  unfold App.worker_step, App.worker_op. simpl.
  destruct pc as [|j|j|j job|j r|j|j]; simpl in *;
    unfold fs_bind, fs_lift, fs_ret, fs_raise, rename_to_processing, write_status,
      read_processing, write_result, remove_processing, written; simpl.
  - destruct (bool_decide _); [auto|].
    destruct (jbs !! pick w) as [[c f]|] eqn:Hpick; [|auto].
    destruct (io_ok w); [|auto]. simpl.
    assert (Hne : pick w <> k).
    { intros E. rewrite E, (Hq eq_refl) in Hpick. discriminate. }
    rewrite lookup_delete_ne, lookup_insert_ne by exact Hne.
    repeat split. congruence.
  - assert (Hne : j <> k) by congruence.
    destruct (io_ok w); [|destruct (io_opened w)]; simpl;
      rewrite ?lookup_insert_ne by exact Hne; auto 6.
  - destruct (prc !! j) as [[obj|]|]; try (destruct (io_ok w)); simpl; auto 6.
  - destruct (io_ok w); [|simpl; auto 6]. simpl.
    destruct (result_of _); simpl; auto 6.
  - assert (Hne : j <> k) by congruence.
    destruct (io_ok w); [|destruct (io_opened w)]; simpl;
      rewrite ?lookup_insert_ne by exact Hne; auto 6.
  - assert (Hne : j <> k) by congruence.
    destruct (io_ok w); [|destruct (io_opened w)]; simpl;
      rewrite ?lookup_insert_ne by exact Hne; auto 6.
  - assert (Hne : j <> k) by congruence.
    destruct (prc !! j); [|simpl; auto 6]. destruct (io_ok w); simpl; [|auto 6].
    rewrite lookup_delete_ne by exact Hne. auto 6.
Qed.

Lemma worker_step_ghost (w : worker_world) (s : state) :
  st_issued (worker_step w s) = st_issued s /\
  st_inflight (worker_step w s) = st_inflight s.
Proof.
  unfold App.worker_step. destruct (worker_op w (st_worker s) (st_store s)) as [[pc|ex] st];
    auto.
Qed.

(** The worker does not overwrite or remove a result file. *)
Lemma worker_step_results (w : worker_world) (s : state) (k : string)
    (f : file result_meta) :
  inv s -> results (st_store s) !! k = Some f ->
  results (st_store (worker_step w s)) !! k = Some f.
Proof.
  intros Hinv Hres. destruct s as [[jbs prc sts res] pc X F].
  pose proof (inv_worker _ Hinv) as I8. simpl in *.
  unfold App.worker_step, App.worker_op. simpl.
  destruct pc as [|j|j|j job|j r|j|j]; simpl in *;
    unfold fs_bind, fs_lift, fs_ret, fs_raise, rename_to_processing, write_status,
      read_processing, write_result, remove_processing, written; simpl.
  - destruct (bool_decide _); [exact Hres|].
    destruct (jbs !! pick w) as [[c obj]|]; [|exact Hres].
    destruct (io_ok w); exact Hres.
  - destruct (io_ok w); [|destruct (io_opened w)]; exact Hres.
  - destruct (prc !! j) as [[obj|]|]; try (destruct (io_ok w)); exact Hres.
  - destruct (io_ok w); [|exact Hres]. simpl. destruct (result_of _); exact Hres.
  - assert (Hne : j <> k) by (intros <-; destruct I8; congruence).
    destruct (io_ok w); [|destruct (io_opened w)]; simpl;
      rewrite ?lookup_insert_ne by exact Hne; exact Hres.
  - destruct (io_ok w); [|destruct (io_opened w)]; exact Hres.
  - destruct (prc !! j); [|exact Hres]. destruct (io_ok w); exact Hres.
Qed.

(** An operation of the worker that raises: the worker is back at the top
    of its loop, and the files are as they were but for the file that a
    failing write had opened. *)
Lemma worker_raise_effect (w : worker_world) (s : state) (jid : string) :
  current_job (st_worker s) = Some jid -> worker_raises w s = true ->
  st_worker (worker_step w s) = WPoll /\
  jobs (st_store (worker_step w s)) = jobs (st_store s) /\
  processing (st_store (worker_step w s)) = processing (st_store s) /\
  (status (st_store (worker_step w s)) = status (st_store s) \/
   (writes_status (st_worker s) = true /\ io_opened w = true /\
    status (st_store (worker_step w s)) = <[jid := Truncated]> (status (st_store s)))) /\
  (results (st_store (worker_step w s)) = results (st_store s) \/
   ((exists r, st_worker s = WSimulated jid r) /\ io_opened w = true /\
    results (st_store (worker_step w s)) = <[jid := Truncated]> (results (st_store s)))).
Proof.
  unfold App.worker_raises, App.worker_step.
  destruct s as [[jbs prc sts res] pc X F]. simpl.
  destruct pc as [|j|j|j job|j r|j|j]; simpl; try discriminate; intros [= <-];
    unfold fs_bind, fs_lift, fs_ret, fs_raise, rename_to_processing, write_status,
      read_processing, write_result, remove_processing, written; simpl.
  - destruct (io_ok w); [discriminate|]. destruct (io_opened w); simpl; auto 10.
  - destruct (prc !! j) as [[obj|]|]; try (destruct (io_ok w)); simpl;
      try discriminate; auto 10.
  - destruct (io_ok w); [|simpl; auto 10]. simpl.
    destruct (result_of _); simpl; [discriminate|auto 10].
  - destruct (io_ok w); [discriminate|]. destruct (io_opened w); simpl; eauto 10.
  - destruct (io_ok w); [discriminate|]. destruct (io_opened w); simpl; auto 10.
  - destruct (prc !! j); [|simpl; auto 10]. destruct (io_ok w); simpl;
      [discriminate|auto 10].
Qed.

(** A step does not overwrite or remove a result file. *)
Lemma prim_keeps_results (ev : event) (s s' : state) (jid : string)
    (f : file result_meta) :
  primitive ev -> inv s -> step ev s = Some s' ->
  results (st_store s) !! jid = Some f -> results (st_store s') !! jid = Some f.
Proof.
  intros Hprim Hinv Hstep Hres. destruct ev as [pl w|pl w|j|w].
  - destruct Hprim.
  - destruct (submit_job_frame pl w s s' Hstep) as (_ & _ & _ & -> & _). exact Hres.
  - destruct (submit_status_frame j s s' Hinv Hstep) as (_ & _ & _ & _ & _ & _ & -> & _).
    exact Hres.
  - simpl in Hstep. destruct (worker_enabled w s); [|discriminate].
    injection Hstep as <-. exact (worker_step_results w s jid f Hinv Hres).
Qed.

Lemma run_prim_keeps_results (evs : list event) (s s' : state) (jid : string)
    (f : file result_meta) :
  Forall primitive evs -> inv s -> run evs s = Some s' ->
  results (st_store s) !! jid = Some f -> results (st_store s') !! jid = Some f.
Proof.
  revert s. induction evs as [|ev evs IH]; intros s Hprim Hinv Hrun Hres; simpl in Hrun.
  - injection Hrun as <-. exact Hres.
  - destruct (step ev s) as [s1|] eqn:Hstep; [|discriminate].
    apply Forall_cons in Hprim as [Hev Hprim].
    apply (IH s1 Hprim (prim_step_inv ev s s1 Hev Hinv Hstep) Hrun).
    exact (prim_keeps_results ev s s1 jid f Hev Hinv Hstep Hres).
Qed.

Lemma run_keeps_results (evs : list event) (s s' : state) (jid : string)
    (f : file result_meta) :
  inv s -> run evs s = Some s' ->
  results (st_store s) !! jid = Some f -> results (st_store s') !! jid = Some f.
Proof.
  intros Hinv Hrun. destruct (run_prims evs s s' Hinv Hrun) as (evs' & Hprim & Hrun').
  exact (run_prim_keeps_results evs' s s' jid f Hprim Hinv Hrun').
Qed.

(** A job that the worker has left behind in [data/processing] stays
    there; the worker does not take it up again and writes none of its
    files. *)
Lemma prim_abandoned (ev : event) (s s' : state) (jid : string) :
  primitive ev -> inv s -> step ev s = Some s' ->
  is_Some (processing (st_store s) !! jid) -> current_job (st_worker s) <> Some jid ->
  (is_Some (processing (st_store s') !! jid) /\
   current_job (st_worker s') <> Some jid) /\
  results (st_store s') !! jid = results (st_store s) !! jid /\
  (st_inflight s !! jid = None ->
   st_inflight s' !! jid = None /\
   status (st_store s') !! jid = status (st_store s) !! jid).
Proof.
  intros Hprim Hinv Hstep Hp Hcur. destruct ev as [pl w|pl w|j|w].
  - destruct Hprim.
  - destruct (submit_job_frame pl w s s' Hstep) as (-> & -> & -> & -> & Hk).
    destruct (Hk jid (inv_issued_processing _ Hinv jid Hp)) as (_ & _ & ->). auto.
  - destruct (submit_status_frame j s s' Hinv Hstep)
      as (Hj & -> & _ & -> & _ & -> & -> & Hk).
    repeat split; try assumption.
    + apply lookup_delete_None. auto.
    + apply Hk. intros ->. rewrite H in Hj. destruct Hj; discriminate.
  - simpl in Hstep. destruct (worker_enabled w s); [|discriminate].
    injection Hstep as <-.
    destruct (worker_step_other w s jid Hcur) as (H1 & _ & H2 & H3 & H4).
    { intros _. destruct (jobs (st_store s) !! jid) eqn:E; [|reflexivity].
      destruct (inv_queued _ Hinv jid ltac:(eauto)) as [Hnone _].
      rewrite Hnone in Hp. destruct Hp; discriminate. }
    destruct (worker_step_ghost w s) as [_ HF].
    rewrite H2, H3, H4, HF. auto.
Qed.

Lemma run_prim_abandoned (evs : list event) (s s' : state) (jid : string) :
  Forall primitive evs -> inv s -> run evs s = Some s' ->
  is_Some (processing (st_store s) !! jid) -> current_job (st_worker s) <> Some jid ->
  (is_Some (processing (st_store s') !! jid) /\
   current_job (st_worker s') <> Some jid) /\
  results (st_store s') !! jid = results (st_store s) !! jid /\
  (st_inflight s !! jid = None ->
   st_inflight s' !! jid = None /\
   status (st_store s') !! jid = status (st_store s) !! jid).
Proof.
  revert s. induction evs as [|ev evs IH]; intros s Hprim Hinv Hrun Hp Hcur;
    simpl in Hrun.
  - injection Hrun as <-. auto.
  - destruct (step ev s) as [s1|] eqn:Hstep; [|discriminate].
    apply Forall_cons in Hprim as [Hev Hprim].
    destruct (prim_abandoned ev s s1 jid Hev Hinv Hstep Hp Hcur)
      as ([Hp1 Hcur1] & Hr1 & Hs1).
    destruct (IH s1 Hprim (prim_step_inv ev s s1 Hev Hinv Hstep) Hrun Hp1 Hcur1)
      as (Ha & Hr & Hs).
    split; [exact Ha|]. split; [congruence|].
    intros HF. destruct (Hs1 HF) as [HF1 Hst1]. destruct (Hs HF1) as [HF' Hst'].
    split; [exact HF'|congruence].
Qed.

Lemma run_abandoned (evs : list event) (s s' : state) (jid : string) :
  inv s -> run evs s = Some s' ->
  is_Some (processing (st_store s) !! jid) -> current_job (st_worker s) <> Some jid ->
  (is_Some (processing (st_store s') !! jid) /\
   current_job (st_worker s') <> Some jid) /\
  results (st_store s') !! jid = results (st_store s) !! jid /\
  (st_inflight s !! jid = None ->
   st_inflight s' !! jid = None /\
   status (st_store s') !! jid = status (st_store s) !! jid).
Proof.
  intros Hinv Hrun. destruct (run_prims evs s s' Hinv Hrun) as (evs' & Hprim & Hrun').
  exact (run_prim_abandoned evs' s s' jid Hprim Hinv Hrun').
Qed.

(** *** The claims about the job store *)

(** C4. In every reachable state no job id has both a file in [data/jobs]
    and a file in [data/processing]; and the step that claims a job takes
    its file out of [data/jobs] as it puts it into [data/processing]. (A
    reachable state is one that submissions with job ids never handed out
    before, served in one step or in their two parts, and operations of the
    worker lead to from the empty store.) *)
Theorem queued_xor_claimed (s : state) :
  reachable s ->
  (forall jid, ~ (is_Some (jobs (st_store s) !! jid) /\
                  is_Some (processing (st_store s) !! jid))) /\
  (forall w s' jid,
     st_worker s = WPoll -> step (EvWorker w) s = Some s' ->
     st_worker s' = WClaimed jid ->
     exists ctime obj,
       jobs (st_store s) !! jid = Some (ctime, obj) /\
       jobs (st_store s') !! jid = None /\
       processing (st_store s') !! jid = Some obj).
Proof.
  intros Hreach. pose proof (reachable_inv s Hreach) as Hinv. split.
  - intros jid [Hj Hp]. destruct (inv_queued _ Hinv jid Hj) as [Hnone _].
    rewrite Hnone in Hp. destruct Hp; discriminate.
  - intros w s' jid Hpc Hstep Hpc'. simpl in Hstep.
    destruct (worker_enabled w s); [|discriminate]. injection Hstep as <-.
    destruct s as [[jbs prc sts res] pc X F]. simpl in *. subst pc.
    unfold App.worker_step, App.worker_op in *. simpl in *.
    destruct (bool_decide _); [discriminate|].
    unfold fs_bind, rename_to_processing, fs_ret in *. simpl in *.
    destruct (jbs !! pick w) as [[c obj]|] eqn:Hpick; [|discriminate].
    destruct (io_ok w); [|discriminate]. simpl in *. injection Hpc' as <-.
    exists c, obj. rewrite lookup_delete_eq, lookup_insert_eq. auto.
Qed.

(** C5, as the code has it. In every reachable state a job whose status is
    "done" has a result file that holds a result, a job with a result file
    is no longer queued, and no step overwrites or removes a result file
    (so a job gets at most one result). A job with a result file need not
    have the status "done": the status is still "running" between the two
    writes of the worker, it is "queued" again when the request that
    submitted the job writes its status file only then, and it is cut off
    when a write of it failed. *)
Theorem result_iff_done_amended (s : state) :
  reachable s ->
  (forall jid, status_is (st_store s) jid "done" -> has_result (st_store s) jid) /\
  (forall jid, is_Some (results (st_store s) !! jid) ->
               jobs (st_store s) !! jid = None) /\
  (forall ev s' jid f,
     step ev s = Some s' -> results (st_store s) !! jid = Some f ->
     results (st_store s') !! jid = Some f).
Proof.
  intros Hreach. pose proof (reachable_inv s Hreach) as Hinv.
  split; [|split].
  - intros jid Hd. exact (proj1 (inv_done _ Hinv jid Hd)).
  - intros jid Hr. destruct (jobs (st_store s) !! jid) eqn:E; [|reflexivity].
    destruct (inv_queued _ Hinv jid ltac:(eauto)) as [_ Hnone].
    rewrite Hnone in Hr. destruct Hr; discriminate.
  - intros ev s' jid f Hstep.
    apply (run_keeps_results [ev] s s' jid f Hinv). simpl. rewrite Hstep. reflexivity.
Qed.

(** C9, as the code has it. When an operation of the worker on job [jid]
    raises, the exception is caught and the worker starts its loop over;
    the status file is as it was, or cut off when the operation was a
    write of it that failed after opening it. In every later state the
    file of the job is still in [data/processing], the worker does not hold
    the job, the status never says "failed" and the result file is as the
    exception left it. The worker never writes the status file again: when
    the request that submitted the job has written its own status already,
    the status file stays as the exception left it, so a status "running"
    stays "running" and a status "queued" stays "queued". *)
Theorem abandoned_job_keeps_status (s : state) (w : worker_world) (jid : string) :
  reachable s ->
  current_job (st_worker s) = Some jid ->
  worker_raises w s = true ->
  st_worker (worker_step w s) = WPoll /\
  (status (st_store (worker_step w s)) !! jid = status (st_store s) !! jid \/
   (writes_status (st_worker s) = true /\ io_opened w = true /\
    status (st_store (worker_step w s)) !! jid = Some Truncated)) /\
  forall evs s',
    run evs (worker_step w s) = Some s' ->
    is_Some (processing (st_store s') !! jid) /\
    current_job (st_worker s') <> Some jid /\
    ~ status_is (st_store s') jid "failed" /\
    results (st_store s') !! jid = results (st_store (worker_step w s)) !! jid /\
    (st_inflight s !! jid = None ->
     status (st_store s') !! jid = status (st_store (worker_step w s)) !! jid /\
     (writes_status (st_worker s) = false \/ io_opened w = false ->
      forall v, status_is (st_store s) jid v -> status_is (st_store s') jid v)).
Proof.
  intros Hreach Hcur Hraise.
  pose proof (reachable_inv s Hreach) as Hinv.
  pose proof (worker_inv_step w s Hinv) as Hinv1.
  destruct (worker_raise_effect w s jid Hcur Hraise) as (Hpc & Hjobs & Hproc & Hst & Hres).
  destruct (worker_step_ghost w s) as [_ HF].
  split; [exact Hpc|]. split.
  { destruct Hst as [->|(Hw & Ho & ->)]; [left; reflexivity|right].
    rewrite lookup_insert_eq. auto. }
  intros evs s' Hrun.
  pose proof (worker_inv_job _ _ jid (inv_worker _ Hinv) Hcur) as Hp.
  destruct (run_abandoned evs _ s' jid Hinv1 Hrun) as ([Hp' Hcur'] & Hres' & Hst').
  { rewrite Hproc. exact Hp. }
  { rewrite Hpc. discriminate. }
  split; [exact Hp'|]. split; [exact Hcur'|]. split.
  { intros (rec & Hrec & Hv).
    destruct (inv_status_values _ (run_inv evs _ s' Hinv1 Hrun) jid rec Hrec)
      as [_ [H|[H|H]]]; rewrite H in Hv; discriminate. }
  split; [exact Hres'|]. intros Hnone.
  destruct (Hst' ltac:(rewrite HF; exact Hnone)) as [_ Heq].
  split; [exact Heq|]. intros Hkeep v (rec & Hrec & Hv). exists rec.
  split; [|exact Hv]. rewrite Heq.
  destruct Hst as [->|(Hw & Ho & _)]; [exact Hrec|].
  destruct Hkeep; congruence.
Qed.

(** C10. A request whose material is not one of the allowed strings is
    answered with the error "invalid material" and code 400 (or ends in the
    exception of a thickness or sample count that cannot be converted); the
    store is unchanged, and so is the whole state: no job id is handed
    out. *)
Theorem submit_unknown_material_rejected (pl : payload) (w : request_world)
    (s : state) :
  (forall m, pl_material pl = Some (JStr m) -> ~ In m ALLOWED_MATERIALS) ->
  match fst (submit pl w (st_store s)) with
  | Ok resp => resp = error_response "invalid material"
  | Raise _ => True
  end /\
  snd (submit pl w (st_store s)) = st_store s /\
  step (EvSubmit pl w) s = Some s.
Proof.
  intros Hmat.
  assert (Hnone : allowed_material (pl_material pl) = None).
  { unfold allowed_material. destruct (pl_material pl) as [[| | | |m|]|]; try reflexivity.
    destruct (existsb (String.eqb m) ALLOWED_MATERIALS) eqn:E; [|reflexivity].
    exfalso. apply existsb_exists in E as (x & Hin & Hx).
    apply String.eqb_eq in Hx. subst x. exact (Hmat m eq_refl Hin). }
  assert (Hv : submit_validates pl = false).
  { unfold App.submit_validates. rewrite Hnone.
    destruct (py_float _ _); [|reflexivity]. destruct (py_int _ _); reflexivity. }
  split; [|split].
  - unfold App.submit, fs_bind, fs_lift, fs_ret.
    destruct (py_float _ _); [|exact I]. destruct (py_int _ _); [|exact I].
    rewrite Hnone. reflexivity.
  - apply submit_rejected, Hv.
  - simpl. rewrite Hv, (submit_rejected pl w _ Hv). destruct s. reflexivity.
Qed.

End JobStoreFacts.


(** C5 as stated fails: after the result file is written and before the
    status "done" is, job "a1" has a result and its status is "running". *)
Lemma result_before_done :
  ~ (forall s, reachable unit_exp no_float no_int s ->
       forall jid, is_Some (results (st_store s) !! jid) <->
                   status_is (st_store s) jid "done").
Proof.
  intros H.
  destruct (run unit_exp no_float no_int trace_saved init) as [s|] eqn:Hrun;
    [|vm_compute in Hrun; discriminate].
  assert (Hres : is_Some (results (st_store s) !! "a1"%string)).
  { vm_compute in Hrun. injection Hrun as <-. vm_compute. eauto. }
  apply (H s (ex_intro _ trace_saved Hrun)) in Hres as (rec & Hrec & Hdone).
  vm_compute in Hrun. injection Hrun as <-. vm_compute in Hrec.
  injection Hrec as <-. discriminate Hdone.
Qed.

(** C9 as stated fails: when writing the status "running" raises, the job
    is left claimed with the status "queued". *)
Lemma raise_before_running :
  ~ (forall s w jid,
       reachable unit_exp no_float no_int s ->
       current_job (st_worker s) = Some jid ->
       worker_raises unit_exp w s = true ->
       forall evs s',
         run unit_exp no_float no_int evs (worker_step unit_exp w s) = Some s' ->
         status_is (st_store s') jid "running").
Proof.
  intros H.
  destruct (run unit_exp no_float no_int trace_claimed init) as [s|] eqn:Hrun;
    [|vm_compute in Hrun; discriminate].
  assert (Hs : st_worker s = WClaimed "a1"
               /\ worker_raises unit_exp worker_fails s = true
               /\ exists rec, status (st_store (worker_step unit_exp worker_fails s))
                                !! "a1"%string = Some (Intact rec)
                              /\ st_status rec = "queued"%string).
  { vm_compute in Hrun. injection Hrun as <-. vm_compute. eauto. }
  destruct Hs as (Hpc & Hraise & rec & Hrec & Hq).
  destruct (H s worker_fails "a1"%string (ex_intro _ trace_claimed Hrun)
              ltac:(rewrite Hpc; reflexivity) Hraise [] _ eq_refl)
    as (rec' & Hrec' & Hrun').
  congruence.
Qed.


(** C8 as stated fails: against an infinite thickness no path length is
    greater, and none of three trials counts as transmitted. *)
Lemma infinite_thickness_transmits_none :
  ~ (forall (samples : Z) (mu : Q) (thickness : xfloat) (seed : option Z) (e : env),
       (mu == 0)%Q -> 0 < samples ->
       exists log paths,
         single_chunk_sim unit_exp samples mu thickness seed e
         = (log, Ok (samples, paths))).
Proof.
  intros H.
  destruct (H 3 0%Q PInf (Some 1) (Env 10 12 777 8) ltac:(reflexivity) ltac:(lia))
    as (log & paths & E).
  vm_compute in E. discriminate E.
Qed.

(** ** The theorems on concrete runs *)

(** Five trials through water, sequentially, with seed 3, under two
    different clocks and entropy pools. *)
Lemma sequential_seeded_deterministic_witness :
  exists r1 r2,
    result_of (run_simulation unit_exp
                 (Params (Some "Water"%string) (Some (Fin 1)) (Some 5) (Some 3))
                 false None (Env 10 12 777 8)) = Ok r1 /\
    result_of (run_simulation unit_exp
                 (Params (Some "Water"%string) (Some (Fin 1)) (Some 5) (Some 3))
                 false None (Env 0 99 5 2)) = Ok r2 /\
    transmitted r1 = transmitted r2 /\
    transmitted_fraction r1 = transmitted_fraction r2 /\
    bins r1 = bins r2 /\
    counts r1 = counts r2.
Proof.
  apply (proj2 (sequential_seeded_deterministic unit_exp
                  (Params (Some "Water"%string) (Some (Fin 1)) (Some 5) (Some 3))
                  None (Env 10 12 777 8) (Env 0 99 5 2) 3 eq_refl)).
  - vm_compute. discriminate.
  - reflexivity.
  - reflexivity.
  - discriminate.
Defined.


(** Gold is not a material of the engine. *)
Lemma unknown_material_raises_witness :
  run_simulation unit_exp (Params (Some "Gold"%string) (Some (Fin 1)) (Some 5) None)
    false None (Env 10 12 777 8)
  = ([], Raise (ValueError "Unknown material")).
Proof.
  apply (unknown_material_raises unit_exp
           (Params (Some "Gold"%string) (Some (Fin 1)) (Some 5) None)
           false None (Env 10 12 777 8) "Gold"%string eq_refl);
    discriminate.
Defined.

(** Three trials with a coefficient of zero through one unit. *)
Lemma zero_coefficient_transmits_all_witness :
  single_chunk_sim unit_exp 3 0 (Fin 1) (Some 1) (Env 10 12 777 8)
  = ([], Ok (3, [PInf; PInf; PInf])).
Proof.
  apply (proj1 (zero_coefficient_transmits_all unit_exp 3 0 (Fin 1) (Some 1)
                  (Env 10 12 777 8) ltac:(reflexivity) ltac:(lia))).
  simpl. lia.
Defined.

(** A job that is claimed is no longer queued. *)
Lemma queued_xor_claimed_witness :
  exists s,
    run unit_exp no_float no_int trace_claimed init = Some s /\
    forall jid, ~ (is_Some (jobs (st_store s) !! jid) /\
                   is_Some (processing (st_store s) !! jid)).
Proof.
  eexists. split; [vm_compute; reflexivity|].
  refine (proj1 (queued_xor_claimed unit_exp no_float no_int _ _)).
  exists trace_claimed. vm_compute. reflexivity.
Defined.

(** Once the status of "a1" is "done" its result file holds a result. *)
Lemma result_iff_done_amended_witness :
  exists s,
    run unit_exp no_float no_int trace_done init = Some s /\
    has_result (st_store s) "a1".
Proof.
  eexists. split; [vm_compute; reflexivity|].
  refine (proj1 (result_iff_done_amended unit_exp no_float no_int _ _) "a1"%string _).
  - exists trace_done. vm_compute. reflexivity.
  - vm_compute. eauto.
Defined.

(** The read of the claimed job raises after the status "running" was
    written: the job stays claimed and running. *)
Lemma abandoned_job_keeps_status_witness :
  exists s,
    run unit_exp no_float no_int trace_running init = Some s /\
    forall evs s',
      run unit_exp no_float no_int evs (worker_step unit_exp worker_fails s) = Some s' ->
      is_Some (processing (st_store s') !! "a1"%string) /\
      status_is (st_store s') "a1" "running".
Proof.
  eexists. split; [vm_compute; reflexivity|].
  lazymatch goal with
  | |- forall evs s', App.run _ _ _ evs (App.worker_step _ _ ?s) = _ -> _ =>
      destruct (abandoned_job_keeps_status unit_exp no_float no_int s
                  worker_fails "a1"%string) as (_ & _ & H)
  end.
  - exists trace_running. vm_compute. reflexivity.
  - reflexivity.
  - vm_compute. reflexivity.
  - intros evs s' Hrun. destruct (H evs s' Hrun) as (Hp & _ & _ & _ & Hs).
    split; [exact Hp|].
    destruct (Hs ltac:(vm_compute; reflexivity)) as [_ Hkeep].
    apply Hkeep; [left; reflexivity|]. vm_compute. eauto.
Defined.

(** A request for gold on a fresh store. *)
Lemma submit_unknown_material_rejected_witness :
  fst (submit no_float no_int gold_payload request_a1 (st_store init))
  = Ok (error_response "invalid material") /\
  step unit_exp no_float no_int (EvSubmit gold_payload request_a1) init = Some init.
Proof.
  destruct (submit_unknown_material_rejected unit_exp no_float no_int
              gold_payload request_a1 init) as (Hresp & _ & Hstep).
  - intros m [= <-]. simpl. intros [H|[H|[H|[]]]]; discriminate.
  - split; [reflexivity|exact Hstep].
Defined.

(** ** More about the job store *)

Section JobStoreMore.

Variable std_exp : Z -> nat -> Q.
Variable float_of_string : string -> option xfloat.
Variable int_of_string : string -> option Z.

Abbreviation submit := (App.submit float_of_string int_of_string).
Abbreviation submit_to_job := (App.submit_to_job float_of_string int_of_string).
Abbreviation submit_validates := (App.submit_validates float_of_string int_of_string).
Abbreviation worker_op := (App.worker_op std_exp).
Abbreviation worker_step := (App.worker_step std_exp).
Abbreviation worker_raises := (App.worker_raises std_exp).
Abbreviation step := (App.step std_exp float_of_string int_of_string).
Abbreviation run := (App.run std_exp float_of_string int_of_string).
Abbreviation reachable := (App.reachable std_exp float_of_string int_of_string).

(** *** What the files hold *)

Lemma inv_files_init : inv_files init.
Proof.
  split; unfold init, empty_store; simpl.
  - intros jid c job H. rewrite lookup_empty in H. discriminate.
  - intros jid job H. rewrite lookup_empty in H. discriminate.
  - intros jid rec H. rewrite lookup_empty in H. discriminate.
  - exact I.
Qed.

Lemma inv_files_caught (st : store) (pc : wstate) (X : gset string)
    (F : gmap string request_world) :
  inv_files (State st pc X F) -> inv_files (State st WPoll X F).
Proof. intros [F1 F2 F3 F4]. split; simpl in *; auto. Qed.

(** A step that writes status files only. *)
Lemma inv_files_same (s s' : state) :
  jobs (st_store s') = jobs (st_store s) ->
  processing (st_store s') = processing (st_store s) ->
  results (st_store s') = results (st_store s) ->
  st_worker s' = WPoll \/ st_worker s' = st_worker s
  \/ (exists j, st_worker s' = WRunning j) \/ (exists j, st_worker s' = WFinished j) ->
  inv_files s -> inv_files s'.
Proof.
  intros Hj Hp Hr Hw [F1 F2 F3 F4]. split; rewrite ?Hj, ?Hp, ?Hr; try assumption.
  destruct Hw as [->|[->|[[j ->]|[j ->]]]]; simpl; auto.
Qed.

Lemma submit_job_inv_files (pl : payload) (w : request_world) (s s' : state) :
  inv_files s -> step (EvSubmitJob pl w) s = Some s' -> inv_files s'.
Proof.
  intros Hfiles Hstep. simpl in Hstep.
  destruct (submit_validates pl) eqn:Hv.
  - destruct (bool_decide (new_job_id w ∈ st_issued s)) eqn:Hfresh; [discriminate|].
    injection Hstep as <-.
    destruct (submit_to_job_accepted float_of_string int_of_string pl w (st_store s) Hv)
      as (job & Hjob & _ & _ & _ & _ & _ & ->).
    destruct Hfiles as [F1 F2 F3 F4]. unfold written.
    destruct (io_job w); [|destruct (req_opened w)]; simpl;
      (split; simpl; [|exact F2|exact F3|exact F4]); try exact F1;
      intros jid c job'; (destruct (decide (new_job_id w = jid)) as [<-|Hne];
        [rewrite lookup_insert_eq|rewrite lookup_insert_ne by exact Hne; apply F1]).
    + intros [= _ <-]. exact Hjob.
    + discriminate.
  - destruct (submit_to_job_rejected float_of_string int_of_string pl w (st_store s) Hv)
      as [Hst _].
    rewrite Hst in Hstep. injection Hstep as <-. destruct s. exact Hfiles.
Qed.

Lemma worker_inv_files_step (w : worker_world) (s : state) :
  inv_files s -> inv_files (worker_step w s).
Proof.
  intros Hfiles. destruct s as [[jbs prc sts res] pc X F].
  pose proof Hfiles as [F1 F2 F3 F4]. simpl in *.
  unfold App.worker_step, App.worker_op. simpl.
  destruct pc as [|j|j|j job|j r|j|j]; simpl in F4.
  - (* line 128: list, pick and claim *)
    destruct (bool_decide _); [exact Hfiles|].
    unfold fs_bind, rename_to_processing, fs_ret. simpl.
    destruct (jbs !! pick w) as [[c f]|] eqn:Hpick; [|exact Hfiles].
    destruct (io_ok w); [|exact Hfiles].
    split; simpl; [| |exact F3|exact I].
    + intros jid c' job' Hj. apply lookup_delete_Some in Hj as [_ Hj]. eapply F1, Hj.
    + intros jid job'. destruct (decide (pick w = jid)) as [<-|Hne].
      * rewrite lookup_insert_eq. intros [= ->]. eapply F1, Hpick.
      * rewrite lookup_insert_ne by exact Hne. apply F2.
  - (* line 144: status running *)
    unfold fs_bind, write_status, fs_ret, written. simpl.
    destruct (io_ok w); [|destruct (io_opened w)]; simpl;
      split; simpl; auto.
  - (* line 151: read the job *)
    unfold fs_bind, read_processing, fs_ret. simpl.
    destruct (prc !! j) as [f|] eqn:Hf; [|exact (inv_files_caught _ _ _ _ Hfiles)].
    destruct (io_ok w); [|exact (inv_files_caught _ _ _ _ Hfiles)].
    destruct f as [obj|]; [|exact (inv_files_caught _ _ _ _ Hfiles)].
    split; simpl; [exact F1|exact F2|exact F3|]. eapply F2, Hf.
  - (* line 160: simulate *)
    destruct (io_ok w); [|exact (inv_files_caught _ _ _ _ Hfiles)].
    unfold fs_bind, fs_lift, fs_ret. simpl.
    destruct (valid_job_simulates std_exp j job (sim_env w) F4)
      as (log & r & Hrun & _ & _ & _ & _ & Hwf).
    change (Params (Some (material job)) (Some (thickness job))
              (Some (samples job)) None)
      with (job_params job).
    rewrite Hrun. simpl.
    split; simpl; [exact F1|exact F2|exact F3|exact Hwf].
  - (* line 183: the result file *)
    unfold fs_bind, write_result, fs_ret, written. simpl.
    destruct (io_ok w); [|destruct (io_opened w)]; simpl.
    + split; simpl; [exact F1|exact F2| |exact I].
      intros jid rec. destruct (decide (j = jid)) as [<-|Hne].
      * rewrite lookup_insert_eq. intros [= <-]. split; [reflexivity|exact F4].
      * rewrite lookup_insert_ne by exact Hne. apply F3.
    + split; simpl; [exact F1|exact F2| |exact I].
      intros jid rec. destruct (decide (j = jid)) as [<-|Hne].
      * rewrite lookup_insert_eq. discriminate.
      * rewrite lookup_insert_ne by exact Hne. apply F3.
    + exact (inv_files_caught _ _ _ _ Hfiles).
  - (* line 194: status done *)
    unfold fs_bind, write_status, fs_ret, written. simpl.
    destruct (io_ok w); [|destruct (io_opened w)]; simpl;
      split; simpl; auto.
  - (* line 201: remove the processing file *)
    unfold fs_bind, remove_processing, fs_ret. simpl.
    destruct (prc !! j) as [f|] eqn:Hf; [|exact (inv_files_caught _ _ _ _ Hfiles)].
    destruct (io_ok w); [|exact (inv_files_caught _ _ _ _ Hfiles)].
    split; simpl; [exact F1| |exact F3|exact I].
    intros jid job' Hj. apply lookup_delete_Some in Hj as [_ Hj]. eapply F2, Hj.
Qed.

Lemma prim_step_inv_files (ev : event) (s s' : state) :
  primitive ev -> inv s -> inv_files s -> step ev s = Some s' -> inv_files s'.
Proof.
  destruct ev as [pl w|pl w|jid|w]; intros Hprim Hinv Hfiles Hstep.
  - destruct Hprim.
  - exact (submit_job_inv_files pl w s s' Hfiles Hstep).
  - destruct (submit_status_frame std_exp float_of_string int_of_string jid s s' Hinv Hstep)
      as (_ & Hw & _ & _ & Hj & Hp & Hr & _).
    apply (inv_files_same s s' Hj Hp Hr); auto.
  - simpl in Hstep. destruct (worker_enabled w s); [|discriminate].
    injection Hstep as <-. apply worker_inv_files_step, Hfiles.
Qed.

Lemma run_prim_inv_files (evs : list event) (s s' : state) :
  Forall primitive evs -> inv s -> inv_files s -> run evs s = Some s' -> inv_files s'.
Proof.
  revert s. induction evs as [|ev evs IH]; intros s Hprim Hinv Hfiles Hrun;
    simpl in Hrun.
  - injection Hrun as <-. exact Hfiles.
  - destruct (step ev s) as [s1|] eqn:Hstep; [|discriminate].
    apply Forall_cons in Hprim as [Hev Hprim].
    apply (IH s1 Hprim); [eapply prim_step_inv; eassumption| |exact Hrun].
    eapply prim_step_inv_files; eassumption.
Qed.

Lemma reachable_inv_files (s : state) : reachable s -> inv s /\ inv_files s.
Proof.
  intros Hreach.
  pose proof (reachable_inv std_exp float_of_string int_of_string s Hreach) as Hinv.
  split; [exact Hinv|]. destruct Hreach as [evs Hrun].
  destruct (run_prims std_exp float_of_string int_of_string evs init s
              (inv_init) Hrun) as (evs' & Hprim & Hrun').
  exact (run_prim_inv_files evs' init s Hprim inv_init inv_files_init Hrun').
Qed.

(** *** The status of a job *)

(** The status files the worker writes. *)
Lemma worker_step_status (w : worker_world) (s : state) (k : string) :
  status (st_store (worker_step w s)) !! k = status (st_store s) !! k \/
  (st_worker s = WClaimed k /\
   (status (st_store (worker_step w s)) !! k = Some Truncated \/
    status (st_store (worker_step w s)) !! k
    = Some (Intact (StatusRecord k "running" "start_time" (now w))))) \/
  (st_worker s = WSaved k /\
   (status (st_store (worker_step w s)) !! k = Some Truncated \/
    status (st_store (worker_step w s)) !! k
    = Some (Intact (StatusRecord k "done" "completed_at" (now w))))).
Proof.
  destruct s as [[jbs prc sts res] pc X F]. simpl.
  unfold App.worker_step, App.worker_op. simpl.
  destruct pc as [|j|j|j job|j r|j|j]; simpl in *;
    unfold fs_bind, fs_lift, fs_ret, fs_raise, rename_to_processing, write_status,
      read_processing, write_result, remove_processing, written; simpl.
  - destruct (bool_decide _); [auto|].
    destruct (jbs !! pick w) as [[c f]|]; [|auto]. destruct (io_ok w); auto.
  - destruct (io_ok w); [|destruct (io_opened w)]; simpl;
      (destruct (decide (j = k)) as [<-|Hne];
       [rewrite ?lookup_insert_eq|rewrite ?lookup_insert_ne by exact Hne]); auto 8.
  - destruct (prc !! j) as [[obj|]|]; try (destruct (io_ok w)); simpl; auto.
  - destruct (io_ok w); [|simpl; auto]. simpl. destruct (result_of _); simpl; auto.
  - destruct (io_ok w); [|destruct (io_opened w)]; simpl; auto.
  - destruct (io_ok w); [|destruct (io_opened w)]; simpl;
      (destruct (decide (j = k)) as [<-|Hne];
       [rewrite ?lookup_insert_eq|rewrite ?lookup_insert_ne by exact Hne]); auto 8.
  - destruct (prc !! j); [|simpl; auto]. destruct (io_ok w); simpl; auto.
Qed.

Lemma status_rank_values (v : string) :
  v = "queued"%string \/ v = "running"%string \/ v = "done"%string ->
  1 <= status_rank v <= 3.
Proof. intros [-> | [-> | ->]]; vm_compute; split; discriminate. Qed.

(** Once the status is "done" and the request has written its own status,
    no step writes the status file. *)
Lemma prim_done_final (ev : event) (s s' : state) (jid : string) :
  primitive ev -> inv s -> step ev s = Some s' ->
  status_is (st_store s) jid "done" -> st_inflight s !! jid = None ->
  status (st_store s') !! jid = status (st_store s) !! jid /\
  st_inflight s' !! jid = None.
Proof.
  intros Hprim Hinv Hstep Hdone HF.
  assert (HX : jid ∈ st_issued s).
  { apply (inv_issued_status _ Hinv). destruct Hdone as (rec & -> & _). eauto. }
  destruct ev as [pl w|pl w|j|w].
  - destruct Hprim.
  - destruct (submit_job_frame std_exp float_of_string int_of_string pl w s s' Hstep)
      as (_ & _ & -> & _ & Hk).
    destruct (Hk jid HX) as (_ & _ & ->). auto.
  - destruct (submit_status_frame std_exp float_of_string int_of_string j s s' Hinv Hstep)
      as (Hj & _ & _ & -> & _ & _ & _ & Hk).
    split; [|apply lookup_delete_None; auto].
    apply Hk. intros ->. rewrite HF in Hj. destruct Hj; discriminate.
  - simpl in Hstep. destruct (worker_enabled w s); [|discriminate].
    injection Hstep as <-.
    destruct (worker_step_ghost std_exp w s) as [_ ->]. split; [|exact HF].
    destruct (worker_step_status w s jid) as [H|[[Hpc _]|[Hpc _]]]; [exact H| |].
    + destruct (inv_unclaimed _ Hinv jid ltac:(auto)) as [_ Hnd]. contradiction.
    + destruct (inv_done _ Hinv jid Hdone) as [_ Hfin].
      rewrite Hpc in Hfin. specialize (Hfin eq_refl). discriminate.
Qed.

Lemma run_prim_done_final (evs : list event) (s s' : state) (jid : string) :
  Forall primitive evs -> inv s -> run evs s = Some s' ->
  status_is (st_store s) jid "done" -> st_inflight s !! jid = None ->
  status (st_store s') !! jid = status (st_store s) !! jid.
Proof.
  revert s. induction evs as [|ev evs IH]; intros s Hprim Hinv Hrun Hdone HF;
    simpl in Hrun.
  - injection Hrun as <-. reflexivity.
  - destruct (step ev s) as [s1|] eqn:Hstep; [|discriminate].
    apply Forall_cons in Hprim as [Hev Hprim].
    destruct (prim_done_final ev s s1 jid Hev Hinv Hstep Hdone HF) as [Hst HF1].
    rewrite <- Hst. apply (IH s1 Hprim); try assumption.
    + eapply prim_step_inv; eassumption.
    + destruct Hdone as (rec & Hrec & Hv). exists rec. rewrite Hst. auto.
Qed.

(** X9. The worker moves the status of a job forward only. In a reachable
    state where the request that submitted the job has written its own
    status (or the job id was never handed out), no step takes the status
    from one of "queued", "running" and "done" to an earlier one; and once
    the status is "done", the job has a result, and its status file and
    result file stay as they are in every later state. *)
Theorem status_moves_forward (s : state) (jid : string) :
  reachable s -> st_inflight s !! jid = None ->
  (forall ev s' v v',
     step ev s = Some s' ->
     status_is (st_store s) jid v -> status_is (st_store s') jid v' ->
     status_rank v <= status_rank v') /\
  (status_is (st_store s) jid "done" ->
   has_result (st_store s) jid /\
   forall evs s',
     run evs s = Some s' ->
     status (st_store s') !! jid = status (st_store s) !! jid /\
     results (st_store s') !! jid = results (st_store s) !! jid).
Proof.
  intros Hreach HF.
  pose proof (reachable_inv std_exp float_of_string int_of_string s Hreach) as Hinv.
  split.
  - intros ev s' v v' Hstep (rec & Hrec & Hv) (rec' & Hrec' & Hv').
    assert (HX : jid ∈ st_issued s) by (apply (inv_issued_status _ Hinv); eauto).
    assert (Hsame : status (st_store s') !! jid = status (st_store s) !! jid ->
                    status_rank v <= status_rank v').
    { intros E. rewrite E, Hrec in Hrec'. injection Hrec' as <-.
      rewrite Hv in Hv'. subst v'. lia. }
    destruct ev as [pl w|pl w|j|w].
    + destruct (submit_frame std_exp float_of_string int_of_string pl w s s' Hstep)
        as (_ & _ & _ & _ & Hk).
      apply Hsame. apply (Hk jid HX).
    + destruct (submit_job_frame std_exp float_of_string int_of_string pl w s s' Hstep)
        as (_ & _ & E & _). apply Hsame. rewrite E. reflexivity.
    + destruct (submit_status_frame std_exp float_of_string int_of_string j s s' Hinv
                  Hstep) as (Hj & _ & _ & _ & _ & _ & _ & Hk).
      apply Hsame, Hk. intros ->. rewrite HF in Hj. destruct Hj; discriminate.
    + simpl in Hstep. destruct (worker_enabled w s); [|discriminate].
      injection Hstep as <-.
      destruct (inv_status_values _ Hinv jid rec Hrec) as [_ Hvals].
      rewrite Hv in Hvals.
      destruct (worker_step_status w s jid) as [H|[[Hpc H]|[Hpc H]]]; [exact (Hsame H)| |].
      * destruct H as [H|H]; rewrite H in Hrec'; [discriminate|].
        injection Hrec' as <-. simpl in Hv'. subst v'.
        destruct (inv_unclaimed _ Hinv jid ltac:(auto)) as [Hnr Hnd].
        destruct Hvals as [-> | [-> | ->]]; [vm_compute; discriminate| |].
        -- exfalso. apply Hnr. exists rec. auto.
        -- exfalso. apply Hnd. exists rec. auto.
      * destruct H as [H|H]; rewrite H in Hrec'; [discriminate|].
        injection Hrec' as <-. simpl in Hv'. subst v'.
        pose proof (status_rank_values v Hvals) as Hb.
        change (status_rank "done") with 3. lia.
  - intros Hdone. split; [exact (proj1 (inv_done _ Hinv jid Hdone))|].
    intros evs s' Hrun.
    destruct (run_prims std_exp float_of_string int_of_string evs s s' Hinv Hrun)
      as (evs' & Hprim & Hrun').
    split; [exact (run_prim_done_final evs' s s' jid Hprim Hinv Hrun' Hdone HF)|].
    destruct (proj1 (inv_done _ Hinv jid Hdone)) as (rec & Hrec). rewrite Hrec.
    exact (run_keeps_results std_exp float_of_string int_of_string evs s s' jid _
             Hinv Hrun Hrec).
Qed.

(** X10. No job is lost: in every reachable state a job that has a status
    file, or whose request has yet to write it, has its file in
    [data/jobs] or in [data/processing], or has a result; and a job whose
    file is in [data/jobs] has the status "queued", or no status file yet,
    or one that a failed write has cut off. *)
Theorem job_never_lost (s : state) (jid : string) :
  reachable s ->
  (is_Some (status (st_store s) !! jid) \/ is_Some (st_inflight s !! jid) ->
   is_Some (jobs (st_store s) !! jid) \/ is_Some (processing (st_store s) !! jid)
   \/ has_result (st_store s) jid) /\
  (is_Some (jobs (st_store s) !! jid) ->
   status (st_store s) !! jid = None \/ status (st_store s) !! jid = Some Truncated
   \/ status_is (st_store s) jid "queued").
Proof.
  intros Hreach.
  pose proof (reachable_inv std_exp float_of_string int_of_string s Hreach) as Hinv.
  split; [exact (inv_not_lost _ Hinv jid)|].
  intros Hj. destruct (inv_unclaimed _ Hinv jid ltac:(auto)) as [Hnr Hnd].
  destruct (status (st_store s) !! jid) as [[rec|]|] eqn:Hrec; auto.
  right. right. exists rec. split; [exact Hrec|].
  destruct (inv_status_values _ Hinv jid rec Hrec) as [_ [H|[H|H]]]; [exact H| |].
  - exfalso. apply Hnr. exists rec. auto.
  - exfalso. apply Hnd. exists rec. auto.
Qed.

(** *** Submission *)

(** A request that does not pass the checks is answered with an error of
    code 400, or ends in the exception of a conversion. *)
Lemma submit_rejected_response (pl : payload) (w : request_world) (st : store) :
  submit_validates pl = false ->
  match fst (submit pl w st) with
  | Ok resp => exists msg, resp = error_response msg
  | Raise _ => True
  end.
Proof.
  unfold App.submit_validates, App.submit, fs_bind, fs_lift, fs_ret.
  destruct (py_float _ _) as [th|ex]; [|intros; exact I].
  destruct (py_int _ _) as [n|ex]; [|intros; exact I].
  destruct (allowed_material _) as [m|]; [|intros; simpl; eauto].
  destruct (existsb (xeqb th) ALLOWED_THICKNESSES); [|intros; simpl; eauto].
  destruct ((n <=? 0) || (MAX_SAMPLES <? n)); [intros; simpl; eauto|discriminate].
Qed.


(** X8. A request that fails any of the checks, or whose thickness or
    sample count cannot be converted, changes nothing: the state after it
    is the state before it, with no job id handed out, and the answer is an
    error of code 400 or an exception. With an allowed material the message
    is "invalid thickness" for a thickness outside the allowed ones, and
    otherwise "samples out of allowed range" for a count below 1 or above
    1000. *)
Theorem submit_rejected_unchanged (pl : payload) (w : request_world) (s : state) :
  submit_validates pl = false ->
  step (EvSubmit pl w) s = Some s /\
  match fst (submit pl w (st_store s)) with
  | Ok resp => resp_code resp = 400 /\ exists msg, resp_body resp = ErrorBody msg
  | Raise _ => True
  end /\
  (forall m t n,
     allowed_material (pl_material pl) = Some m ->
     py_float float_of_string (default (JFloat (Fin 1)) (pl_thickness pl)) = Ok t ->
     py_int int_of_string (default (JInt 100) (pl_samples pl)) = Ok n ->
     fst (submit pl w (st_store s))
     = Ok (error_response
             (if existsb (xeqb t) ALLOWED_THICKNESSES
              then "samples out of allowed range" else "invalid thickness"))).
Proof.
  intros Hv. split; [|split].
  - simpl. rewrite Hv, (submit_rejected float_of_string int_of_string pl w _ Hv).
    destruct s. reflexivity.
  - pose proof (submit_rejected_response pl w (st_store s) Hv) as H.
    destruct (fst (submit pl w (st_store s))) as [resp|ex]; [|exact I].
    destruct H as [msg ->]. simpl. eauto.
  - intros m t n Hm Ht Hn. revert Hv.
    unfold App.submit_validates, App.submit, fs_bind, fs_lift, fs_ret.
    rewrite Ht, Hn, Hm.
    destruct (existsb (xeqb t) ALLOWED_THICKNESSES); [|reflexivity].
    destruct ((n <=? 0) || (MAX_SAMPLES <? n)); [reflexivity|discriminate].
Qed.

(** X11. Every job that [submit] has answered with code 202 is one the
    engine can run: for the job file it wrote, [run_simulation] as the
    worker calls it returns a result, whatever clock, entropy and CPU count
    it finds, and the result echoes the job and is well formed (20 edges,
    19 counts, [transmitted] between 0 and [samples], the fraction between
    0 and 1). *)
Theorem accepted_job_simulates (pl : payload) (w : request_world) (st : store)
    (resp : response) (e : env) :
  fst (submit pl w st) = Ok resp -> resp_code resp = 202 ->
  exists ctime job r,
    jobs (snd (submit pl w st)) !! new_job_id w = Some (ctime, Intact job) /\
    result_of (run_simulation std_exp
                 (Params (Some (material job)) (Some (thickness job))
                    (Some (samples job)) None)
                 (parallel job) None e) = Ok r /\
    r_material r = material job /\ r_thickness r = thickness job /\
    r_samples r = samples job /\ parallel_used r = parallel job /\
    well_formed_result r.
Proof.
  intros Hresp Hcode.
  destruct (submit_validates pl) eqn:Hv.
  2:{ pose proof (submit_rejected_response pl w st Hv) as H. rewrite Hresp in H.
      destruct H as [msg ->]. discriminate. }
  destruct (submit_accepted_job float_of_string int_of_string pl w st Hv)
    as (job & Hjob & _ & _ & _ & _ & _ & Heq).
  rewrite Heq in Hresp |- *. simpl in Hresp.
  destruct (io_job w && io_status w) eqn:Hio; [|discriminate].
  apply andb_true_iff in Hio as [Hio1 _]. rewrite Hio1. simpl.
  destruct (valid_job_simulates std_exp _ job e Hjob) as (log & r & Hrun & Hfacts).
  exists (req_ctime w), job, r. rewrite lookup_insert_eq.
  split; [reflexivity|]. split; [|exact Hfacts].
  change (Params (Some (material job)) (Some (thickness job))
            (Some (samples job)) None)
    with (job_params job).
  rewrite Hrun. reflexivity.
Qed.

(** *** The worker *)

(** X12. The engine never fails a job the worker has read: in a reachable
    state where the worker holds a job it has just read, the simulation
    step (when nothing outside the engine fails) does not raise and leaves
    the worker with a well-formed result for that job; the files are
    untouched. *)
Theorem worker_simulation_succeeds (s : state) (w : worker_world) (jid : string)
    (job : job_obj) :
  reachable s -> st_worker s = WLoaded jid job -> io_ok w = true ->
  worker_raises w s = false /\
  exists r,
    worker_step w s
    = State (st_store s) (WSimulated jid r) (st_issued s) (st_inflight s) /\
    r_material r = material job /\ r_thickness r = thickness job /\
    r_samples r = samples job /\ parallel_used r = parallel job /\
    well_formed_result r.
Proof.
  intros Hreach Hpc Hio. destruct (reachable_inv_files s Hreach) as [_ Hfiles].
  pose proof (inv_worker_holds _ Hfiles) as F7. rewrite Hpc in F7. simpl in F7.
  destruct (valid_job_simulates std_exp jid job (sim_env w) F7)
    as (log & r & Hrun & Hfacts).
  unfold App.worker_raises, App.worker_step. rewrite Hpc.
  unfold App.worker_op. rewrite Hio. unfold fs_bind, fs_lift, fs_ret.
  change (Params (Some (material job)) (Some (thickness job))
            (Some (samples job)) None)
    with (job_params job).
  rewrite Hrun. simpl. split; [reflexivity|]. exists r. split; [reflexivity|exact Hfacts].
Qed.

(** X13. What the two read endpoints serve in a reachable state: for a job
    id that was never handed out both answer 404; a status that is served
    carries the id asked for and is "queued", "running" or "done"; a result
    that is served carries the id asked for and is well formed. *)
Theorem endpoints_serve_own_records (s : state) (jid : string) :
  reachable s ->
  (jid ∉ st_issued s ->
   get_status jid (st_store s) = Response (ErrorBody "job not found") 404 /\
   get_result jid (st_store s) = Response (ErrorBody "result not available") 404) /\
  (forall rec code,
     get_status jid (st_store s) = Response (StatusBody rec) code ->
     code = 200 /\ st_job_id rec = jid /\
     (st_status rec = "queued"%string \/ st_status rec = "running"%string
      \/ st_status rec = "done"%string)) /\
  (forall rec code,
     get_result jid (st_store s) = Response (ResultBody rec) code ->
     code = 200 /\ rm_job_id rec = jid /\ well_formed_result (rm_result rec)).
Proof.
  intros Hreach. destruct (reachable_inv_files s Hreach) as [Hinv Hfiles].
  unfold get_status, get_result. split; [|split].
  - intros Hfresh.
    rewrite (fresh_not_issued _ _ _ (inv_issued_status _ Hinv) Hfresh).
    rewrite (fresh_not_issued _ _ _ (inv_issued_results _ Hinv) Hfresh). auto.
  - intros rec code. destruct (status (st_store s) !! jid) as [[rec'|]|] eqn:Hrec;
      try discriminate.
    intros [= <- <-]. split; [reflexivity|].
    exact (inv_status_values _ Hinv jid rec' Hrec).
  - intros rec code. destruct (results (st_store s) !! jid) as [[rec'|]|] eqn:Hrec;
      try discriminate.
    intros [= <- <-]. split; [reflexivity|].
    exact (inv_results_valid _ Hfiles jid rec' Hrec).
Qed.

(** One operation of the worker that succeeds, position by position. *)
Lemma worker_step_claim (w : worker_world) (st : store) (X : gset string)
    (F : gmap string request_world) (c : Q) (f : file job_obj) :
  jobs st !! pick w = Some (c, f) -> io_ok w = true ->
  worker_step w (State st WPoll X F)
  = State (Store (delete (pick w) (jobs st)) (<[pick w := f]> (processing st))
             (status st) (results st))
          (WClaimed (pick w)) X F.
Proof.
  intros Hpick Hio. unfold App.worker_step, App.worker_op. simpl.
  rewrite bool_decide_eq_false_2 by (intros E; rewrite E, lookup_empty in Hpick; discriminate).
  unfold fs_bind, rename_to_processing, fs_ret. rewrite Hpick, Hio. reflexivity.
Qed.

Lemma is_oldest_singleton (jid : string) (c : Q) (f : file job_obj) :
  is_oldest (<[jid := (c, f)]> ∅) jid = true.
Proof.
  unfold is_oldest. rewrite lookup_insert_eq, insert_empty, map_to_list_singleton.
  simpl. rewrite andb_true_r. apply Qle_bool_iff, Qle_refl.
Qed.

(** X14. A job goes through: from a state with an idle worker
    and an empty queue, an accepted submission followed by seven
    operations of the worker that all succeed (claim, status "running",
    read, simulate, result file, status "done", removal of the claimed
    file) ends with the worker idle again, the job in neither [data/jobs]
    nor [data/processing], the status "done" and a well-formed result that
    the result endpoint serves. *)
Theorem job_runs_to_done (s : state) (pl : payload) (w : request_world)
    (w1 w2 w3 w4 w5 w6 w7 : worker_world) :
  st_worker s = WPoll -> jobs (st_store s) = ∅ ->
  submit_validates pl = true ->
  new_job_id w ∉ st_issued s -> io_job w = true -> io_status w = true ->
  pick w1 = new_job_id w ->
  Forall (fun wi => io_ok wi = true) [w1; w2; w3; w4; w5; w6; w7] ->
  let jid := new_job_id w in
  exists s' r,
    run (EvSubmit pl w :: map EvWorker [w1; w2; w3; w4; w5; w6; w7]) s = Some s' /\
    st_worker s' = WPoll /\
    jobs (st_store s') !! jid = None /\
    processing (st_store s') !! jid = None /\
    status (st_store s') !! jid
    = Some (Intact (StatusRecord jid "done" "completed_at" (now w6))) /\
    get_result jid (st_store s')
    = Response (ResultBody (ResultMeta r jid ("/results/" ++ jid ++ ".png") (now w5))) 200 /\
    well_formed_result r.
Proof.
  intros Hpc Hempty Hv Hfresh Hio1 Hio2 Hpick Hws jid.
  destruct s as [[jbs prc sts res] pc X F]. simpl in Hpc, Hempty, Hfresh. subst pc jbs.
  destruct (submit_accepted_job float_of_string int_of_string pl w (Store ∅ prc sts res) Hv)
    as (job & Hjob & _ & _ & _ & _ & _ & Heq).
  rewrite Hio1, Hio2 in Heq. simpl in Heq. fold jid in Heq, Hpick, Hfresh, Hjob.
  repeat match goal with
         | H : Forall _ (_ :: _) |- _ => apply Forall_cons in H as [? H]
         end.
  destruct (valid_job_simulates std_exp jid job (sim_env w4) Hjob)
    as (log & r & Hrun & _ & _ & _ & _ & Hwf).
  exists (State (Store (delete jid (<[jid := (req_ctime w, Intact job)]> ∅))
                       (delete jid (<[jid := Intact job]> prc))
                       (<[jid := Intact (StatusRecord jid "done" "completed_at" (now w6))]>
                          (<[jid := Intact (StatusRecord jid "running" "start_time"
                                              (now w2))]>
                             (<[jid := Intact (StatusRecord jid "queued" "created_at"
                                                 (req_time w))]>
                                sts)))
                       (<[jid := Intact (ResultMeta r jid ("/results/" ++ jid ++ ".png")
                                           (now w5))]>
                          res))
                WPoll ({[ jid ]} ∪ X) F), r.
  split.
  { cbn [App.run map]. unfold App.step at 1. rewrite Hv.
    fold jid. rewrite bool_decide_eq_false_2 by exact Hfresh.
    cbn [st_store st_worker st_issued st_inflight]. rewrite Heq. cbn [snd].
    (* claim *)
    unfold App.step at 1, worker_enabled. cbn [st_store st_worker jobs].
    rewrite Hpick, is_oldest_singleton, orb_true_r.
    rewrite (worker_step_claim w1 _ _ _ (req_ctime w) (Intact job));
      [|rewrite Hpick; apply lookup_insert_eq|assumption].
    rewrite Hpick. cbn [jobs processing status results].
    (* status running *)
    unfold App.step at 1, worker_enabled, App.worker_step, App.worker_op.
    cbn [st_store st_worker st_issued st_inflight].
    unfold fs_bind, write_status, fs_ret, written.
    match goal with H : io_ok w2 = true |- _ => rewrite H end.
    cbn [jobs processing status results].
    (* read *)
    unfold App.step at 1, worker_enabled, App.worker_step, App.worker_op.
    cbn [st_store st_worker st_issued st_inflight].
    unfold fs_bind, read_processing, fs_ret. cbn [processing].
    rewrite lookup_insert_eq.
    match goal with H : io_ok w3 = true |- _ => rewrite H end.
    (* simulate *)
    unfold App.step at 1, worker_enabled, App.worker_step, App.worker_op.
    cbn [st_store st_worker st_issued st_inflight].
    match goal with H : io_ok w4 = true |- _ => rewrite H end.
    unfold fs_bind, fs_lift, fs_ret.
    change (Params (Some (material job)) (Some (thickness job))
              (Some (samples job)) None)
      with (job_params job).
    rewrite Hrun. cbn [result_of snd].
    (* result file *)
    unfold App.step at 1, worker_enabled, App.worker_step, App.worker_op.
    cbn [st_store st_worker st_issued st_inflight].
    unfold fs_bind, write_result, fs_ret, written.
    match goal with H : io_ok w5 = true |- _ => rewrite H end.
    cbn [jobs processing status results].
    (* status done *)
    unfold App.step at 1, worker_enabled, App.worker_step, App.worker_op.
    cbn [st_store st_worker st_issued st_inflight].
    unfold fs_bind, write_status, fs_ret, written.
    match goal with H : io_ok w6 = true |- _ => rewrite H end.
    cbn [jobs processing status results].
    (* remove *)
    unfold App.step at 1, worker_enabled, App.worker_step, App.worker_op.
    cbn [st_store st_worker st_issued st_inflight].
    unfold fs_bind, remove_processing, fs_ret. cbn [processing].
    rewrite lookup_insert_eq.
    match goal with H : io_ok w7 = true |- _ => rewrite H end.
    reflexivity. }
  cbn [st_store st_worker jobs processing status results].
  unfold get_result. cbn [results].
  rewrite !lookup_delete_eq, !lookup_insert_eq.
  do 5 (split; [reflexivity|]). exact Hwf.
Qed.

End JobStoreMore.

(** ** The two parts of a request *)

Section RequestParts.

Variable std_exp : Z -> nat -> Q.
Variable float_of_string : string -> option xfloat.
Variable int_of_string : string -> option Z.

Abbreviation submit := (App.submit float_of_string int_of_string).
Abbreviation submit_to_job := (App.submit_to_job float_of_string int_of_string).
Abbreviation step := (App.step std_exp float_of_string int_of_string).
Abbreviation reachable := (App.reachable std_exp float_of_string int_of_string).


End RequestParts.

(** X20. A status write that comes late takes the status back. A request
    writes its job file; before it writes its status file the worker
    takes the job through to the status "done" and removes the claimed
    file; then the request writes its status: the status of the job is
    "queued", its file is in neither [data/jobs] nor [data/processing], and
    its result is there. *)
Theorem late_status_write_takes_status_back :
  exists s s',
    run unit_exp no_float no_int trace_overtaken init = Some s /\
    status_is (st_store s) "a1" "done" /\
    step unit_exp no_float no_int (EvSubmitStatus "a1") s = Some s' /\
    status_is (st_store s') "a1" "queued" /\
    has_result (st_store s') "a1" /\
    jobs (st_store s') !! "a1"%string = None /\
    processing (st_store s') !! "a1"%string = None /\
    st_worker s' = WPoll.
Proof.
  eexists. eexists. split; [vm_compute; reflexivity|].
  split; [vm_compute; eauto|]. split; [vm_compute; reflexivity|].
  split; [vm_compute; eauto|]. split; [vm_compute; eauto|].
  split; [vm_compute; reflexivity|]. split; vm_compute; reflexivity.
Qed.


(** ** Paths, file names and the choice of the job file *)

(** *** Strings *)

Lemma append_nil (b : string) : (EmptyString ++ b)%string = b.
Proof. reflexivity. Qed.

Lemma append_cons (x : ascii) (a b : string) :
  (String x a ++ b)%string = String x (a ++ b)%string.
Proof. reflexivity. Qed.

Lemma append_assoc (a b c : string) : ((a ++ b) ++ c = a ++ (b ++ c))%string.
Proof.
  induction a as [|x a IH]; [reflexivity|].
  rewrite !append_cons, IH. reflexivity.
Qed.

Lemma append_inj_l (a x y : string) : (a ++ x = a ++ y)%string -> x = y.
Proof.
  induction a as [|c a IH]; [auto|]. rewrite !append_cons. intros [= H]. auto.
Qed.

Lemma length_append (a b : string) :
  String.length (a ++ b) = (String.length a + String.length b)%nat.
Proof.
  induction a as [|c a IH]; [reflexivity|].
  rewrite append_cons. simpl. rewrite IH. reflexivity.
Qed.

Lemma append_inj_r (x y s : string) : (x ++ s = y ++ s)%string -> x = y.
Proof.
  revert y. induction x as [|c x IH]; intros [|d y] H.
  - reflexivity.
  - apply (f_equal String.length) in H. rewrite append_cons in H.
    simpl in H. rewrite !length_append in H. simpl in H. lia.
  - apply (f_equal String.length) in H. rewrite append_cons in H.
    simpl in H. rewrite !length_append in H. simpl in H. lia.
  - rewrite !append_cons in H. injection H as -> H. f_equal. apply IH, H.
Qed.

Lemma append_eq_nil (a b : string) : (a ++ b)%string = EmptyString -> b = EmptyString.
Proof. destruct a; [auto|]. rewrite append_cons. discriminate. Qed.

Lemma ends_with_sep_append (a b : string) :
  b <> EmptyString -> ends_with_sep (a ++ b) = ends_with_sep b.
Proof.
  intros Hb. induction a as [|c a IH]; [reflexivity|].
  rewrite append_cons. simpl.
  destruct (a ++ b)%string eqn:E; [|exact IH].
  apply append_eq_nil in E. congruence.
Qed.

Lemma path_join_relative (a b : string) :
  starts_with_sep b = false -> path_join a b = (dir_prefix a ++ b)%string.
Proof.
  intros Hb. unfold path_join, dir_prefix. rewrite Hb.
  destruct (match a with EmptyString => true | _ => ends_with_sep a end);
    [reflexivity|]. rewrite append_assoc. reflexivity.
Qed.

Lemma file_path_eq (base dir job_id : string) :
  starts_with_sep dir = false -> dir <> EmptyString -> ends_with_sep dir = false ->
  starts_with_sep job_id = false ->
  path_join (path_join base dir) (job_id ++ ".json")
  = (dir_prefix base ++ (dir ++ "/" ++ (job_id ++ ".json")))%string.
Proof.
  intros Hd Hne He Hj.
  rewrite (path_join_relative base dir Hd).
  rewrite path_join_relative by (destruct job_id; [reflexivity|exact Hj]).
  assert (Hp : dir_prefix (dir_prefix base ++ dir) = (dir_prefix base ++ dir ++ "/")%string).
  { unfold dir_prefix at 1.
    rewrite ends_with_sep_append, He by exact Hne.
    destruct (dir_prefix base ++ dir)%string eqn:E.
    - apply append_eq_nil in E. congruence.
    - rewrite <- E, append_assoc. reflexivity. }
  rewrite Hp, !append_assoc. reflexivity.
Qed.

(** *** The paths *)

Section PathFacts.

Variable BASE_DATA : string.

(** X15. The four directories keep their files apart: for job ids that do
    not start with a slash, each of [job_file_path], [processing_file_path],
    [status_file_path] and [result_file_path] gives different paths to
    different ids, and no path of one of the four is a path of another,
    whatever [BASE_DATA] is. *)
Theorem file_paths_distinct (j1 j2 : string) :
  starts_with_sep j1 = false -> starts_with_sep j2 = false ->
  (job_file_path BASE_DATA j1 = job_file_path BASE_DATA j2 -> j1 = j2)
  /\ (processing_file_path BASE_DATA j1 = processing_file_path BASE_DATA j2 -> j1 = j2)
  /\ (status_file_path BASE_DATA j1 = status_file_path BASE_DATA j2 -> j1 = j2)
  /\ (result_file_path BASE_DATA j1 = result_file_path BASE_DATA j2 -> j1 = j2)
  /\ job_file_path BASE_DATA j1 <> processing_file_path BASE_DATA j2
  /\ job_file_path BASE_DATA j1 <> status_file_path BASE_DATA j2
  /\ job_file_path BASE_DATA j1 <> result_file_path BASE_DATA j2
  /\ processing_file_path BASE_DATA j1 <> status_file_path BASE_DATA j2
  /\ processing_file_path BASE_DATA j1 <> result_file_path BASE_DATA j2
  /\ status_file_path BASE_DATA j1 <> result_file_path BASE_DATA j2.
Proof.
  intros H1 H2.
  unfold job_file_path, processing_file_path, status_file_path, result_file_path,
    JOBS_DIR, PROCESSING_DIR, STATUS_DIR, RESULTS_DIR.
  rewrite !file_path_eq by (reflexivity || discriminate || assumption).
  repeat split; intros E; apply append_inj_l in E;
    first [ do 2 apply append_inj_l in E; apply append_inj_r in E; exact E
          | rewrite !append_cons in E; discriminate E ].
Qed.

End PathFacts.

(** *** File names and job ids *)

Lemma substring_all (b : string) : String.substring 0 (String.length b) b = b.
Proof. induction b as [|c b IH]; [reflexivity|]. simpl. rewrite IH. reflexivity. Qed.

Lemma substring_append (a b : string) :
  String.substring (String.length a) (String.length b) (a ++ b) = b.
Proof.
  induction a as [|c a IH]; [apply substring_all|].
  rewrite append_cons. simpl. exact IH.
Qed.

Lemma endswith_append (a b : string) : endswith (a ++ b) b = true.
Proof.
  unfold endswith. rewrite length_append.
  replace (String.length a + String.length b - String.length b)%nat
    with (String.length a) by lia.
  rewrite substring_append, String.eqb_refl, andb_true_r.
  apply Nat.leb_le. lia.
Qed.

Lemma replace_no_dot (jid : string) :
  no_dot jid = true -> jobid_of_file (jid ++ ".json") = jid.
Proof.
  unfold jobid_of_file, str_replace.
  induction jid as [|c jid IH]; intros Hd; [reflexivity|].
  simpl in Hd. apply andb_prop in Hd as [Hc Hd].
  apply negb_true_iff in Hc.
  rewrite append_cons.
  change (replace_from 0 ".json" EmptyString (String c (jid ++ ".json")))
    with (if (Ascii.eqb c "."%char && startswith (jid ++ ".json") "json")%bool
          then replace_from 4 ".json" EmptyString (jid ++ ".json")
          else String c (replace_from 0 ".json" EmptyString (jid ++ ".json"))).
  rewrite Hc, IH by exact Hd. reflexivity.
Qed.

(** X16. From the name of a job file back to the job: for a job id without
    a dot (so for the hexadecimal ids of [new_job_id]), the file name
    [<id>.json] passes the [endswith] filter of line 128 and the [replace]
    of line 137, which deletes [.json], gives the id back. *)
Theorem jobfile_names_job (jid : string) :
  no_dot jid = true ->
  endswith (jid ++ ".json") ".json" = true
  /\ jobid_of_file (jid ++ ".json") = jid.
Proof.
  intros Hd. split; [apply endswith_append|apply replace_no_dot, Hd].
Qed.

(** *** The choice of the job file *)

Lemma sort_head_cons (f : string * Q) (l : list (string * Q)) :
  hd_error (insert_by_ctime f l)
  = Some (match hd_error l with
          | None => f
          | Some g => if Qle_bool (snd f) (snd g) then f else g
          end).
Proof. destruct l as [|g l]; simpl; [reflexivity|]. destruct (Qle_bool _ _); reflexivity. Qed.

Lemma sort_head (l : list (string * Q)) : hd_error (sort_by_ctime l) = first_oldest l.
Proof.
  induction l as [|f l IH]; [reflexivity|].
  simpl. rewrite sort_head_cons, IH.
  destruct (first_oldest l); [destruct (Qle_bool _ _)|]; reflexivity.
Qed.

Lemma first_oldest_least (l : list (string * Q)) (m : string * Q) :
  first_oldest l = Some m ->
  In m l /\ forall g, In g l -> (snd m <= snd g)%Q.
Proof.
  revert m. induction l as [|f l IH]; intros m; simpl; [discriminate|].
  destruct (first_oldest l) as [m'|] eqn:E.
  - destruct (IH m' eq_refl) as [Hin Hle].
    destruct (Qle_bool (snd f) (snd m')) eqn:Hc; intros [= <-].
    + apply Qle_bool_iff in Hc. split; [left; reflexivity|].
      intros g [<-|Hg]; [apply Qle_refl|].
      eapply Qle_trans; [exact Hc|apply Hle, Hg].
    + split; [right; exact Hin|].
      intros g [<-|Hg]; [|apply Hle, Hg].
      destruct (Qlt_le_dec (snd f) (snd m')) as [Hlt|Hge]; [|exact Hge].
      apply Qlt_le_weak in Hlt. apply Qle_bool_iff in Hlt. congruence.
  - intros [= <-]. destruct l as [|g l]; [|simpl in E; destruct (first_oldest l); [destruct (Qle_bool _ _)|]; discriminate].
    split; [left; reflexivity|]. intros g [<-|[]]. apply Qle_refl.
Qed.

Lemma first_oldest_none (l : list (string * Q)) : first_oldest l = None -> l = [].
Proof.
  destruct l as [|f l]; [reflexivity|]. simpl.
  destruct (first_oldest l); [destruct (Qle_bool _ _)|]; discriminate.
Qed.

Lemma pick_jobfile_eq (listing : list (string * Q)) :
  pick_jobfile listing
  = option_map fst (first_oldest (List.filter (fun f => endswith (fst f) ".json") listing)).
Proof.
  unfold pick_jobfile. rewrite <- sort_head.
  destruct (sort_by_ctime _); reflexivity.
Qed.

Lemma pick_jobfile_none (listing : list (string * Q)) :
  pick_jobfile listing = None <->
  forall f t, In (f, t) listing -> endswith f ".json" = false.
Proof.
  rewrite pick_jobfile_eq. split.
  - intros H f t Hin.
    destruct (first_oldest _) eqn:E; [discriminate|].
    apply first_oldest_none in E.
    destruct (endswith f ".json") eqn:He; [|reflexivity].
    assert (Hf : In (f, t) (List.filter (fun f => endswith (fst f) ".json") listing))
      by (apply List.filter_In; auto).
    rewrite E in Hf. destruct Hf.
  - intros H. destruct (first_oldest _) as [[f t]|] eqn:E; [|reflexivity].
    apply first_oldest_least in E as [Hin _].
    apply List.filter_In in Hin as [Hin He]. simpl in He.
    rewrite (H f t Hin) in He. discriminate.
Qed.

Lemma pick_jobfile_some (listing : list (string * Q)) (f : string) :
  pick_jobfile listing = Some f ->
  endswith f ".json" = true
  /\ exists t, In (f, t) listing
     /\ forall g u, In (g, u) listing -> endswith g ".json" = true -> (t <= u)%Q.
Proof.
  rewrite pick_jobfile_eq. intros H.
  destruct (first_oldest _) as [[f' t]|] eqn:E; [|discriminate].
  injection H as ->.
  apply first_oldest_least in E as [Hin Hle].
  apply List.filter_In in Hin as [Hin He]. split; [exact He|].
  exists t. split; [exact Hin|]. intros g u Hg Hge.
  apply (Hle (g, u)). apply List.filter_In. auto.
Qed.

Lemma first_oldest_split (l : list (string * Q)) (m : string * Q) :
  first_oldest l = Some m ->
  exists before after,
    l = before ++ m :: after
    /\ List.Forall (fun g => (snd m < snd g)%Q) before
    /\ List.Forall (fun g => (snd m <= snd g)%Q) after.
Proof.
  revert m. induction l as [|f l IH]; intros m H; [discriminate|].
  pose proof (first_oldest_least _ _ H) as [_ Hleast].
  simpl in H. destruct (first_oldest l) as [m'|] eqn:E.
  - destruct (Qle_bool (snd f) (snd m')) eqn:Hc; injection H as <-.
    + exists [], l. split; [reflexivity|]. split; [constructor|].
      apply List.Forall_forall. intros g Hg. apply Hleast. right. exact Hg.
    + destruct (IH m' eq_refl) as (before & after & -> & Hb & Ha).
      exists (f :: before), after. split; [reflexivity|]. split; [|exact Ha].
      constructor; [|exact Hb].
      destruct (Qlt_le_dec (snd m') (snd f)) as [Hlt|Hge]; [exact Hlt|].
      apply Qle_bool_iff in Hge. congruence.
  - injection H as <-. apply first_oldest_none in E. subst l.
    exists [], []. repeat constructor.
Qed.

(** X17. The choice of lines 128-135: the worker finds no job file exactly
    when no name in the listing ends in [.json]; the file it picks is a
    [.json] file of the listing, every [.json] file listed before it has a
    strictly later ctime and every one listed after it has the same ctime or
    a later one (the sort is stable, so of the oldest files the first
    listed wins). *)
Theorem pick_jobfile_oldest (listing : list (string * Q)) :
  (pick_jobfile listing = None <->
   forall f t, In (f, t) listing -> endswith f ".json" = false)
  /\ (forall f, pick_jobfile listing = Some f ->
      exists t before after,
        List.filter (fun g => endswith (fst g) ".json") listing
        = before ++ (f, t) :: after
        /\ List.Forall (fun g => (t < snd g)%Q) before
        /\ List.Forall (fun g => (t <= snd g)%Q) after).
Proof.
  split; [apply pick_jobfile_none|].
  intros f. rewrite pick_jobfile_eq. intros H.
  destruct (first_oldest _) as [[f' t]|] eqn:E; [|discriminate].
  injection H as ->.
  apply first_oldest_split in E as (before & after & E & Hb & Ha).
  exists t, before, after. auto.
Qed.

Lemma listing_in (js : gmap string (Q * file job_obj)) (listing : list (string * Q))
    (f : string) (t : Q) :
  listing_of js listing ->
  (In (f, t) listing <->
   exists jid obj, f = (jid ++ ".json")%string /\ js !! jid = Some (t, obj)).
Proof.
  unfold listing_of. intros Hl. split.
  - intros Hin. apply (Permutation_in _ Hl) in Hin.
    apply in_map_iff in Hin as [[jid [t' obj]] [Heq Hin]].
    simpl in Heq. injection Heq as <- <-.
    exists jid, obj. split; [reflexivity|].
    apply elem_of_map_to_list. apply list_elem_of_In. exact Hin.
  - intros (jid & obj & -> & Hj).
    apply (Permutation_in _ (Permutation_sym Hl)).
    apply in_map_iff. exists (jid, (t, obj)). split; [reflexivity|].
    apply list_elem_of_In, elem_of_map_to_list. exact Hj.
Qed.

(** X18. Lines 128-137 against the job store: when [data/jobs] holds the
    file [<id>.json] of every queued job and nothing else, in any listing
    order, and no id has a dot, the worker finds nothing exactly on the
    empty queue, and otherwise picks the file of a queued job than which
    none is older and recovers the id of that job from the file name. *)
Theorem worker_picks_oldest_job (js : gmap string (Q * file job_obj))
    (listing : list (string * Q)) :
  listing_of js listing ->
  (forall jid, is_Some (js !! jid) -> no_dot jid = true) ->
  (js = ∅ -> pick_jobfile listing = None)
  /\ (js <> ∅ ->
      exists jid, pick_jobfile listing = Some (jid ++ ".json")%string
                  /\ jobid_of_file (jid ++ ".json") = jid
                  /\ is_oldest js jid = true).
Proof.
  intros Hl Hids.
  pose proof (pick_jobfile_none listing) as Hnone.
  pose proof (pick_jobfile_some listing) as Hsome. split.
  - intros ->. apply Hnone. intros f t Hin.
    apply (listing_in _ _ _ _ Hl) in Hin as (jid & obj & _ & Hj).
    rewrite lookup_empty in Hj. discriminate.
  - intros Hne. destruct (pick_jobfile listing) as [f|] eqn:Hp.
    + destruct (Hsome f eq_refl) as (_ & t & Hin & Hle).
      apply (listing_in _ _ _ _ Hl) in Hin as (jid & obj & -> & Hj).
      exists jid. split; [reflexivity|].
      split; [apply replace_no_dot, Hids; eauto|].
      unfold is_oldest. rewrite Hj. apply forallb_forall.
      intros [jid' [t' obj']] Hin'. simpl.
      apply Qle_bool_iff. apply (Hle (jid' ++ ".json")%string t').
      * apply (listing_in _ _ _ _ Hl). exists jid', obj'. split; [reflexivity|].
        apply elem_of_map_to_list, list_elem_of_In. exact Hin'.
      * apply endswith_append.
    + exfalso. apply Hne. apply map_empty. intros jid.
      destruct (js !! jid) as [[t obj]|] eqn:Hj; [|reflexivity].
      assert (Hin : In ((jid ++ ".json")%string, t) listing)
        by (apply (listing_in _ _ _ _ Hl); eauto).
      pose proof (proj1 Hnone eq_refl _ _ Hin) as Hend.
      rewrite endswith_append in Hend. discriminate.
Qed.

(** ** The further theorems on concrete runs *)

(** All five paths are 12.5 long, so all five are transmitted. *)
Lemma transmitted_counts_long_paths_witness :
  exists r,
    result_of (run_simulation unit_exp water_call true (Some 2) env_a) = Ok r /\
    transmitted r = 5 /\
    (transmitted_fraction r <= 1)%Q.
Proof.
  destruct (transmitted_counts_long_paths unit_exp water_call true (Some 2) env_a
              (8 # 100)) as (r & Hr & Ht & _ & _ & _ & Hf).
  - split; [reflexivity|]. split; [reflexivity|]. split; [simpl; lia|].
    split; [intros _; simpl; lia|]. left. reflexivity.
  - exists r. split; [exact Hr|]. split; [exact Ht|exact Hf].
Defined.

(** The counts of the same call. *)
Lemma histogram_counts_paths_up_to_top_witness :
  exists r,
    result_of (run_simulation unit_exp water_call false None env_a) = Ok r /\
    List.Forall (fun c => 0 <= c) (counts r) /\
    forall top,
      List.last (bins r) NaN = Fin top ->
      sum_list (counts r)
      = Z.of_nat (length (List.filter (fun q => Qle_bool q top)
                            (call_pathsQ unit_exp water_call false None env_a (8 # 100)))).
Proof.
  apply (histogram_counts_paths_up_to_top unit_exp water_call false None env_a (8 # 100)).
  - intros s k. discriminate.
  - split; [reflexivity|]. split; [reflexivity|]. split; [simpl; lia|].
    split; [discriminate|]. left. reflexivity.
Defined.

(** Five trials on two workers: two chunks. *)
Lemma parallel_runs_min_chunks_witness :
  exists log r,
    run_simulation unit_exp water_call true (Some 2) env_a = (log, Ok r) /\
    workers r = 2 /\ length log = 2%nat.
Proof.
  destruct (parallel_runs_min_chunks unit_exp water_call (Some 2) env_a (8 # 100))
    as (log & r & Hrun & Hw & _ & Hlen & _).
  - split; [reflexivity|]. split; [reflexivity|]. split; [simpl; lia|].
    split; [intros _; simpl; lia|]. left. reflexivity.
  - exists log, r. split; [exact Hrun|]. split; [exact Hw|].
    rewrite Hw in Hlen. simpl in Hlen. lia.
Defined.

(** The same parallel call under two clocks and entropy pools. *)
Lemma parallel_seeded_deterministic_witness :
  observe (run_simulation unit_exp water_call true (Some 2) env_a)
  = observe (run_simulation unit_exp water_call true (Some 2) env_b).
Proof.
  apply (parallel_seeded_deterministic unit_exp water_call (Some 2) (Some 2)
           env_a env_b 3).
  - reflexivity.
  - discriminate.
  - reflexivity.
Defined.

(** No trial at all. *)
Lemma nonpositive_samples_raise_witness :
  result_of (run_simulation unit_exp empty_call false None env_a)
  = Raise ZeroDivisionError.
Proof.
  apply (proj2 (nonpositive_samples_raise unit_exp empty_call false None env_a
                  ltac:(simpl; lia))).
  - reflexivity.
  - reflexivity.
  - simpl. lia.
  - discriminate.
Defined.

(** No worker at all. *)
Lemma nonpositive_workers_raise_witness :
  run_simulation unit_exp water_call true (Some 0) env_a = ([], Raise ZeroDivisionError).
Proof.
  apply (nonpositive_workers_raise unit_exp water_call 0 env_a).
  - discriminate.
  - lia.
Defined.


(** A request for three units of water. *)
Lemma submit_rejected_unchanged_witness :
  step unit_exp no_float no_int (EvSubmit thick_payload request_a1) init = Some init /\
  fst (submit no_float no_int thick_payload request_a1 (st_store init))
  = Ok (error_response "invalid thickness").
Proof.
  destruct (submit_rejected_unchanged unit_exp no_float no_int thick_payload
              request_a1 init) as (Hstep & _ & Hmsg).
  - reflexivity.
  - split; [exact Hstep|].
    apply (Hmsg "Water"%string (Fin 3) 2); reflexivity.
Defined.

(** The worker writes the status "running" over "queued". *)
Lemma status_moves_forward_witness :
  exists s s',
    run unit_exp no_float no_int trace_claimed init = Some s /\
    step unit_exp no_float no_int (EvWorker worker_ok) s = Some s' /\
    status_is (st_store s) "a1" "queued" /\
    status_is (st_store s') "a1" "running" /\
    status_rank "queued" <= status_rank "running".
Proof.
  eexists. eexists. split; [vm_compute; reflexivity|].
  split; [vm_compute; reflexivity|].
  assert (H1 : forall A (x : A), exists y, Some x = Some y /\ True) by eauto.
  split; [vm_compute; eauto|]. split; [vm_compute; eauto|].
  refine (proj1 (status_moves_forward unit_exp no_float no_int _ "a1"%string _ _)
            (EvWorker worker_ok) _ _ _ _ _ _).
  - exists trace_claimed. vm_compute. reflexivity.
  - vm_compute. reflexivity.
  - vm_compute. reflexivity.
  - vm_compute. eauto.
  - vm_compute. eauto.
Defined.

(** The running job "a1" has its file in [data/processing]. *)
Lemma job_never_lost_witness :
  exists s,
    run unit_exp no_float no_int trace_running init = Some s /\
    (is_Some (jobs (st_store s) !! "a1"%string)
     \/ is_Some (processing (st_store s) !! "a1"%string)
     \/ has_result (st_store s) "a1").
Proof.
  eexists. split; [vm_compute; reflexivity|].
  refine (proj1 (job_never_lost unit_exp no_float no_int _ "a1"%string _) _).
  - exists trace_running. vm_compute. reflexivity.
  - left. vm_compute. eauto.
Defined.

(** The job of the request for water runs under any environment. *)
Lemma accepted_job_simulates_witness :
  exists ctime job r,
    jobs (snd (submit no_float no_int water_payload request_a1 (st_store init)))
      !! new_job_id request_a1 = Some (ctime, Intact job) /\
    result_of (run_simulation unit_exp
                 (Params (Some (material job)) (Some (thickness job))
                    (Some (samples job)) None)
                 (parallel job) None env_b) = Ok r /\
    r_material r = material job /\ r_thickness r = thickness job /\
    r_samples r = samples job /\ parallel_used r = parallel job /\
    well_formed_result r.
Proof.
  apply (accepted_job_simulates unit_exp no_float no_int water_payload request_a1
           (st_store init) (Response (JobIdBody "a1") 202) env_b); reflexivity.
Defined.

(** The simulation of the job the worker has read. *)
Lemma worker_simulation_succeeds_witness :
  exists s,
    run unit_exp no_float no_int trace_loaded init = Some s /\
    worker_raises unit_exp worker_ok s = false.
Proof.
  eexists. split; [vm_compute; reflexivity|].
  refine (proj1 (worker_simulation_succeeds unit_exp no_float no_int _ worker_ok
                   "a1"%string water_job _ _ _)).
  - exists trace_loaded. vm_compute. reflexivity.
  - vm_compute. reflexivity.
  - reflexivity.
Defined.

(** The result endpoint once the result file of "a1" is written. *)
Lemma endpoints_serve_own_records_witness :
  exists s,
    run unit_exp no_float no_int trace_saved init = Some s /\
    forall rec code,
      get_result "a1" (st_store s) = Response (ResultBody rec) code ->
      code = 200 /\ rm_job_id rec = "a1"%string /\ well_formed_result (rm_result rec).
Proof.
  eexists. split; [vm_compute; reflexivity|].
  refine (proj2 (proj2 (endpoints_serve_own_records unit_exp no_float no_int _
                          "a1"%string _))).
  exists trace_saved. vm_compute. reflexivity.
Defined.

(** The request for water, from the empty store to the status "done". *)
Lemma job_runs_to_done_witness :
  exists s',
    run unit_exp no_float no_int
      (EvSubmit water_payload request_a1 :: map EvWorker (repeat worker_ok 7)) init
    = Some s' /\
    st_worker s' = WPoll /\
    status (st_store s') !! "a1"%string
    = Some (Intact (StatusRecord "a1" "done" "completed_at" 6)).
Proof.
  destruct (job_runs_to_done unit_exp no_float no_int init water_payload request_a1
              worker_ok worker_ok worker_ok worker_ok worker_ok worker_ok worker_ok)
    as (s' & r & Hrun & Hpc & _ & _ & Hst & _).
  - reflexivity.
  - reflexivity.
  - reflexivity.
  - apply not_elem_of_empty.
  - reflexivity.
  - reflexivity.
  - reflexivity.
  - repeat constructor.
  - exists s'. split; [exact Hrun|]. split; [exact Hpc|exact Hst].
Defined.

(** The four files of job "a1" under [/srv/data]. *)
Lemma file_paths_distinct_witness :
  job_file_path "/srv/data" "a1" <> processing_file_path "/srv/data" "a1"
  /\ status_file_path "/srv/data" "a1" <> result_file_path "/srv/data" "a1".
Proof.
  destruct (file_paths_distinct "/srv/data" "a1" "a1" eq_refl eq_refl)
    as (_ & _ & _ & _ & H1 & _ & _ & _ & _ & H2).
  split; [exact H1|exact H2].
Defined.

(** The job file of job "a1". *)
Lemma jobfile_names_job_witness :
  endswith "a1.json" ".json" = true /\ jobid_of_file "a1.json" = "a1"%string.
Proof. apply (jobfile_names_job "a1" eq_refl). Defined.

(** Of three job files and a text file the older of the job files, and
    of the two oldest the first listed, is picked. *)
Lemma pick_jobfile_oldest_witness :
  exists t before after,
    List.filter (fun g => endswith (fst g) ".json")
      [("b7.json"%string, 7%Q); ("a5.json"%string, 5%Q); ("notes.txt"%string, 1%Q);
       ("c5.json"%string, 5%Q)]
    = before ++ ("a5.json"%string, t) :: after
    /\ List.Forall (fun g => (t < snd g)%Q) before
    /\ List.Forall (fun g => (t <= snd g)%Q) after.
Proof.
  apply (proj2 (pick_jobfile_oldest
                  [("b7.json"%string, 7%Q); ("a5.json"%string, 5%Q);
                   ("notes.txt"%string, 1%Q); ("c5.json"%string, 5%Q)])).
  vm_compute. reflexivity.
Defined.

(** A queue of three jobs, listed with the two oldest last: the first
    listed of the two oldest is picked, the job whose file is cut off. *)
Lemma worker_picks_oldest_job_witness :
  pick_jobfile listing3 = Some "c3.json"%string
  /\ jobid_of_file "c3.json" = "c3"%string
  /\ is_oldest queue3 "c3" = true
  /\ is_oldest queue3 "a1" = false.
Proof.
  destruct (worker_picks_oldest_job queue3 listing3) as [_ H].
  - unfold listing_of, listing3.
    transitivity
      (map (fun kv : string * (Q * file job_obj) =>
              ((fst kv ++ ".json")%string, fst (snd kv)))
         [("a1"%string, (5%Q, Intact water_job));
          ("b2"%string, (3%Q, Intact (JobObj "b2" "Lead" (Fin 2) 10 true 3)));
          ("c3"%string, (3%Q, Truncated))]).
    + simpl. apply perm_skip, perm_swap.
    + apply Permutation_map. symmetry. unfold queue3.
      etransitivity; [apply map_to_list_insert; vm_compute; reflexivity|].
      apply perm_skip.
      etransitivity; [apply map_to_list_insert; vm_compute; reflexivity|].
      apply perm_skip. rewrite insert_empty, map_to_list_singleton. reflexivity.
  - intros jid [v Hv]. unfold queue3 in Hv.
    repeat (apply lookup_insert_Some in Hv as [[<- _]|[_ Hv]]; [reflexivity|]).
    rewrite lookup_empty in Hv. discriminate.
  - destruct H as (jid & Hp & Hid & Ho).
    + unfold queue3. apply insert_non_empty.
    + vm_compute in Hp. injection Hp as Hj.
      assert (Hjid : jid = "c3"%string)
        by (apply (append_inj_r jid "c3" ".json"); symmetry; exact Hj).
      rewrite Hjid in Ho, Hid.
      split; [reflexivity|]. split; [exact Hid|]. split; [exact Ho|].
      vm_compute. reflexivity.
Defined.

